(** * Chat session manager and context-bounded completion proxy

    A shallow embedding of
    - [supabase/functions/gemini/index.ts] (the context-aware [serve] handler),
    - [src/components/BackendStatusBadge.tsx] ([runCheck]),
    - [src/components/PilotChat.tsx] ([isDuplicateUserMessage],
      [addSystemMessage], [handleSendMessage], [handleCommand]),
    and of the rest of these files (the single-shot [serve] handler, the
    health effect, [handleKeyDown], [handleFilePick], [removePendingFile] and
    the reply preview), followed by the properties of these functions.

    Conventions.  A JavaScript string is a [string] whose characters stand
    for UTF-16 code units below 256, so [s.length] is [String.length s] and
    [s.slice(0, n)] is [substring 0 n s]; the literals of the source that
    contain other characters are written as they are, and nothing below
    depends on their length.  Numbers are integers.  Values obtained from
    [JSON.parse] are terms of [json]; [undefined] is [None] in [jsval].
    Everything that the outside world decides (clock readings, fresh
    identifiers, network outcomes, store answers) is an explicit argument, and
    one call of an asynchronous function is run to completion without other
    events in between. *)

From Stdlib Require Import String Ascii List ZArith Bool Lia DecimalString.
Import ListNotations.

Set Warnings "-register-all".

Local Open Scope string_scope.
Local Open Scope Z_scope.

(* ================================================================== *)
(** ** JavaScript values *)

Module Js.

(** [s.length] *)
Definition strlen (s : string) : Z := Z.of_nat (String.length s).

(** [s.length > n ? s.slice(0, n) : s] *)
Definition truncate (n : nat) (s : string) : string :=
  if strlen s >? Z.of_nat n then substring 0 n s else s.

Inductive json : Type :=
| JNull
| JBool (b : bool)
| JNum (n : Z)
| JStr (s : string)
| JArr (items : list json)
| JObj (fields : list (string * json)).

(** A JavaScript value: [None] is [undefined]. *)
Definition jsval : Type := option json.

(** ToBoolean *)
Definition truthy (v : jsval) : bool :=
  match v with
  | None => false
  | Some JNull => false
  | Some (JBool b) => b
  | Some (JNum n) => negb (n =? 0)
  | Some (JStr s) => negb (String.eqb s "")
  | Some (JArr _) => true
  | Some (JObj _) => true
  end.

Fixpoint assoc (k : string) (fs : list (string * json)) : jsval :=
  match fs with
  | [] => None
  | (k', v) :: rest => if String.eqb k k' then Some v else assoc k rest
  end.

(** [v?.k] for one of the data keys used by the program; the same as [v.k]
    whenever [v] is neither [null] nor [undefined]. *)
Definition get (k : string) (v : jsval) : jsval :=
  match v with
  | Some (JObj fs) => assoc k fs
  | _ => None
  end.

(** [v?.[0]] *)
Definition first (v : jsval) : jsval :=
  match v with
  | Some (JArr items) => nth_error items 0
  | Some (JStr s) =>
      match s with
      | EmptyString => None
      | String c _ => Some (JStr (String c ""))
      end
  | Some (JObj fs) => assoc "0" fs
  | _ => None
  end.

(** [Array.isArray(v)] *)
Definition isArray (v : jsval) : bool :=
  match v with
  | Some (JArr _) => true
  | _ => false
  end.

(** [a || b] *)
Definition or_else (a b : jsval) : jsval := if truthy a then a else b.

(** [typeof v === 'string'] together with the string itself. *)
Definition as_string (v : jsval) : option string :=
  match v with
  | Some (JStr s) => Some s
  | _ => None
  end.

(** [String(j)], as performed by [+] against a string.  Elements of an
    array that are [null] are shown as the empty string. *)
Fixpoint to_string (j : json) : string :=
  match j with
  | JNull => "null"
  | JBool true => "true"
  | JBool false => "false"
  | JNum n => NilZero.string_of_int (Z.to_int n)
  | JStr s => s
  | JArr items =>
      String.concat ","
        (map (fun x => match x with
                       | JNull => ""
                       | _ => to_string x
                       end) items)
  | JObj _ => "[object Object]"
  end.

(** [response.ok] of the Fetch API. *)
Definition status_ok (status : Z) : bool := (200 <=? status) && (status <=? 299).

End Js.

(* ================================================================== *)
(** ** The context-aware completion proxy: [supabase/functions/gemini/index.ts] *)

Module Proxy.
Import Js.

(** A row of the [messages] table.  The table is kept as a list ordered by
    [created_at] ascending, so the identifier and the creation time of a row
    are left implicit in its position. *)
Record Row : Type := mkRow {
  chat_id : option string;
  content : string;
  sender : string
}.

(** [.from('messages').select('*').eq('chat_id', chatId)
     .order('created_at', { ascending: false }).limit(n)] *)
Definition select_recent (chatId : string) (n : nat) (table : list Row) : list Row :=
  firstn n
    (rev (filter (fun r => match chat_id r with
                           | Some c => String.eqb c chatId
                           | None => false
                           end) table)).

Inductive Role : Type := user | model.

(** One element of [contents]: [{ role, parts: [{ text }] }]. *)
Record Content : Type := mkContent {
  role : Role;
  text : string
}.

Definition MAX_MESSAGES : nat := 12.
Definition MAX_CONTEXT_CHARS : Z := 5000.

(** The [for (const message of contextMessages)] loop; [totalChars] and
    [contents] are the loop-carried variables, [break] returns. *)
Fixpoint add_context (contextMessages : list Row) (totalChars : Z)
         (contents : list Content) : list Content :=
  match contextMessages with
  | [] => contents
  | message :: rest =>
      let role := if String.eqb (sender message) "user" then user else model in
      let text := content message in
      if totalChars + strlen text >? MAX_CONTEXT_CHARS then contents
      else add_context rest (totalChars + strlen text)
                       (contents ++ [mkContent role text])
  end.

(** [contents] as built from [recentMessages] ([None] when the store
    answered with [data: null]) before the fallback. *)
Definition context_of (recentMessages : option (list Row)) : list Content :=
  match recentMessages with
  | Some (m :: ms) => add_context (rev (m :: ms)) 0 []
  | _ => []
  end.

(** [contents] as sent: the fallback turn is pushed when nothing was
    included. *)
Definition build_contents (recentMessages : option (list Row)) (prompt : string)
  : list Content :=
  let contents := context_of recentMessages in
  let truncatedPrompt := truncate 1000 prompt in
  match contents with
  | [] => contents ++ [mkContent user truncatedPrompt]
  | _ => contents
  end.

(** Extraction of the generated text from the upstream body; [None] is the
    initial [null]. *)
Definition extract_text (out : json) : option json :=
  let cand := first (get "candidates" (Some out)) in
  if truthy cand && truthy (get "content" cand)
     && isArray (get "parts" (get "content" cand))
     && truthy (get "text" (first (get "parts" (get "content" cand))))
  then get "text" (first (get "parts" (get "content" cand)))
  else if truthy (get "output" (Some out)) && isArray (get "output" (Some out))
          && truthy (get "text" (first (get "content" (first (get "output" (Some out))))))
  then get "text" (first (get "content" (first (get "output" (Some out)))))
  else None.

Inductive Method : Type := OPTIONS | GET | POST | OTHER.

(** The parsed request body, [{ prompt, chatId }]. *)
Record Body : Type := mkBody {
  prompt : jsval;
  chatId : jsval
}.

(** [await req.json()] followed by the destructuring. *)
Inductive Parsed : Type :=
| Rejects (message : string)
| Parses (b : Body).

Record Request : Type := mkRequest {
  method : Method;
  body : Parsed
}.

(** What the generation endpoint does with the call. *)
Inductive Upstream : Type :=
| FetchThrows (message : string)
| BodyUnreadable (status : Z) (message : string)
| Responds (status : Z) (out : json).

(** The world of one invocation: the server credential, the [messages]
    table, whether the history query fails, and the upstream behaviour as a
    function of the payload. *)
Record Env : Type := mkEnv {
  GEMINI_API_KEY : option string;
  messages : list Row;
  messagesError : bool;
  generate : list Content -> Upstream
}.

Inductive ResponseBody : Type :=
| Empty
| Health (enabled : bool) (error : option string)
| Failure (error : jsval) (raw : option json)
| Success (text : option json) (raw : json).

(** Every response of the handler carries [corsHeaders]. *)
Record Response : Type := mkResponse {
  status : Z;
  payload : ResponseBody
}.

(** [supabase.from('messages').insert({ chat_id, content, sender })] *)
Record Insert : Type := mkInsert {
  ins_chat_id : string;
  ins_content : json;
  ins_sender : string
}.

(** The observable result of one invocation: the HTTP response, the
    [contents] posted to the generation endpoint (if the call was made) and
    the inserts issued to the store, in order. *)
Record Outcome : Type := mkOutcome {
  response : Response;
  sent : option (list Content);
  inserts : list Insert
}.

Definition reply (st : Z) (b : ResponseBody) : Outcome :=
  mkOutcome (mkResponse st b) None [].

Definition missing (key : option string) : bool :=
  match key with
  | None => true
  | Some k => String.eqb k ""
  end.

(** [!v || typeof v !== 'string'] fails exactly on a non-empty string. *)
Definition required_string (v : jsval) : option string :=
  match as_string v with
  | Some s => if truthy v then Some s else None
  | None => None
  end.

(** The [data] of the history query: [null] when the query failed. *)
Definition fetch_recent (env : Env) (chatId : string) : option (list Row) :=
  if messagesError env then None
  else Some (select_recent chatId MAX_MESSAGES (messages env)).

Definition serve (env : Env) (req : Request) : Outcome :=
  match method req with
  | OPTIONS => reply 200 Empty
  | GET =>
      if missing (GEMINI_API_KEY env)
      then reply 503 (Health false (Some "GEMINI_API_KEY missing"))
      else reply 200 (Health true None)
  | OTHER => reply 405 (Failure (Some (JStr "Method not allowed")) None)
  | POST =>
      if missing (GEMINI_API_KEY env)
      then reply 400 (Failure (Some (JStr "GEMINI_API_KEY missing")) None)
      else
        match body req with
        | Rejects msg => reply 500 (Failure (Some (JStr msg)) None)
        | Parses b =>
            match required_string (prompt b) with
            | None => reply 400 (Failure (Some (JStr "Prompt is required")) None)
            | Some prompt =>
                match required_string (chatId b) with
                | None => reply 400 (Failure (Some (JStr "Chat ID is required")) None)
                | Some chatId =>
                    let recentMessages := fetch_recent env chatId in
                    let contents := build_contents recentMessages prompt in
                    match generate env contents with
                    | FetchThrows msg =>
                        mkOutcome (mkResponse 500 (Failure (Some (JStr msg)) None))
                                  (Some contents) []
                    | BodyUnreadable _ msg =>
                        mkOutcome (mkResponse 500 (Failure (Some (JStr msg)) None))
                                  (Some contents) []
                    | Responds st out =>
                        if negb (status_ok st) then
                          match out with
                          | JNull =>
                              mkOutcome
                                (mkResponse 500
                                   (Failure
                                      (Some (JStr "Cannot read properties of null (reading 'error')"))
                                      None))
                                (Some contents) []
                          | _ =>
                              mkOutcome
                                (mkResponse st
                                   (Failure
                                      (or_else (get "message" (get "error" (Some out)))
                                               (Some (JStr "Gemini API error")))
                                      (Some out)))
                                (Some contents) []
                          end
                        else
                          let text := extract_text out in
                          mkOutcome (mkResponse 200 (Success text out))
                                    (Some contents)
                                    (if truthy text
                                     then match text with
                                          | Some t => [mkInsert chatId t "assistant"]
                                          | None => []
                                          end
                                     else [])
                    end
                end
            end
        end
  end.

End Proxy.

(* ================================================================== *)
(** ** The health badge: [src/components/BackendStatusBadge.tsx] *)

Module Badge.
Import Js.

Inductive BackendStatus : Type := ok | warn | error.

(** How [await fetch(healthUrl, { signal })] settles: it rejects on its own,
    it rejects because the 6000 ms timer fired [controller.abort()] first,
    or it resolves with a response. *)
Inductive Fetch : Type :=
| Raises
| Aborted
| Resolves (status : Z).

(** The status written by [setStatus] in one run of [runCheck]. *)
Definition runCheck (f : Fetch) : BackendStatus :=
  match f with
  | Resolves status =>
      if status_ok status then ok
      else if status >=? 500 then error
      else warn
  | Raises => error
  | Aborted => error
  end.

End Badge.

(* ================================================================== *)
(** ** String operations used by the chat component *)

Module Text.

Definition nl : string := String (ascii_of_nat 10) "".

(** The characters matched by [\s] (and stripped by [trim]) among the code
    units below 256: TAB, LF, VT, FF, CR, SPACE and NBSP. *)
Definition is_space (c : ascii) : bool :=
  let n := nat_of_ascii c in
  ((9 <=? n) && (n <=? 13) || (n =? 32) || (n =? 160))%nat.

(** The class [[A-Za-z0-9-_]]. *)
Definition is_token_char (c : ascii) : bool :=
  let n := nat_of_ascii c in
  ((65 <=? n) && (n <=? 90) || (97 <=? n) && (n <=? 122)
   || (48 <=? n) && (n <=? 57) || (n =? 45) || (n =? 95))%nat.

Fixpoint drop_space (l : list ascii) : list ascii :=
  match l with
  | [] => []
  | c :: rest => if is_space c then drop_space rest else l
  end.

(** [s.trim()] *)
Definition trim (s : string) : string :=
  string_of_list_ascii
    (rev (drop_space (rev (drop_space (list_ascii_of_string s))))).

(** [s.startsWith(p)] *)
Definition startsWith (p s : string) : bool := String.prefix p s.

(** Does [/\s+([A-Za-z0-9-_]{16,})$/] match with the match starting at the
    head of [l]?  The run of spaces is taken greedily; giving some of it
    back cannot help, since a space is not in the class. *)
Definition redact_match (l : list ascii) : bool :=
  let rest := drop_space l in
  (Nat.ltb (List.length rest) (List.length l))
  && (Nat.leb 16 (List.length rest))
  && forallb is_token_char rest.

(** [l.replace(/\s+([A-Za-z0-9-_]{16,})$/, ' <REDACTED>')]: the leftmost
    start position at which the pattern matches is replaced, up to the end
    of the input. *)
Fixpoint redact_chars (l : list ascii) : list ascii :=
  match l with
  | [] => []
  | c :: rest =>
      if redact_match l then list_ascii_of_string " <REDACTED>"
      else c :: redact_chars rest
  end.

(** A list of characters that does not end with a space character. *)
Definition clean_end (q : list ascii) : Prop :=
  forall q0 x, q = (q0 ++ [x])%list -> is_space x = false.

Definition redact (raw : string) : string :=
  string_of_list_ascii (redact_chars (list_ascii_of_string raw)).

(** [l.split(/\s+/)]; [in_gap] tells that the previous character was a
    space (already accounted for as a separator). *)
Fixpoint split_ws (in_gap : bool) (l : list ascii) : list (list ascii) :=
  match l with
  | [] => [[]]
  | c :: rest =>
      if is_space c then
        if in_gap then split_ws true rest else [] :: split_ws true rest
      else
        match split_ws false rest with
        | w :: ws => (c :: w) :: ws
        | [] => [[c]]
        end
  end.

Definition split (s : string) : list string :=
  map string_of_list_ascii (split_ws false (list_ascii_of_string s)).

(** [parts.join(sep)] *)
Definition join (sep : string) (parts : list string) : string :=
  String.concat sep parts.

(** [String(n)] for a non-negative integer. *)
Definition of_nat (n : nat) : string :=
  NilZero.string_of_uint (Nat.to_uint n).

(** [!s] for an optional string: [undefined] or empty. *)
Definition absent (s : option string) : bool :=
  match s with
  | None => true
  | Some v => String.eqb v ""
  end.

Definition or_empty (s : option string) : string :=
  match s with
  | None => ""
  | Some v => v
  end.

End Text.

(* ================================================================== *)
(** ** The chat component: [src/components/PilotChat.tsx] *)

Module Chat.
Import Js Text.

Record Attachment : Type := mkAttachment {
  att_id : string;
  att_name : string;
  att_type : string;
  att_url : string
}.

Record KnowledgeFile : Type := mkFile {
  file_id : string;
  filename : string
}.

Inductive Sender : Type := user | pilot.

Inductive Status : Type := sending | sent | error.

(** [timestamp] is the instant, in milliseconds, that the ISO string of the
    source denotes ([new Date(m.timestamp).getTime()]). *)
Record Message : Type := mkMessage {
  id : string;
  content : string;
  sender : Sender;
  timestamp : Z;
  status : option Status;
  sources : option (list KnowledgeFile);
  checklist : option (list (string * bool));
  replyToId : option string;
  attachments : option (list Attachment)
}.

(** [{ ...m, status: st }] *)
Definition with_status (st : Status) (m : Message) : Message :=
  mkMessage (id m) (content m) (sender m) (timestamp m) (Some st)
            (sources m) (checklist m) (replyToId m) (attachments m).

Definition is_user (m : Message) : bool :=
  match sender m with
  | user => true
  | pilot => false
  end.

Definition is_pilot (m : Message) : bool := negb (is_user m).

Definition same_reply (a b : option string) : bool :=
  match a, b with
  | None, None => true
  | Some x, Some y => String.eqb x y
  | _, _ => false
  end.

(** [atts?.length ?? 0] *)
Definition count_attachments (atts : option (list Attachment)) : Z :=
  match atts with
  | None => 0
  | Some l => Z.of_nat (List.length l)
  end.

(** A thrown value, as far as the program looks at it: [err?.message] and
    [String(err)]. *)
Record Exn : Type := mkExn {
  message : string;
  shown : string
}.

(** [err?.message || String(err)] *)
Definition describe (err : Exn) : string :=
  if String.eqb (message err) "" then shown err else message err.

Inductive SupabaseStatus : Type := disconnected | connecting | connected | failed.

Record Client : Type := mkClient {
  url : string;
  key : string
}.

Record Toast : Type := mkToast {
  title : string;
  description : string
}.

(** The state of the component: the [useState] cells and the two refs that
    the submission path reads or writes, and the toasts emitted so far. *)
Record State : Type := mkState {
  messages : list Message;
  inputValue : string;
  isLoading : bool;
  isProcessingRef : bool;
  geminiHealth : bool;
  replyTo : option Message;
  pendingFiles : list Attachment;
  supabaseRef : option Client;
  supabaseStatus : SupabaseStatus;
  toasts : list Toast
}.

Definition setMessages (f : list Message -> list Message) (s : State) : State :=
  mkState (f (messages s)) (inputValue s) (isLoading s) (isProcessingRef s)
          (geminiHealth s) (replyTo s) (pendingFiles s) (supabaseRef s)
          (supabaseStatus s) (toasts s).

Definition setInputValue (v : string) (s : State) : State :=
  mkState (messages s) v (isLoading s) (isProcessingRef s)
          (geminiHealth s) (replyTo s) (pendingFiles s) (supabaseRef s)
          (supabaseStatus s) (toasts s).

Definition setIsLoading (b : bool) (s : State) : State :=
  mkState (messages s) (inputValue s) b (isProcessingRef s)
          (geminiHealth s) (replyTo s) (pendingFiles s) (supabaseRef s)
          (supabaseStatus s) (toasts s).

Definition setProcessing (b : bool) (s : State) : State :=
  mkState (messages s) (inputValue s) (isLoading s) b
          (geminiHealth s) (replyTo s) (pendingFiles s) (supabaseRef s)
          (supabaseStatus s) (toasts s).

Definition setReplyTo (r : option Message) (s : State) : State :=
  mkState (messages s) (inputValue s) (isLoading s) (isProcessingRef s)
          (geminiHealth s) r (pendingFiles s) (supabaseRef s)
          (supabaseStatus s) (toasts s).

Definition setPendingFiles (l : list Attachment) (s : State) : State :=
  mkState (messages s) (inputValue s) (isLoading s) (isProcessingRef s)
          (geminiHealth s) (replyTo s) l (supabaseRef s)
          (supabaseStatus s) (toasts s).

Definition setSupabaseRef (c : option Client) (s : State) : State :=
  mkState (messages s) (inputValue s) (isLoading s) (isProcessingRef s)
          (geminiHealth s) (replyTo s) (pendingFiles s) c
          (supabaseStatus s) (toasts s).

Definition setSupabaseStatus (st : SupabaseStatus) (s : State) : State :=
  mkState (messages s) (inputValue s) (isLoading s) (isProcessingRef s)
          (geminiHealth s) (replyTo s) (pendingFiles s) (supabaseRef s)
          st (toasts s).

Definition toast (t d : string) (s : State) : State :=
  mkState (messages s) (inputValue s) (isLoading s) (isProcessingRef s)
          (geminiHealth s) (replyTo s) (pendingFiles s) (supabaseRef s)
          (supabaseStatus s) (toasts s ++ [mkToast t d]).

(** The props of the component and the feature flag read by
    [useFeatureFlags]. *)
Record Props : Type := mkProps {
  projectId : string;
  projectName : string;
  hasDocuments : bool;
  gemini : bool
}.

(** How the [fetch] of the proxy and [resp.json()] settle. *)
Inductive ProxyReply : Type :=
| FetchFails (err : Exn)
| JsonFails (err : Exn)
| Replies (status : Z) (out : json).

(** The answer of the store to a query: [{ data, error }]. *)
Inductive Answer : Type :=
| Errors (err : Exn)
| Returns (data : json).

(** The data store reached through a client. *)
Record Backend : Type := mkBackend {
  probe : Client -> option Exn;
  list_rows : Client -> string -> Answer;
  insert_row : Client -> string -> json -> Answer;
  update_row : Client -> string -> string -> json -> Answer;
  delete_row : Client -> string -> string -> option Exn
}.

(** What the environment contributes to one call of [handleSendMessage]:
    the clock in the synchronous part of the call ([now]) and after the
    awaited operation has settled ([later]), the random part of each
    generated identifier, the behaviour of the proxy and of the store, and
    the JSON functions of the runtime. *)
Record World : Type := mkWorld {
  now : Z;
  later : Z;
  uuid_user : string;
  uuid_notice : string;
  uuid_command : string;
  uuid_reply : string;
  proxy : ProxyReply;
  backend : Backend;
  JSON_parse : string -> Exn + json;
  JSON_stringify : json -> string;
  JSON_pretty : json -> string
}.

(** [genId(prefix)] for a non-empty prefix. *)
Definition genId (prefix uuid : string) : string := prefix ++ "-" ++ uuid.

(** [knowledge.queryAccessible(projectId)] of [src/lib/knowledge.ts]. *)
Definition queryAccessible (pid : string)
  : list KnowledgeFile * (bool * bool * bool * bool) :=
  ([], (false, false, false, false)).

Definition buildChecklist (pid : string) : list (string * bool) :=
  let '(accessChecked, searchPrepared, permissionFiltered, indexRefreshed) :=
    snd (queryAccessible pid) in
  [ ("Acesso ao acervo global OK", accessChecked);
    ("Busca preparada", searchPrepared);
    ("Permissões aplicadas", permissionFiltered);
    ("Índice atualizado", indexRefreshed) ].

Definition isDuplicateUserMessage (clock : Z) (messages : list Message)
           (content0 : string) (replyToId0 : option string)
           (attachments0 : option (list Attachment)) : bool :=
  let tenSecondsAgo := clock - 10000 in
  existsb (fun m =>
             is_user m
             && String.eqb (content m) content0
             && same_reply (replyToId m) replyToId0
             && (count_attachments (attachments m) =? count_attachments attachments0)
             && (timestamp m >? tenSecondsAgo))
          messages.

(** The updater passed to [setMessages] by [addSystemMessage(text)]. *)
Definition addSystemMessage (uuid : string) (clock : Z) (text : string)
           (prev : list Message) : list Message :=
  let sys := mkMessage (genId "sys" uuid) text pilot clock (Some sent)
                       None None None None in
  if existsb (fun m => is_pilot m && String.eqb (content m) text) prev
  then prev
  else prev ++ [sys].

Definition notify (uuid : string) (clock : Z) (text : string) (s : State) : State :=
  setMessages (addSystemMessage uuid clock text) s.

(** [prev.map(m => m.id === uid ? { ...m, status: st } : m)] *)
Definition mark (uid : string) (st : Status) (prev : list Message) : list Message :=
  map (fun m => if String.eqb (id m) uid then with_status st m else m) prev.

(** [parts[i] === lit] *)
Definition part_is (parts : list string) (i : nat) (lit : string) : bool :=
  match nth_error parts i with
  | Some v => String.eqb v lit
  | None => false
  end.

(** [data?.length ?? 0], as interpolated into a template string. *)
Definition length_of (data : json) : string :=
  match data with
  | JArr items => of_nat (List.length items)
  | JStr v => of_nat (String.length v)
  | JObj fs =>
      match assoc "length" fs with
      | Some JNull => "0"
      | Some v => to_string v
      | None => "0"
      end
  | _ => "0"
  end.

(** [handleCommand(rawCmd)].  The result is the state left behind and the
    value thrown out of the function, if any; every branch of the source
    catches what its own awaited calls throw, so none is thrown here. *)
Definition handleCommand (w : World) (rawCmd : string) (s : State)
  : State * option Exn :=
  let parts := split (trim rawCmd) in
  let say (clock : Z) (text : string) (st : State) : State * option Exn :=
    (notify (uuid_command w) clock text st, None) in
  if part_is parts 0 "/supabase" && part_is parts 1 "connect" then
    let url := nth_error parts 2 in
    let key := nth_error parts 3 in
    if absent url || absent key then
      say (now w) "Uso: /supabase connect <url> <key>" s
    else
      let client := mkClient (or_empty url) (or_empty key) in
      let s1 := setSupabaseStatus connecting s in
      match probe (backend w) client with
      | None =>
          say (later w)
              "Conexão com Supabase estabelecida com sucesso. (Credenciais mantidas em memória). Local storage/session storage limpos."
              (setSupabaseStatus connected (setSupabaseRef (Some client) s1))
      | Some err =>
          say (later w) ("Falha ao conectar Supabase: " ++ describe err)
              (setSupabaseStatus failed s1)
      end
  else if part_is parts 0 "/migrar-mock" then
    say (now w)
        "Migração de mocks/localStorage foi desabilitada. Todas as operações devem ser feitas via Supabase."
        s
  else if part_is parts 0 "/listar" then
    let table := nth_error parts 1 in
    if absent table then say (now w) "Uso: /listar <tabela>" s
    else
      match supabaseRef s with
      | None => say (now w) "Supabase não conectado." s
      | Some client =>
          match list_rows (backend w) client (or_empty table) with
          | Returns data =>
              say (later w)
                  ("Resultados (" ++ length_of data ++ "):" ++ nl ++ nl
                   ++ JSON_pretty w data) s
          | Errors err => say (later w) ("Erro ao listar: " ++ describe err) s
          end
      end
  else if part_is parts 0 "/inserir" then
    let table := nth_error parts 1 in
    let json := join " " (skipn 2 parts) in
    if absent table || String.eqb json "" then
      say (now w) "Uso: /inserir <tabela> <json>" s
    else
      match supabaseRef s with
      | None => say (now w) "Supabase não conectado." s
      | Some client =>
          match JSON_parse w json with
          | inl err => say (now w) ("Erro ao inserir: " ++ describe err) s
          | inr obj =>
              match insert_row (backend w) client (or_empty table) obj with
              | Returns data =>
                  say (later w) ("Inserção realizada: " ++ JSON_stringify w data) s
              | Errors err => say (later w) ("Erro ao inserir: " ++ describe err) s
              end
          end
      end
  else if part_is parts 0 "/atualizar" then
    let table := nth_error parts 1 in
    let rid := nth_error parts 2 in
    let json := join " " (skipn 3 parts) in
    if absent table || absent rid || String.eqb json "" then
      say (now w) "Uso: /atualizar <tabela> <id> <json>" s
    else
      match supabaseRef s with
      | None => say (now w) "Supabase não conectado." s
      | Some client =>
          match JSON_parse w json with
          | inl err => say (now w) ("Erro ao atualizar: " ++ describe err) s
          | inr obj =>
              match update_row (backend w) client (or_empty table) (or_empty rid) obj with
              | Returns data =>
                  say (later w) ("Atualização realizada: " ++ JSON_stringify w data) s
              | Errors err => say (later w) ("Erro ao atualizar: " ++ describe err) s
              end
          end
      end
  else if part_is parts 0 "/deletar" then
    let table := nth_error parts 1 in
    let rid := nth_error parts 2 in
    if absent table || absent rid then
      say (now w) "Uso: /deletar <tabela> <id>" s
    else
      match supabaseRef s with
      | None => say (now w) "Supabase não conectado." s
      | Some client =>
          match delete_row (backend w) client (or_empty table) (or_empty rid) with
          | None =>
              say (later w)
                  ("Registro " ++ or_empty rid ++ " removido da tabela "
                   ++ or_empty table ++ ".") s
          | Some err => say (later w) ("Erro ao deletar: " ++ describe err) s
          end
      end
  else
    say (now w)
        "Comando desconhecido. Comandos disponíveis: /supabase connect, /listar, /inserir, /atualizar, /deletar"
        s.

(** [names.map((n, i) => `${i + 1}. ${n}`)], counting from [i]. *)
Fixpoint numbered (i : nat) (names : list string) : list string :=
  match names with
  | [] => []
  | n :: rest => (of_nat (i + 1) ++ ". " ++ n) :: numbered (i + 1) rest
  end.

(** The text of the local canned reply. *)
Definition replyContent (p : Props) (userMessage : Message) : string :=
  let files := fst (queryAccessible (projectId p)) in
  let sources := firstn (Nat.min 5 (List.length files)) files in
  let attachmentsNote :=
    match attachments userMessage with
    | Some (a :: rest) =>
        nl ++ nl ++ "### 📎 Anexos" ++ nl
        ++ join nl (numbered 0 (map att_name (a :: rest)))
    | _ => ""
    end in
  join (nl ++ nl)
    [ "## Análise";
      "Com base no contexto do projeto **" ++ projectName p
        ++ "** e no acervo acessível, seguem sugestões:";
      "### ✅ Checklist de Ações";
      "- [ ] Revisar documentação relevante";
      "- [ ] Implementar a próxima tarefa";
      "- [ ] Testar integração e fluxos";
      "- [ ] Validar com stakeholders";
      "### ℹ️ Fontes";
      match sources with
      | [] => "Nenhum PDF cadastrado ainda"
      | _ => join nl (numbered 0 (map filename sources))
      end;
      attachmentsNote ].

(** The text shown for a successful proxy answer [out]:
    [out?.text || out?.raw?.candidates?.[0]?.content?.parts?.[0]?.text ||
     out?.raw?.output?.[0]?.content?.[0]?.text ||
     JSON.stringify(out?.raw || out).slice(0, 2000)], then
    [text || 'Sem resposta do Gemini.'].  A text that is not a string is
    recorded through its string conversion. *)
Definition replyText (w : World) (out : json) : string :=
  let o := Some out in
  let raw := get "raw" o in
  let dumped :=
    match or_else raw o with
    | Some j => substring 0 2000 (JSON_stringify w j)
    | None => ""
    end in
  let text :=
    or_else (get "text" o)
      (or_else (get "text" (first (get "parts" (get "content" (first (get "candidates" raw))))))
         (or_else (get "text" (first (get "content" (first (get "output" raw)))))
            (Some (JStr dumped)))) in
  match or_else text (Some (JStr "Sem resposta do Gemini.")) with
  | Some j => to_string j
  | None => ""
  end.

(** [out?.error || fallback], concatenated to a string. *)
Definition errorText (out : json) (fallback : string) : string :=
  match or_else (get "error" (Some out)) (Some (JStr fallback)) with
  | Some j => to_string j
  | None => fallback
  end.

(** The [finally] blocks of the submission. *)
Definition release (s : State) : State :=
  setProcessing false (setIsLoading false s).

Definition duplicateNotice : string := "Mensagem duplicada impedida.".

(** The user message recorded for a command line. *)
Definition commandMessage (w : World) (sanitized : string) : Message :=
  mkMessage (genId "u" (uuid_user w)) sanitized user (now w)
            (Some sending) None None None None.

(** The five state updates that follow the creation of the user message:
    [setMessages((prev) => [...prev, userMessage]); setInputValue('');
     setReplyTo(null); setPendingFiles([]); setIsLoading(true)]. *)
Definition stage (userMessage : Message) (s : State) : State :=
  setIsLoading true
    (setPendingFiles []
       (setReplyTo None
          (setInputValue ""
             (setMessages (fun prev => (prev ++ [userMessage])%list) s)))).

(** [handleSendMessage] with the command dispatcher as a parameter, so that
    both continuations of [await handleCommand(raw)] (the rest of the [try]
    block and the [catch] block) are described. *)
Definition handleSendMessage_with
           (dispatch : World -> string -> State -> State * option Exn)
           (p : Props) (w : World) (s : State) : State :=
  let geminiAtivo := gemini p in
  let geminiEnabled := gemini p && geminiHealth s in
  if negb geminiAtivo then
    notify (uuid_notice w) (now w)
           "Atenção: Gemini/IA desativado no momento. Ative para enviar mensagens." s
  else if String.eqb (trim (inputValue s)) "" || isLoading s || isProcessingRef s
  then s
  else
    let s1 := setProcessing true s in
    if startsWith "/" (trim (inputValue s)) then
      let raw := trim (inputValue s) in
      let sanitized := redact raw in
      if isDuplicateUserMessage (now w) (messages s) sanitized None None then
        setInputValue "" (notify (uuid_notice w) (now w) duplicateNotice s1)
      else
        let userMessage := commandMessage w sanitized in
        let s2 := stage userMessage s1 in
        let (s3, thrown) := dispatch w raw s2 in
        match thrown with
        | None =>
            release (setMessages (mark (id userMessage) sent) s3)
        | Some err =>
            release
              (setMessages (mark (id userMessage) error)
                 (notify (uuid_notice w) (later w)
                         ("Erro ao executar comando: " ++ describe err) s3))
        end
    else
      let content0 := inputValue s in
      if isDuplicateUserMessage (now w) (messages s) content0
                                (option_map id (replyTo s)) (Some (pendingFiles s))
      then
        setProcessing false
          (setInputValue "" (notify (uuid_notice w) (now w) duplicateNotice s1))
      else
        let userMessage :=
          mkMessage (genId "u" (uuid_user w)) content0 user (now w)
                    (Some sending) None None
                    (option_map id (replyTo s)) (Some (pendingFiles s)) in
        let s2 := stage userMessage s1 in
        if geminiEnabled then
          match proxy w with
          | FetchFails err | JsonFails err =>
              release
                (setMessages (mark (id userMessage) error)
                   (notify (uuid_notice w) (later w) ("Erro Gemini: " ++ describe err)
                      (toast "Erro Gemini"
                             (if String.eqb (message err) ""
                              then "Falha ao contactar Gemini" else message err)
                             s2)))
          | Replies st out =>
              if negb (status_ok st) then
                release
                  (setIsLoading false
                     (notify (uuid_notice w) (later w)
                        ("Erro Gemini: " ++ errorText out "Resposta inválida")
                        (toast "Erro Gemini"
                               (errorText out
                                  ("Gemini proxy error ("
                                   ++ NilZero.string_of_int (Z.to_int st) ++ ")"))
                               s2)))
              else
                let reply :=
                  mkMessage (genId "p" (uuid_reply w)) (replyText w out) pilot (later w)
                            (Some sent)
                            (Some (firstn 5 (fst (queryAccessible (projectId p)))))
                            (Some (buildChecklist (projectId p)))
                            None None in
                release
                  (setMessages (mark (id userMessage) sent)
                     (setMessages (fun prev => (prev ++ [reply])%list) s2))
          end
        else
          let text := replyContent p userMessage in
          let files := fst (queryAccessible (projectId p)) in
          let reply :=
            mkMessage (genId "p" (uuid_reply w)) text pilot (now w) (Some sent)
                      (Some (firstn (Nat.min 5 (List.length files)) files))
                      (Some (buildChecklist (projectId p)))
                      None None in
          setProcessing false
            (setIsLoading false
               (setMessages (mark (id userMessage) sent)
                  (setMessages
                     (fun prev =>
                        if existsb (fun m => is_pilot m && String.eqb (content m) text) prev
                        then prev else (prev ++ [reply])%list)
                     s2))).

Definition handleSendMessage : Props -> World -> State -> State :=
  handleSendMessage_with handleCommand.

(** Typing into the input field: [onChange={(e) => setInputValue(e.target.value)}]. *)
Definition typeInput (v : string) (s : State) : State := setInputValue v s.

End Chat.

(* ================================================================== *)
(** ** Vocabulary of the properties and sample inputs *)

Module Measures.
Import Js.

(** The turn that the loop pushes for a stored row. *)
Definition turn (m : Proxy.Row) : Proxy.Content :=
  Proxy.mkContent
    (if String.eqb (Proxy.sender m) "user" then Proxy.user else Proxy.model)
    (Proxy.content m).

(** Sum of the text lengths of stored rows. *)
Fixpoint chars (ms : list Proxy.Row) : Z :=
  match ms with
  | [] => 0
  | m :: rest => strlen (Proxy.content m) + chars rest
  end.

(** Sum of the text lengths of the turns of a payload. *)
Fixpoint total_chars (cs : list Proxy.Content) : Z :=
  match cs with
  | [] => 0
  | c :: rest => strlen (Proxy.text c) + total_chars rest
  end.

(** The loaded turns in chronological order (none when the query failed). *)
Definition window (env : Proxy.Env) (chatId : string) : list Proxy.Row :=
  match Proxy.fetch_recent env chatId with
  | Some recent => rev recent
  | None => []
  end.

(** A well-formed generation request. *)
Definition post (prompt chatId : string) : Proxy.Request :=
  Proxy.mkRequest Proxy.POST
    (Proxy.Parses (Proxy.mkBody (Some (JStr prompt)) (Some (JStr chatId)))).

(** The number of user-authored messages of a transcript. *)
Definition user_count (ms : list Chat.Message) : nat :=
  List.length (filter Chat.is_user ms).

(** The number of pilot-authored messages with the given content. *)
Definition notice_count (text : string) (ms : list Chat.Message) : nat :=
  List.length
    (filter (fun m => Chat.is_pilot m && String.eqb (Chat.content m) text) ms).

(** A dispatcher that touches the transcript only by appending
    pilot-authored notices, as [handleCommand] does through
    [addSystemMessage]. *)
Definition appends_notices
           (dispatch : Chat.World -> string -> Chat.State -> Chat.State * option Chat.Exn)
  : Prop :=
  forall w raw st,
  exists notices,
    Chat.messages (fst (dispatch w raw st)) = (Chat.messages st ++ notices)%list
    /\ forallb Chat.is_pilot notices = true.

(** What [handleSendMessage] compares with the stored messages: for a
    command line the redacted text, no reply target and no attachment; for
    any other input the text as typed, the pending reply target and the
    pending attachments. *)
Definition is_command (s : Chat.State) : bool :=
  Text.startsWith "/" (Text.trim (Chat.inputValue s)).

Definition submitted_text (s : Chat.State) : string :=
  if is_command s then Text.redact (Text.trim (Chat.inputValue s))
  else Chat.inputValue s.

Definition submitted_reply (s : Chat.State) : option string :=
  if is_command s then None else option_map Chat.id (Chat.replyTo s).

Definition submitted_attachments (s : Chat.State) : Z :=
  if is_command s then 0 else Z.of_nat (List.length (Chat.pendingFiles s)).

(** The entry guards of [handleSendMessage] let the call through. *)
Definition accepted (p : Chat.Props) (s : Chat.State) : Prop :=
  Chat.gemini p = true
  /\ Text.trim (Chat.inputValue s) <> ""
  /\ Chat.isLoading s = false
  /\ Chat.isProcessingRef s = false.

(** [addSystemMessage(text)] called once per element of [calls], each call
    with its own identifier and clock reading. *)
Definition announce (calls : list (string * Z)) (text : string)
           (prev : list Chat.Message) : list Chat.Message :=
  fold_left (fun acc call => Chat.addSystemMessage (fst call) (snd call) text acc)
            calls prev.

End Measures.

Module Sample.
Import Js.

Fixpoint fill (n : nat) (c : ascii) : string :=
  match n with
  | O => EmptyString
  | S k => String c (fill k c)
  end.

Definition row (c : string) (who : string) (body : string) : Proxy.Row :=
  Proxy.mkRow (Some c) body who.

(** An upstream that answers 200 with one candidate. *)
Definition answer (txt : string) : json :=
  JObj [("candidates",
         JArr [JObj [("content", JObj [("parts", JArr [JObj [("text", JStr txt)]])])]])].

Definition upstream_ok (txt : string) (_ : list Proxy.Content) : Proxy.Upstream :=
  Proxy.Responds 200 (answer txt).

Definition env_of (table : list Proxy.Row) : Proxy.Env :=
  Proxy.mkEnv (Some "k") table false (upstream_ok "ola").

(** Fifteen stored turns of conversation ["c1"], 1000 characters each. *)
Definition fifteen : list Proxy.Row :=
  map (fun i => row "c1" (if Nat.even i then "user" else "assistant")
                    (fill 1000 "a"%char))
      (seq 0 15).

(** Thirteen stored turns whose oldest one has 5001 characters. *)
Definition thirteen : list Proxy.Row :=
  row "c1" "user" (fill (5 * 1000 + 1) "a"%char)
  :: map (fun i => row "c1" "assistant" "ok") (seq 0 12).

(** Three stored turns whose oldest one has 5001 characters. *)
Definition three : list Proxy.Row :=
  [ row "c1" "user" (fill (5 * 1000 + 1) "a"%char);
    row "c1" "assistant" "ok";
    row "c1" "user" "e agora?" ].

(** Three stored turns of 2000, 4000 and 10 characters. *)
Definition uneven : list Proxy.Row :=
  [ row "c1" "user" (fill 2000 "a"%char);
    row "c1" "assistant" (fill 4000 "b"%char);
    row "c1" "user" (fill 10 "c"%char) ].

(** Rows of another conversation only. *)
Definition others : list Proxy.Row :=
  [ row "c2" "user" "oi"; Proxy.mkRow None "solto" "assistant" ].

(** A store that rejects everything and a runtime whose [JSON.parse]
    fails. *)
Definition refused : Chat.Exn := Chat.mkExn "Invalid API key" "Error: Invalid API key".

Definition backend : Chat.Backend :=
  Chat.mkBackend (fun _ => Some refused)
                 (fun _ _ => Chat.Errors refused)
                 (fun _ _ _ => Chat.Errors refused)
                 (fun _ _ _ _ => Chat.Errors refused)
                 (fun _ _ _ => Some refused).

Definition world (clock : Z) (n : string) (reply : Chat.ProxyReply) : Chat.World :=
  Chat.mkWorld clock (clock + 250) ("a" ++ n) ("b" ++ n) ("c" ++ n) ("d" ++ n)
               reply backend
               (fun _ => inl (Chat.mkExn "Unexpected token" "SyntaxError: Unexpected token"))
               (fun _ => "{}")
               (fun _ => "{}").

Definition props : Chat.Props := Chat.mkProps "p1" "Demo" false true.

Definition hello : Chat.Message :=
  Chat.mkMessage "hello" "Ola!" Chat.pilot 0 (Some Chat.sent)
                 (Some []) (Some (Chat.buildChecklist "p1")) None None.

Definition earlier (text : string) : Chat.Message :=
  Chat.mkMessage "u-0" text Chat.user 1000 (Some Chat.sent) None None None (Some []).

(** The component with transcript [ms] and [input] typed in; nothing in
    flight, the proxy reported healthy. *)
Definition typed (ms : list Chat.Message) (input : string) : Chat.State :=
  Chat.mkState ms input false false true None [] None Chat.disconnected [].

Definition boom : json := JObj [("error", JStr "quota exceeded")].

Definition secret_line : string :=
  "/supabase connect https://x.supabase.co eyJhbGciOiJIUzI1NiIsInR5cCI6".

Definition at1 : Chat.World :=
  world 2000 "1" (Chat.Replies 200 (JObj [("text", JStr "ola")])).

Definition at2 : Chat.World :=
  world 3000 "2" (Chat.Replies 200 (JObj [("text", JStr "ola")])).

(** The proxy answers 500 with an error body. *)
Definition failing : Chat.World := world 2000 "1" (Chat.Replies 500 boom).

(** ["oi"] typed again one second after it was sent. *)
Definition repeated : Chat.State := typed [hello; earlier "oi"] "oi".

(** ["/migrar-mock"] typed again one second after it was sent. *)
Definition repeated_command : Chat.State :=
  typed [hello; earlier "/migrar-mock"] "/migrar-mock".

Definition fresh : Chat.State := typed [hello] "oi".

Definition secret : Chat.State := typed [hello] secret_line.

(** A dispatcher that throws without touching the state. *)
Definition throwing (_ : Chat.World) (_ : string) (s : Chat.State)
  : Chat.State * option Chat.Exn :=
  (s, Some (Chat.mkExn "falhou" "Error: falhou")).

End Sample.

(* ================================================================== *)
(** ** The single-shot proxy: the first handler of [supabase/functions/gemini/index.ts] *)

Module Single.
Import Js.

(** The world of one invocation: the server credential and the upstream
    behaviour as a function of the text posted. *)
Record Env : Type := mkEnv {
  GEMINI_API_KEY : option string;
  generate : string -> Proxy.Upstream
}.

(** [const { prompt } = await req.json()] *)
Inductive Parsed : Type :=
| Rejects (message : string)
| Parses (prompt : jsval).

Record Request : Type := mkRequest {
  method : Proxy.Method;
  body : Parsed
}.

(** The HTTP response and the text of the single part posted to the
    generation endpoint, if the call was made. *)
Record Outcome : Type := mkOutcome {
  response : Proxy.Response;
  sent : option string
}.

Definition reply (st : Z) (b : Proxy.ResponseBody) : Outcome :=
  mkOutcome (Proxy.mkResponse st b) None.

Definition serve (env : Env) (req : Request) : Outcome :=
  match method req with
  | Proxy.OPTIONS => reply 200 Proxy.Empty
  | Proxy.GET =>
      if Proxy.missing (GEMINI_API_KEY env)
      then reply 503 (Proxy.Health false (Some "GEMINI_API_KEY missing"))
      else reply 200 (Proxy.Health true None)
  | Proxy.OTHER => reply 405 (Proxy.Failure (Some (JStr "Method not allowed")) None)
  | Proxy.POST =>
      if Proxy.missing (GEMINI_API_KEY env)
      then reply 400 (Proxy.Failure (Some (JStr "GEMINI_API_KEY missing")) None)
      else
        match body req with
        | Rejects msg => reply 500 (Proxy.Failure (Some (JStr msg)) None)
        | Parses prompt =>
            match Proxy.required_string prompt with
            | None => reply 400 (Proxy.Failure (Some (JStr "Prompt is required")) None)
            | Some prompt =>
                let truncated := truncate 5000 prompt in
                match generate env truncated with
                | Proxy.FetchThrows msg =>
                    mkOutcome (Proxy.mkResponse 500 (Proxy.Failure (Some (JStr msg)) None))
                              (Some truncated)
                | Proxy.BodyUnreadable _ msg =>
                    mkOutcome (Proxy.mkResponse 500 (Proxy.Failure (Some (JStr msg)) None))
                              (Some truncated)
                | Proxy.Responds st out =>
                    if negb (status_ok st) then
                      match out with
                      | JNull =>
                          mkOutcome
                            (Proxy.mkResponse 500
                               (Proxy.Failure
                                  (Some (JStr "Cannot read properties of null (reading 'error')"))
                                  None))
                            (Some truncated)
                      | _ =>
                          mkOutcome
                            (Proxy.mkResponse st
                               (Proxy.Failure
                                  (or_else (get "message" (get "error" (Some out)))
                                           (Some (JStr "Gemini API error")))
                                  (Some out)))
                            (Some truncated)
                      end
                    else
                      mkOutcome
                        (Proxy.mkResponse 200 (Proxy.Success (Proxy.extract_text out) out))
                        (Some truncated)
                end
            end
        end
  end.

End Single.

(* ================================================================== *)
(** ** The rest of the chat component: keyboard, files, reply preview, health *)

Module Ui.
Import Js Text Chat.

(** The component state together with the selection cursor
    ([selectedIdx], [null] being [None]). *)
Record View : Type := mkView {
  state : State;
  selectedIdx : option Z
}.

(** What [handleKeyDown] reads of the keyboard event. *)
Record KeyEvent : Type := mkKey {
  key : string;
  shiftKey : bool;
  target : string
}.

(** [messages[i]] *)
Definition at_index (ms : list Message) (i : Z) : option Message :=
  if i <? 0 then None else nth_error ms (Z.to_nat i).

Definition onSelectMessage (index : Z) (v : View) : View :=
  mkView (state v) (Some index).

(** [handleReply(m)]; the argument is [undefined] when [handleKeyDown]
    indexes outside the transcript. *)
Definition handleReply (m : option Message) (s : State) : State := setReplyTo m s.

Definition cancelReply (s : State) : State := setReplyTo None s.

(** [e.key.toLowerCase() === "r"] *)
Definition is_r (k : string) : bool := String.eqb k "r" || String.eqb k "R".

(** One run of [handleKeyDown(e)] in a render whose state is [v]. *)
Definition handleKeyDown (p : Props) (w : World) (e : KeyEvent) (v : View) : View :=
  let s := state v in
  let len := Z.of_nat (List.length (messages s)) in
  let v1 :=
    if String.eqb (key e) "Enter" && negb (shiftKey e)
       && String.eqb (target e) "pilot-input"
    then
      if negb (isLoading s) && negb (isProcessingRef s)
      then mkView (handleSendMessage p w s) (selectedIdx v)
      else v
    else v in
  let v2 :=
    if String.eqb (key e) "Escape"
    then mkView (cancelReply (state v1)) (selectedIdx v1)
    else v1 in
  let v3 :=
    if is_r (key e) then
      match selectedIdx v with
      | Some i => mkView (handleReply (at_index (messages s) i) (state v2)) (selectedIdx v2)
      | None => v2
      end
    else v2 in
  let v4 :=
    if String.eqb (key e) "ArrowUp" then
      mkView (state v3)
             (Some (match selectedIdx v3 with
                    | None => len - 1
                    | Some i => Z.max 0 (i - 1)
                    end))
    else v3 in
  if String.eqb (key e) "ArrowDown" then
    mkView (state v4)
           (Some (match selectedIdx v4 with
                  | None => 0
                  | Some i => Z.min (len - 1) (i + 1)
                  end))
  else v4.

(** A picked file, with what the environment contributes to its attachment
    record: the result of [genId()] and of [URL.createObjectURL(f)]. *)
Record Picked : Type := mkPicked {
  file_name : string;
  file_type : string;
  file_uuid : string;
  file_url : string
}.

Definition attachment_of (f : Picked) : Attachment :=
  mkAttachment (file_name f ++ "-" ++ file_uuid f) (file_name f) (file_type f)
               (file_url f).

(** [handleFilePick(e)]; [files = None] when [e.target.files] is [null]. *)
Definition handleFilePick (files : option (list Picked)) (s : State) : State :=
  match files with
  | None => s
  | Some fs => setPendingFiles (pendingFiles s ++ map attachment_of fs)%list s
  end.

Definition removePendingFile (aid : string) (s : State) : State :=
  setPendingFiles (filter (fun a => negb (String.eqb (att_id a) aid)) (pendingFiles s)) s.

(** The line rendered above a message that answers another one:
    [m.replyToId && messages.find(mm => mm.id === m.replyToId)?.content.slice(0, 120)];
    [None] when nothing is shown. *)
Definition replyPreview (ms : list Message) (m : Message) : option string :=
  match replyToId m with
  | None => None
  | Some rid =>
      if String.eqb rid "" then None
      else
        match find (fun mm => String.eqb (id mm) rid) ms with
        | Some mm => Some (substring 0 120 (content mm))
        | None => None
        end
  end.

Definition setGeminiHealth (b : bool) (s : State) : State :=
  mkState (messages s) (inputValue s) (isLoading s) (isProcessingRef s)
          b (replyTo s) (pendingFiles s) (supabaseRef s)
          (supabaseStatus s) (toasts s).

(** How the [GET] of the health effect settles. *)
Inductive Probe : Type :=
| ProbeFails
| ProbeAnswers (status : Z).

(** The health effect of the component, once its [fetch] has settled;
    [mounted] is the flag cleared by the cleanup of the effect. *)
Definition healthEffect (mounted : bool) (f : Probe) (s : State) : State :=
  if negb mounted then s
  else
    match f with
    | ProbeFails => setGeminiHealth false s
    | ProbeAnswers st =>
        if negb (status_ok st) then setGeminiHealth false s
        else setGeminiHealth (st =? 200) s
    end.

(** The transcript installed by the mount effect: the greeting alone. *)
Definition greeting (p : Props) (clock : Z) : Message :=
  mkMessage "hello"
            ("Olá! Eu sou o Pilot, sua assistente do projeto **" ++ projectName p
             ++ "**. Conecte o Supabase para carregar dados reais.")
            pilot clock (Some sent)
            (Some (fst (queryAccessible (projectId p))))
            (Some (buildChecklist (projectId p)))
            None None.

(** The component after its mount effects, before any health answer. *)
Definition mounted (p : Props) (clock : Z) : State :=
  mkState [greeting p clock] "" false false false None [] None disconnected [].

(** The same world with another proxy behaviour, another store, or other
    JSON functions. *)
Definition with_proxy (r : ProxyReply) (w : World) : World :=
  mkWorld (now w) (later w) (uuid_user w) (uuid_notice w) (uuid_command w)
          (uuid_reply w) r (backend w) (JSON_parse w) (JSON_stringify w)
          (JSON_pretty w).

Definition with_backend (b : Backend) (w : World) : World :=
  mkWorld (now w) (later w) (uuid_user w) (uuid_notice w) (uuid_command w)
          (uuid_reply w) (proxy w) b (JSON_parse w) (JSON_stringify w)
          (JSON_pretty w).

(** A message without its status. *)
Definition unstamped (m : Message) : Message :=
  mkMessage (id m) (content m) (sender m) (timestamp m) None
            (sources m) (checklist m) (replyToId m) (attachments m).

(** The change that one submission may make to a message already in the
    transcript: none, or a new status for the messages carrying [uid]. *)
Definition restamp (uid : string) (st : option Status) (m : Message) : Message :=
  match st with
  | None => m
  | Some v => if String.eqb (id m) uid then with_status v m else m
  end.

(** The token lists of the commands that need a store session, with their
    required arguments present. *)
Definition store_command (parts : list string) : Prop :=
  (exists t rest, parts = "/listar" :: t :: rest /\ t <> "")
  \/ (exists t j rest, parts = "/inserir" :: t :: j :: rest /\ t <> "" /\ j <> "")
  \/ (exists t i j rest,
        parts = "/atualizar" :: t :: i :: j :: rest /\ t <> "" /\ i <> "" /\ j <> "")
  \/ (exists t i rest, parts = "/deletar" :: t :: i :: rest /\ t <> "" /\ i <> "").

(** The badge as a client of a proxy: the fetch resolves with the status of
    the proxy's answer to [GET]. *)
Definition badge_of (env : Proxy.Env) : Badge.BackendStatus :=
  Badge.runCheck
    (Badge.Resolves
       (Proxy.status
          (Proxy.response
             (Proxy.serve env (Proxy.mkRequest Proxy.GET (Proxy.Rejects "")))))).

(** The health effect as a client of a proxy. *)
Definition health_of (env : Proxy.Env) (s : State) : State :=
  healthEffect true
    (ProbeAnswers
       (Proxy.status
          (Proxy.response
             (Proxy.serve env (Proxy.mkRequest Proxy.GET (Proxy.Rejects ""))))))
    s.

(** The JSON text of a response body, as read back by [resp.json()] in the
    chat: [{ enabled, error? }], [{ error, raw? }] or [{ ok, text, raw }];
    fields whose value is [undefined] are left out. *)
Definition field (k : string) (v : jsval) : list (string * json) :=
  match v with
  | Some j => [(k, j)]
  | None => []
  end.

Definition body_json (b : Proxy.ResponseBody) : option json :=
  match b with
  | Proxy.Empty => None
  | Proxy.Health enabled reason =>
      Some (JObj (("enabled", JBool enabled) :: field "error" (option_map JStr reason)))
  | Proxy.Failure reason raw =>
      Some (JObj (field "error" reason ++ field "raw" raw))
  | Proxy.Success text raw =>
      Some (JObj [("ok", JBool true);
                  ("text", match text with Some t => t | None => JNull end);
                  ("raw", raw)])
  end.

(** What the [fetch] of [handleSendMessage] observes of a response. *)
Definition observed (r : Proxy.Response) : ProxyReply :=
  match body_json (Proxy.payload r) with
  | Some out => Replies (Proxy.status r) out
  | None => JsonFails (mkExn "Unexpected end of JSON input"
                             "SyntaxError: Unexpected end of JSON input")
  end.

(** The request made by [handleSendMessage]:
    [POST] with body [JSON.stringify({ prompt: content })]. *)
Definition chat_request (content0 : string) : Proxy.Request :=
  Proxy.mkRequest Proxy.POST (Proxy.Parses (Proxy.mkBody (Some (JStr content0)) None)).

Definition chat_request_single (content0 : string) : Single.Request :=
  Single.mkRequest Proxy.POST (Single.Parses (Some (JStr content0))).

End Ui.

Module Cases.
Import Js.

Definition picked : list Ui.Picked :=
  [ Ui.mkPicked "a.pdf" "application/pdf" "f1" "blob:1";
    Ui.mkPicked "b.png" "image/png" "f2" "blob:2" ].

(** A store that accepts the credentials and returns two rows. *)
Definition open_backend : Chat.Backend :=
  Chat.mkBackend (fun _ => None)
                 (fun _ _ => Chat.Returns (JArr [JObj [("id", JNum 1)]; JObj [("id", JNum 2)]]))
                 (fun _ _ row => Chat.Returns (JArr [row]))
                 (fun _ _ _ row => Chat.Returns (JArr [row]))
                 (fun _ _ _ => None).

Definition open_world : Chat.World := Ui.with_backend open_backend Sample.at1.

(** ["oi"] typed while answering the greeting, with two files staged. *)
Definition replying : Chat.State :=
  Chat.mkState [Sample.hello] "oi" false false true (Some Sample.hello)
               (map Ui.attachment_of picked) None Chat.disconnected [].

(** The same with the proxy reported unhealthy. *)
Definition offline : Chat.State :=
  Chat.mkState [Sample.hello] "oi" false false false (Some Sample.hello)
               (map Ui.attachment_of picked) None Chat.disconnected [].

(** A command line typed with a reply target and two files staged. *)
Definition command_with_files : Chat.State :=
  Chat.mkState [Sample.hello] "/migrar-mock" false false true (Some Sample.hello)
               (map Ui.attachment_of picked) None Chat.disconnected [].

(** The text [{"x":1}]. *)
Definition json_arg : string :=
  "{" ++ String (ascii_of_nat 34) "x" ++ String (ascii_of_nat 34) ":1}".

Definition no_key : Proxy.Env := Proxy.mkEnv None [] false (Sample.upstream_ok "ola").

Definition refusing (st : Z) (_ : list Proxy.Content) : Proxy.Upstream :=
  Proxy.Responds st (JObj [("error", JObj [("message", JStr "quota exceeded")])]).

Definition single_env : Single.Env :=
  Single.mkEnv (Some "k") (fun _ => Proxy.Responds 200 (Sample.answer "ola")).

End Cases.

(* ================================================================== *)
(** ** Properties of the completion proxy *)

Section ProxyFacts.
Import Js Proxy Measures.

Lemma strlen_nonneg (s : string) : 0 <= strlen s.
Proof. unfold strlen. lia. Qed.

Lemma length_substring_le (s : string) (n : nat) :
  (String.length (substring 0 n s) <= n)%nat.
Proof.
  revert n. induction s as [|c s IH]; intros [|n]; simpl; try lia.
  specialize (IH n). lia.
Qed.

Lemma truncate_bound (n : nat) (s : string) : strlen (truncate n s) <= Z.of_nat n.
Proof.
  unfold truncate. destruct (strlen s >? Z.of_nat n) eqn:E.
  - unfold strlen. pose proof (length_substring_le s n). lia.
  - lia.
Qed.

Lemma truncate_prefix (n : nat) (s : string) : truncate n s = substring 0 n s.
Proof.
  unfold truncate, strlen. destruct (_ >? _) eqn:E; [reflexivity|].
  assert (H : (String.length s <= n)%nat) by lia. clear E.
  revert n H. induction s as [|c s IH]; intros [|n] H; simpl in *;
    try reflexivity; try lia.
  f_equal. apply IH. lia.
Qed.

Lemma total_chars_app (a b : list Content) :
  total_chars (a ++ b) = total_chars a + total_chars b.
Proof. induction a as [|c a IH]; simpl; lia. Qed.

Lemma total_chars_turns (ms : list Row) : total_chars (map turn ms) = chars ms.
Proof. induction ms as [|m ms IH]; simpl; [reflexivity|]. rewrite IH. reflexivity. Qed.

Lemma chars_nonneg (ms : list Row) : 0 <= chars ms.
Proof.
  induction ms as [|m ms IH]; simpl; [lia|].
  pose proof (strlen_nonneg (content m)). lia.
Qed.

(** The loop includes a prefix of its input: the longest one that keeps the
    running total within the budget. *)
Lemma add_context_prefix (ms : list Row) :
  forall (total : Z) (acc : list Content),
  exists k : nat,
    (k <= List.length ms)%nat
    /\ add_context ms total acc = (acc ++ map turn (firstn k ms))%list
    /\ (k <> 0%nat -> total + chars (firstn k ms) <= MAX_CONTEXT_CHARS)
    /\ (forall m, nth_error ms k = Some m ->
                  total + chars (firstn k ms) + strlen (content m) > MAX_CONTEXT_CHARS).
Proof.
  induction ms as [|m ms IH]; intros total acc.
  - exists 0%nat. simpl. rewrite app_nil_r. repeat split; try lia.
    intros ? H; discriminate H.
  - simpl. destruct (total + strlen (content m) >? MAX_CONTEXT_CHARS) eqn:E.
    + exists 0%nat. simpl. rewrite app_nil_r. repeat split; try lia.
      intros m' H. injection H as <-. lia.
    + destruct (IH (total + strlen (content m))
                   (acc ++ [mkContent (if String.eqb (sender m) "user" then user else model)
                                      (content m)])%list)
        as (k & Hk & Heq & Hfit & Hstop).
      exists (S k). simpl. repeat split.
      * lia.
      * rewrite Heq, <- app_assoc. reflexivity.
      * intros _. destruct k as [|k].
        -- simpl. lia.
        -- assert (Hne : S k <> 0%nat) by lia. specialize (Hfit Hne). lia.
      * intros m' H. specialize (Hstop m' H). lia.
Qed.

Lemma select_recent_length (c : string) (n : nat) (table : list Row) :
  (List.length (select_recent c n table) <= n)%nat.
Proof. unfold select_recent. apply firstn_le_length. Qed.

Lemma window_length (env : Env) (c : string) :
  (List.length (window env c) <= MAX_MESSAGES)%nat.
Proof.
  unfold window, fetch_recent. destruct (messagesError env); simpl.
  - lia.
  - rewrite length_rev. apply select_recent_length.
Qed.

Lemma context_of_window (env : Env) (c : string) :
  context_of (fetch_recent env c) = add_context (window env c) 0 [].
Proof.
  unfold window. destruct (fetch_recent env c) as [[|m ms]|]; reflexivity.
Qed.

(** A well-formed request with the credential present reaches the upstream
    call with the assembled contents. *)
Lemma serve_sends (env : Env) (key p c : string) :
  GEMINI_API_KEY env = Some key -> key <> "" -> p <> "" -> c <> "" ->
  sent (serve env (post p c)) = Some (build_contents (fetch_recent env c) p).
Proof.
  intros Hkey Hk Hp Hc. unfold serve, post. simpl.
  unfold missing. rewrite Hkey.
  destruct (String.eqb key "") eqn:Ek; [apply String.eqb_eq in Ek; contradiction|].
  unfold required_string. simpl.
  destruct (String.eqb p "") eqn:Ep; [apply String.eqb_eq in Ep; contradiction|].
  destruct (String.eqb c "") eqn:Ec; [apply String.eqb_eq in Ec; contradiction|].
  simpl.
  destruct (generate env (build_contents (fetch_recent env c) p)) as [msg|st msg|st out];
    try reflexivity.
  destruct (negb (status_ok st)); [destruct out|]; reflexivity.
Qed.

Lemma build_contents_empty (recent : option (list Row)) (p : string) :
  context_of recent = [] ->
  build_contents recent p = [mkContent user (truncate 1000 p)].
Proof. unfold build_contents. intros ->. reflexivity. Qed.

Lemma build_contents_nonempty (recent : option (list Row)) (p : string) :
  context_of recent <> [] -> build_contents recent p = context_of recent.
Proof.
  unfold build_contents. destruct (context_of recent); [congruence | reflexivity].
Qed.

Lemma no_rows_selected (c : string) (n : nat) (table : list Row) :
  (forall r, In r table -> chat_id r <> Some c) ->
  select_recent c n table = [].
Proof.
  intros H. unfold select_recent.
  assert (E : filter (fun r => match chat_id r with
                               | Some x => String.eqb x c
                               | None => false
                               end) table = []).
  { induction table as [|r table IH]; [reflexivity|]. simpl.
    destruct (chat_id r) as [x|] eqn:Ex.
    - destruct (String.eqb x c) eqn:Exc.
      + apply String.eqb_eq in Exc. subst x.
        exfalso. apply (H r); [left; reflexivity | exact Ex].
      + apply IH. intros r' Hr'. apply H. right. exact Hr'.
    - apply IH. intros r' Hr'. apply H. right. exact Hr'. }
  rewrite E. simpl. destruct n; reflexivity.
Qed.

(** The extracted text is either absent or truthy. *)
Lemma extract_text_truthy (out : json) (t : json) :
  extract_text out = Some t -> truthy (Some t) = true.
Proof.
  unfold extract_text.
  destruct (truthy (first (get "candidates" (Some out))) && _ && _ && _) eqn:E1.
  - intros H. rewrite <- H.
    apply andb_prop in E1. destruct E1 as [_ E1]. exact E1.
  - destruct (truthy (get "output" (Some out)) && _ && _) eqn:E2.
    + intros H. rewrite <- H.
      apply andb_prop in E2. destruct E2 as [_ E2]. exact E2.
    + discriminate.
Qed.

End ProxyFacts.

Section ProxyClaims.
Import Js Proxy Measures.

(** C4.  For every stored history, a well-formed generation request posts
    a context of at most 12 turns whose text lengths sum to at most 5000.
    The stored turns that are included are a prefix [firstn k] of the loaded
    window taken oldest to newest: turn number [k], the first one whose
    addition would exceed 5000 characters, is excluded together with every
    later turn.  (When [k] is 0 the payload is the single fallback turn.) *)
Theorem context_window_bounded (env : Env) (key p c : string) :
  GEMINI_API_KEY env = Some key -> key <> "" -> p <> "" -> c <> "" ->
  exists (contents : list Content) (k : nat),
    sent (serve env (post p c)) = Some contents
    /\ (List.length contents <= 12)%nat
    /\ total_chars contents <= 5000
    /\ (k <= List.length (window env c))%nat
    /\ context_of (fetch_recent env c) = map turn (firstn k (window env c))
    /\ (forall m, nth_error (window env c) k = Some m ->
                  chars (firstn k (window env c)) + strlen (content m) > 5000)
    /\ contents = match k with
                  | O => [mkContent user (truncate 1000 p)]
                  | S _ => map turn (firstn k (window env c))
                  end.
Proof.
  intros Hkey Hk Hp Hc.
  destruct (add_context_prefix (window env c) 0 []) as (k & Hle & Heq & Hfit & Hstop).
  simpl in Heq. rewrite <- context_of_window in Heq.
  pose proof (window_length env c) as Hwin. unfold MAX_MESSAGES in Hwin.
  unfold MAX_CONTEXT_CHARS in *.
  exists (build_contents (fetch_recent env c) p), k.
  split; [apply (serve_sends env key); assumption|].
  destruct k as [|k].
  - simpl in Heq. rewrite (build_contents_empty _ _ Heq). simpl.
    pose proof (truncate_bound 1000 p).
    repeat split; try lia; try assumption;
      intros m Hm; specialize (Hstop m Hm); simpl in *; lia.
  - assert (Hne : context_of (fetch_recent env c) <> []).
    { rewrite Heq. destruct (window env c); simpl in *; [lia | discriminate]. }
    rewrite (build_contents_nonempty _ _ Hne), Heq.
    assert (Hfit' : chars (firstn (S k) (window env c)) <= 5000)
      by (specialize (Hfit ltac:(lia)); lia).
    split; [rewrite length_map, length_firstn; lia|].
    split; [rewrite total_chars_turns; exact Hfit'|].
    split; [exact Hle|].
    split; [reflexivity|].
    split; [|reflexivity].
    intros m Hm. specialize (Hstop m Hm). lia.
Qed.

Lemma context_window_bounded_witness :
  exists (contents : list Content) (k : nat),
    sent (serve (Sample.env_of Sample.fifteen) (post "oi" "c1")) = Some contents
    /\ (List.length contents <= 12)%nat
    /\ total_chars contents <= 5000
    /\ (k <= List.length (window (Sample.env_of Sample.fifteen) "c1"))%nat
    /\ context_of (fetch_recent (Sample.env_of Sample.fifteen) "c1")
       = map turn (firstn k (window (Sample.env_of Sample.fifteen) "c1"))
    /\ (forall m, nth_error (window (Sample.env_of Sample.fifteen) "c1") k = Some m ->
                  chars (firstn k (window (Sample.env_of Sample.fifteen) "c1"))
                  + strlen (content m) > 5000)
    /\ contents = match k with
                  | O => [mkContent user (truncate 1000 "oi")]
                  | S _ => map turn (firstn k (window (Sample.env_of Sample.fifteen) "c1"))
                  end.
Proof.
  apply (context_window_bounded (Sample.env_of Sample.fifteen) "k" "oi" "c1");
    [reflexivity | discriminate | discriminate | discriminate].
Defined.

(** Fifteen stored turns of 1000 characters: the twelve most recent are
    loaded and the five oldest of these are sent. *)
Example fifteen_turns_keep_five :
  sent (serve (Sample.env_of Sample.fifteen) (post "oi" "c1"))
  = Some (map turn (firstn 5 (skipn 3 Sample.fifteen))).
Proof. vm_compute. reflexivity. Qed.

(** The early stop: the second turn does not fit, and the third one, which
    would, is left out as well. *)
Example later_short_turn_is_skipped :
  sent (serve (Sample.env_of Sample.uneven) (post "oi" "c1"))
  = Some (map turn (firstn 1 Sample.uneven)).
Proof. vm_compute. reflexivity. Qed.

(** C5.  When no turn is stored for the conversation, a well-formed
    generation request posts exactly one turn, of role [user], whose text is
    the prompt cut to its first 1000 characters. *)
Theorem fallback_on_empty_history (env : Env) (key p c : string) :
  GEMINI_API_KEY env = Some key -> key <> "" -> p <> "" -> c <> "" ->
  (forall r, In r (messages env) -> chat_id r <> Some c) ->
  sent (serve env (post p c)) = Some [mkContent user (substring 0 1000 p)]
  /\ strlen (substring 0 1000 p) <= 1000.
Proof.
  intros Hkey Hk Hp Hc Hnone.
  rewrite (serve_sends env key p c Hkey Hk Hp Hc).
  rewrite <- truncate_prefix. split; [|apply (truncate_bound 1000)].
  f_equal. apply build_contents_empty.
  unfold fetch_recent. destruct (messagesError env); [reflexivity|].
  rewrite (no_rows_selected c MAX_MESSAGES (messages env) Hnone). reflexivity.
Qed.

Lemma fallback_on_empty_history_witness :
  sent (serve (Sample.env_of Sample.others) (post (Sample.fill 1200 "b"%char) "c1"))
  = Some [mkContent user (substring 0 1000 (Sample.fill 1200 "b"%char))]
  /\ strlen (substring 0 1000 (Sample.fill 1200 "b"%char)) <= 1000.
Proof.
  apply (fallback_on_empty_history (Sample.env_of Sample.others) "k"); try discriminate.
  - reflexivity.
  - intros r [<-|[<-|[]]]; discriminate.
Defined.

(** C7.  When the upstream call answers with an OK status, the handler
    replies 200 with the extracted text and issues exactly one insert, with
    the conversation id, the extracted text as content and sender
    [assistant], if the extracted text is not null, and no insert if it is
    null; no insert ever carries another sender, so the caller's user turn
    is not inserted again. *)
Theorem assistant_turn_persisted (env : Env) (key p c : string) (st : Z) (out : json) :
  GEMINI_API_KEY env = Some key -> key <> "" -> p <> "" -> c <> "" ->
  generate env (build_contents (fetch_recent env c) p) = Responds st out ->
  status_ok st = true ->
  response (serve env (post p c)) = mkResponse 200 (Success (extract_text out) out)
  /\ inserts (serve env (post p c))
     = match extract_text out with
       | Some t => [mkInsert c t "assistant"]
       | None => []
       end
  /\ (forall i, In i (inserts (serve env (post p c))) -> ins_sender i = "assistant").
Proof.
  intros Hkey Hk Hp Hc Hgen Hok.
  assert (E : serve env (post p c)
              = mkOutcome (mkResponse 200 (Success (extract_text out) out))
                          (Some (build_contents (fetch_recent env c) p))
                          (match extract_text out with
                           | Some t => [mkInsert c t "assistant"]
                           | None => []
                           end)).
  { unfold serve, post. simpl. unfold missing. rewrite Hkey.
    destruct (String.eqb key "") eqn:Ek; [apply String.eqb_eq in Ek; contradiction|].
    unfold required_string. simpl.
    destruct (String.eqb p "") eqn:Ep; [apply String.eqb_eq in Ep; contradiction|].
    destruct (String.eqb c "") eqn:Ec; [apply String.eqb_eq in Ec; contradiction|].
    simpl. rewrite Hgen, Hok. simpl.
    destruct (extract_text out) as [t|] eqn:Et; [|reflexivity].
    rewrite (extract_text_truthy out t Et). reflexivity. }
  rewrite E. simpl. repeat split.
  destruct (extract_text out) as [t|]; intros i Hi; simpl in Hi.
  - destruct Hi as [<-|[]]. reflexivity.
  - destruct Hi.
Qed.

Lemma assistant_turn_persisted_witness :
  response (serve (Sample.env_of Sample.three) (post "oi" "c1"))
  = mkResponse 200 (Success (extract_text (Sample.answer "ola")) (Sample.answer "ola"))
  /\ inserts (serve (Sample.env_of Sample.three) (post "oi" "c1"))
     = match extract_text (Sample.answer "ola") with
       | Some t => [mkInsert "c1" t "assistant"]
       | None => []
       end
  /\ (forall i, In i (inserts (serve (Sample.env_of Sample.three) (post "oi" "c1"))) ->
                ins_sender i = "assistant").
Proof.
  apply (assistant_turn_persisted (Sample.env_of Sample.three) "k" "oi" "c1" 200);
    try discriminate; reflexivity.
Defined.

(** C10 fails as stated: with thirteen stored turns whose oldest one has
    5001 characters, the oldest turn is not among the twelve loaded ones and
    the payload is not the fallback turn. *)
Lemma oldest_stored_turn_not_loaded :
  (exists m, hd_error Sample.thirteen = Some m /\ strlen (content m) > 5000)
  /\ sent (serve (Sample.env_of Sample.thirteen) (post "oi" "c1"))
     = Some (map turn (tl Sample.thirteen))
  /\ sent (serve (Sample.env_of Sample.thirteen) (post "oi" "c1"))
     <> Some [mkContent user (truncate 1000 "oi")].
Proof.
  split; [|split].
  - eexists. split; [reflexivity|]. vm_compute. reflexivity.
  - vm_compute. reflexivity.
  - vm_compute. discriminate.
Qed.

(** C10, amended.  The fallback is used whenever the assembled context is
    empty: if the oldest of the loaded turns (the twelve most recent stored
    ones) alone exceeds 5000 characters, no loaded turn is included and the
    payload is the single [user] turn with the prompt cut to 1000
    characters. *)
Theorem fallback_when_oldest_loaded_turn_overflows
        (env : Env) (key p c : string) (m : Row) :
  GEMINI_API_KEY env = Some key -> key <> "" -> p <> "" -> c <> "" ->
  hd_error (window env c) = Some m ->
  strlen (content m) > 5000 ->
  context_of (fetch_recent env c) = []
  /\ sent (serve env (post p c)) = Some [mkContent user (substring 0 1000 p)].
Proof.
  intros Hkey Hk Hp Hc Hhd Hlong.
  assert (E : context_of (fetch_recent env c) = []).
  { rewrite context_of_window.
    destruct (window env c) as [|m' w]; [reflexivity|].
    simpl in Hhd. injection Hhd as ->. simpl.
    unfold MAX_CONTEXT_CHARS.
    destruct (strlen (content m) >? 5000) eqn:E; [reflexivity | lia]. }
  split; [exact E|].
  rewrite (serve_sends env key p c Hkey Hk Hp Hc), <- truncate_prefix.
  f_equal. apply build_contents_empty. exact E.
Qed.

Lemma fallback_when_oldest_loaded_turn_overflows_witness :
  context_of (fetch_recent (Sample.env_of Sample.three) "c1") = []
  /\ sent (serve (Sample.env_of Sample.three) (post "oi" "c1"))
     = Some [mkContent user (substring 0 1000 "oi")].
Proof.
  apply (fallback_when_oldest_loaded_turn_overflows
           (Sample.env_of Sample.three) "k" "oi" "c1"
           (Sample.row "c1" "user" (Sample.fill (5 * 1000 + 1) "a"%char)));
    try discriminate; vm_compute; reflexivity.
Defined.

End ProxyClaims.

(* ================================================================== *)
(** ** Properties of the health badge *)

Section BadgeClaims.
Import Badge.

(** C8.  One run of the health check sets [error] when the fetch raises or
    is aborted by the 6-second timer, [ok] on a 2xx response, [error] on a
    non-2xx response with status at least 500 and [warn] on any other
    non-2xx response. *)
Theorem health_probe_status :
  runCheck Raises = error
  /\ runCheck Aborted = error
  /\ (forall status, 200 <= status <= 299 -> runCheck (Resolves status) = ok)
  /\ (forall status, ~ (200 <= status <= 299) -> 500 <= status ->
                     runCheck (Resolves status) = error)
  /\ (forall status, ~ (200 <= status <= 299) -> status < 500 ->
                     runCheck (Resolves status) = warn).
Proof.
  repeat split; intros status; unfold runCheck, Js.status_ok.
  - intros [Hlo Hhi].
    destruct (200 <=? status) eqn:E1; [|lia].
    destruct (status <=? 299) eqn:E2; [reflexivity | lia].
  - intros Hout Hbig.
    destruct ((200 <=? status) && (status <=? 299)) eqn:E.
    + apply andb_prop in E. lia.
    + destruct (status >=? 500) eqn:E5; [reflexivity | lia].
  - intros Hout Hsmall.
    destruct ((200 <=? status) && (status <=? 299)) eqn:E.
    + apply andb_prop in E. lia.
    + destruct (status >=? 500) eqn:E5; [lia | reflexivity].
Qed.

Lemma health_probe_status_witness :
  runCheck (Resolves 204) = ok
  /\ runCheck (Resolves 503) = error
  /\ runCheck (Resolves 404) = warn.
Proof.
  destruct health_probe_status as (_ & _ & Hok & Herr & Hwarn).
  split; [apply Hok; lia | split; [apply Herr; lia | apply Hwarn; lia]].
Defined.

End BadgeClaims.

(* ================================================================== *)
(** ** Properties of the text operations *)

Section TextFacts.
Import Text.

Lemma space_not_token (c : ascii) : is_space c = true -> is_token_char c = false.
Proof.
  destruct c as [[] [] [] [] [] [] [] []]; vm_compute; congruence.
Qed.

Lemma token_not_space (c : ascii) : is_token_char c = true -> is_space c = false.
Proof.
  intros H. destruct (is_space c) eqn:E; [|reflexivity].
  rewrite (space_not_token c E) in H. discriminate.
Qed.

Lemma list_ascii_of_string_app (a b : string) :
  list_ascii_of_string (a ++ b) = (list_ascii_of_string a ++ list_ascii_of_string b)%list.
Proof. induction a as [|c a IH]; simpl; [reflexivity|]. rewrite IH. reflexivity. Qed.

Lemma string_of_list_ascii_app (a b : list ascii) :
  string_of_list_ascii (a ++ b) = string_of_list_ascii a ++ string_of_list_ascii b.
Proof. induction a as [|c a IH]; simpl; [reflexivity|]. rewrite IH. reflexivity. Qed.

Lemma length_list_ascii_of_string (a : string) :
  List.length (list_ascii_of_string a) = String.length a.
Proof. induction a as [|c a IH]; simpl; [reflexivity|]. rewrite IH. reflexivity. Qed.

Lemma drop_space_spaces (g t : list ascii) :
  forallb is_space g = true -> drop_space (g ++ t) = drop_space t.
Proof.
  induction g as [|c g IH]; simpl; [reflexivity|].
  intros H. apply andb_prop in H. destruct H as [Hc Hg].
  rewrite Hc. apply IH. exact Hg.
Qed.

Lemma drop_space_token (t : list ascii) :
  forallb is_token_char t = true -> drop_space t = t.
Proof.
  destruct t as [|c t]; simpl; [reflexivity|].
  intros H. apply andb_prop in H. destruct H as [Hc _].
  rewrite (token_not_space c Hc). reflexivity.
Qed.

Lemma clean_end_tail (c : ascii) (q : list ascii) : clean_end (c :: q) -> clean_end q.
Proof. intros H q0 x E. apply (H (c :: q0) x). rewrite E. reflexivity. Qed.

Lemma drop_space_keeps (q r : list ascii) :
  q <> [] -> clean_end q ->
  exists u, u <> [] /\ drop_space (q ++ r) = (u ++ r)%list.
Proof.
  induction q as [|x q IH]; intros Hne Hclean; [congruence|].
  simpl. destruct (is_space x) eqn:Ex.
  - destruct q as [|y q].
    + rewrite (Hclean [] x eq_refl) in Ex. discriminate.
    + apply IH; [discriminate | apply (clean_end_tail x); exact Hclean].
  - exists (x :: q). split; [discriminate | reflexivity].
Qed.

Lemma redact_match_gap (g t : list ascii) :
  g <> [] -> forallb is_space g = true -> forallb is_token_char t = true ->
  (16 <= List.length t)%nat ->
  redact_match (g ++ t) = true.
Proof.
  intros Hg Hsp Htok Hlen. unfold redact_match.
  rewrite (drop_space_spaces g t Hsp), (drop_space_token t Htok), Htok.
  rewrite length_app.
  destruct g as [|c g]; [congruence|]. simpl List.length.
  assert (H1 : Nat.ltb (List.length t) (S (List.length g) + List.length t) = true)
    by (apply Nat.ltb_lt; lia).
  assert (H2 : Nat.leb 16 (List.length t) = true) by (apply Nat.leb_le; lia).
  rewrite H1, H2. reflexivity.
Qed.

Lemma redact_match_inside (c : ascii) (q g t : list ascii) :
  clean_end (c :: q) -> g <> [] -> forallb is_space g = true ->
  redact_match (c :: q ++ g ++ t) = false.
Proof.
  intros Hclean Hg Hsp. unfold redact_match. simpl drop_space.
  destruct (is_space c) eqn:Ec.
  - destruct q as [|y q].
    + rewrite (Hclean [] c eq_refl) in Ec. discriminate.
    + destruct (drop_space_keeps (y :: q) (g ++ t))
        as (u & Hu & Heq); [discriminate | apply (clean_end_tail c); exact Hclean |].
      rewrite Heq. rewrite !forallb_app.
      destruct g as [|s g]; [congruence|]. simpl in Hsp.
      apply andb_prop in Hsp. destruct Hsp as [Hs _].
      simpl. rewrite (space_not_token s Hs). simpl.
      rewrite andb_false_r. apply andb_false_r.
  - rewrite Nat.ltb_irrefl. reflexivity.
Qed.

Lemma redact_chars_trailing (q g t : list ascii) :
  clean_end q -> g <> [] -> forallb is_space g = true ->
  forallb is_token_char t = true -> (16 <= List.length t)%nat ->
  redact_chars (q ++ g ++ t) = (q ++ list_ascii_of_string " <REDACTED>")%list.
Proof.
  intros Hclean Hg Hsp Htok Hlen.
  induction q as [|c q IH].
  - simpl app. pose proof (redact_match_gap g t Hg Hsp Htok Hlen) as Hm.
    destruct g as [|s g]; [congruence|].
    simpl app in *. simpl redact_chars. rewrite Hm. reflexivity.
  - simpl app. simpl redact_chars.
    rewrite (redact_match_inside c q g t Hclean Hg Hsp).
    rewrite (IH (clean_end_tail c q Hclean)). reflexivity.
Qed.

Lemma drop_space_last (a : list ascii) (x : ascii) :
  is_space x = false -> exists u, drop_space (a ++ [x]) = (u ++ [x])%list.
Proof.
  intros Hx. induction a as [|c a IH]; simpl.
  - rewrite Hx. exists []. reflexivity.
  - destruct (is_space c); [exact IH | exists (c :: a); reflexivity].
Qed.

(** A text that starts with [/] still does after [trim]. *)
Lemma slash_survives_trim (s : string) :
  startsWith "/" s = true -> startsWith "/" (trim s) = true.
Proof.
  unfold startsWith. intros H. apply prefix_correct in H.
  destruct s as [|c s]; [discriminate H|].
  cbn [String.length substring] in H. injection H as -> _.
  apply prefix_correct. unfold trim.
  cbn [list_ascii_of_string drop_space].
  change (is_space "/") with false. cbv iota.
  change (rev ("/"%char :: list_ascii_of_string s))
    with (rev (list_ascii_of_string s) ++ ["/"%char])%list.
  destruct (drop_space_last (rev (list_ascii_of_string s)) "/"%char eq_refl) as (u & ->).
  rewrite rev_app_distr. cbn [rev app string_of_list_ascii String.length substring].
  destruct (string_of_list_ascii (rev u)); reflexivity.
Qed.

Lemma last_char (p' : string) (c : ascii) (s : string) :
  s = p' ++ String c "" -> hd_error (rev (list_ascii_of_string s)) = Some c.
Proof.
  intros ->. rewrite list_ascii_of_string_app, rev_app_distr. reflexivity.
Qed.

(** A trailing token of 16 or more characters of the class, separated from
    what precedes it by white space, is replaced together with that white
    space by the marker. *)
Lemma redact_trailing_token (prefix gap token : string) :
  (forall p' c, prefix = p' ++ String c "" -> is_space c = false) ->
  gap <> "" ->
  forallb is_space (list_ascii_of_string gap) = true ->
  forallb is_token_char (list_ascii_of_string token) = true ->
  (16 <= String.length token)%nat ->
  redact (prefix ++ gap ++ token) = prefix ++ " <REDACTED>".
Proof.
  intros Hclean Hgap Hsp Htok Hlen. unfold redact.
  rewrite !list_ascii_of_string_app.
  rewrite redact_chars_trailing; try assumption.
  - rewrite string_of_list_ascii_app, !string_of_list_ascii_of_string. reflexivity.
  - intros q0 x E. apply (Hclean (string_of_list_ascii q0) x).
    rewrite <- (string_of_list_ascii_of_string prefix), E.
    rewrite string_of_list_ascii_app. reflexivity.
  - intros E. apply Hgap.
    rewrite <- (string_of_list_ascii_of_string gap), E. reflexivity.
  - rewrite length_list_ascii_of_string. exact Hlen.
Qed.

End TextFacts.

(* ================================================================== *)
(** ** Properties of the chat component *)

Section ChatFacts.
Import Js Text Chat Measures.

Lemma addSystemMessage_present (uuid : string) (clock : Z) (text : string)
      (prev : list Message) :
  existsb (fun m => is_pilot m && String.eqb (content m) text) prev = true ->
  addSystemMessage uuid clock text prev = prev.
Proof. unfold addSystemMessage. intros ->. reflexivity. Qed.

Lemma addSystemMessage_absent (uuid : string) (clock : Z) (text : string)
      (prev : list Message) :
  existsb (fun m => is_pilot m && String.eqb (content m) text) prev = false ->
  addSystemMessage uuid clock text prev
  = (prev ++ [mkMessage (genId "sys" uuid) text pilot clock (Some sent)
                        None None None None])%list.
Proof. unfold addSystemMessage. intros ->. reflexivity. Qed.

Lemma addSystemMessage_appends (uuid : string) (clock : Z) (text : string)
      (prev : list Message) :
  exists notices,
    addSystemMessage uuid clock text prev = (prev ++ notices)%list
    /\ forallb is_pilot notices = true.
Proof.
  unfold addSystemMessage.
  destruct (existsb _ prev).
  - exists []. rewrite app_nil_r. split; reflexivity.
  - eexists. split; reflexivity.
Qed.

Lemma notice_count_existsb (text : string) (ms : list Message) :
  existsb (fun m => is_pilot m && String.eqb (content m) text) ms
  = negb (Nat.eqb (notice_count text ms) 0).
Proof.
  unfold notice_count. induction ms as [|m ms IH]; simpl; [reflexivity|].
  destruct (is_pilot m && String.eqb (content m) text); simpl; [reflexivity | exact IH].
Qed.

Lemma notice_count_add (uuid : string) (clock : Z) (text : string)
      (prev : list Message) :
  (notice_count text (addSystemMessage uuid clock text prev)
   <= Nat.max 1 (notice_count text prev))%nat.
Proof.
  unfold addSystemMessage. rewrite notice_count_existsb.
  destruct (Nat.eqb (notice_count text prev) 0) eqn:E; cbn [negb].
  - apply Nat.eqb_eq in E. unfold notice_count in *.
    rewrite filter_app, length_app, E. cbn [filter is_pilot is_user sender content negb andb].
    rewrite String.eqb_refl. cbn [List.length]. lia.
  - lia.
Qed.

Lemma users_of_notices (prev notices : list Message) :
  forallb is_pilot notices = true ->
  filter is_user (prev ++ notices) = filter is_user prev.
Proof.
  intros H. rewrite filter_app.
  assert (E : filter is_user notices = []).
  { induction notices as [|n ns IH]; [reflexivity|]. simpl in *.
    apply andb_prop in H. destruct H as [Hn Hns].
    unfold is_pilot in Hn. destruct (is_user n); [discriminate | apply IH; exact Hns]. }
  rewrite E. apply app_nil_r.
Qed.

Lemma users_of_mark (uid : string) (st : Status) (ms : list Message) :
  filter is_user (mark uid st ms) = mark uid st (filter is_user ms).
Proof.
  unfold mark. induction ms as [|m ms IH]; simpl; [reflexivity|].
  assert (E : is_user (if String.eqb (id m) uid then with_status st m else m) = is_user m)
    by (destruct (String.eqb (id m) uid); reflexivity).
  rewrite E. destruct (is_user m); simpl; rewrite IH; reflexivity.
Qed.

Lemma mark_app (uid : string) (st : Status) (a b : list Message) :
  mark uid st (a ++ b) = (mark uid st a ++ mark uid st b)%list.
Proof. unfold mark. apply map_app. Qed.

Lemma mark_self (st : Status) (m : Message) :
  mark (id m) st [m] = [with_status st m].
Proof. unfold mark. simpl. rewrite String.eqb_refl. reflexivity. Qed.

Lemma mark_length (uid : string) (st : Status) (ms : list Message) :
  List.length (mark uid st ms) = List.length ms.
Proof. unfold mark. apply length_map. Qed.

Lemma say_appends (uuid : string) (clock : Z) (text : string) (st st' : State) :
  messages st' = messages st ->
  exists notices,
    messages (fst (notify uuid clock text st', @None Exn)) = (messages st ++ notices)%list
    /\ forallb is_pilot notices = true.
Proof.
  intros E. simpl. rewrite E. apply addSystemMessage_appends.
Qed.

(** [handleCommand] changes the transcript only through
    [addSystemMessage]. *)
Lemma handleCommand_appends_notices : appends_notices handleCommand.
Proof.
  intros w raw st. unfold handleCommand.
  repeat match goal with
         | |- context [if ?b then _ else _] => destruct b
         | |- context [match ?x with _ => _ end] => destruct x
         end;
    apply say_appends; reflexivity.
Qed.

(** Every failure inside [handleCommand] is reported by a notice; nothing
    is thrown to the caller. *)
Lemma handleCommand_returns (w : World) (raw : string) (st : State) :
  snd (handleCommand w raw st) = None.
Proof.
  unfold handleCommand.
  repeat match goal with
         | |- context [if ?b then _ else _] => destruct b
         | |- context [match ?x with _ => _ end] => destruct x
         end;
    reflexivity.
Qed.

Lemma gate_open (p : Props) (s : State) :
  accepted p s ->
  negb (gemini p) = false
  /\ (String.eqb (trim (inputValue s)) "" || isLoading s || isProcessingRef s) = false.
Proof.
  intros (Hg & Hin & Hl & Hp). rewrite Hg, Hl, Hp.
  destruct (String.eqb (trim (inputValue s)) "") eqn:E.
  - apply String.eqb_eq in E. contradiction.
  - split; reflexivity.
Qed.

Lemma same_reply_refl (r : option string) : same_reply r r = true.
Proof. destruct r; simpl; [apply String.eqb_refl | reflexivity]. Qed.

(** The duplicate test succeeds as soon as one stored message matches. *)
Lemma duplicate_found (clock : Z) (ms : list Message) (m : Message)
      (text : string) (reply : option string) (atts : option (list Attachment)) :
  In m ms -> sender m = user -> content m = text -> replyToId m = reply ->
  count_attachments (attachments m) = count_attachments atts ->
  timestamp m > clock - 10000 ->
  isDuplicateUserMessage clock ms text reply atts = true.
Proof.
  intros Hin Hs Hc Hr Ha Ht. unfold isDuplicateUserMessage.
  apply existsb_exists. exists m. split; [exact Hin|].
  unfold is_user. rewrite Hs, Hc, Hr, Ha, String.eqb_refl, same_reply_refl, Z.eqb_refl.
  simpl. apply Z.gtb_lt. lia.
Qed.

Lemma marked_status (uid : string) (st : Status) (ms : list Message) (m : Message) :
  In m (mark uid st ms) -> id m = uid -> status m = Some st.
Proof.
  unfold mark. intros Hin Hid. apply in_map_iff in Hin.
  destruct Hin as (m0 & E & _).
  destruct (String.eqb (id m0) uid) eqn:E0.
  - subst m. reflexivity.
  - subst m. apply String.eqb_neq in E0. contradiction.
Qed.

Lemma addSystemMessage_length (uuid : string) (clock : Z) (text : string)
      (prev : list Message) :
  (List.length prev <= List.length (addSystemMessage uuid clock text prev))%nat.
Proof.
  destruct (addSystemMessage_appends uuid clock text prev) as (ns & -> & _).
  rewrite length_app. lia.
Qed.

(** Apart from the duplicate branch of the command path, every path of an
    accepted submission leaves the latch released. *)
Lemma latch_released_elsewhere
      (dispatch : World -> string -> State -> State * option Exn)
      (p : Props) (w : World) (s : State) :
  accepted p s ->
  (startsWith "/" (trim (inputValue s)) = true ->
   isDuplicateUserMessage (now w) (messages s) (redact (trim (inputValue s))) None None
   = false) ->
  isProcessingRef (handleSendMessage_with dispatch p w s) = false.
Proof.
  intros Hacc Hnew. destruct (gate_open p s Hacc) as [Hg1 Hg2].
  unfold handleSendMessage_with. rewrite Hg1, Hg2.
  destruct (startsWith "/" (trim (inputValue s))).
  - rewrite (Hnew eq_refl).
    destruct (dispatch w (trim (inputValue s)) _) as [s3 [err|]]; reflexivity.
  - clear Hnew.
    destruct (isDuplicateUserMessage _ _ _ _ _); [reflexivity|].
    destruct (gemini p && geminiHealth s); [|reflexivity].
    destruct (proxy w) as [err|err|st out]; try reflexivity.
    destruct (negb (status_ok st)); reflexivity.
Qed.

(** A call that is not accepted leaves the latch as it was. *)
Lemma latch_untouched_when_rejected
      (dispatch : World -> string -> State -> State * option Exn)
      (p : Props) (w : World) (s : State) :
  ~ accepted p s ->
  isProcessingRef (handleSendMessage_with dispatch p w s) = isProcessingRef s.
Proof.
  intros Hrej. unfold handleSendMessage_with.
  destruct (gemini p) eqn:Eg; simpl; [|reflexivity].
  destruct (String.eqb (trim (inputValue s)) "") eqn:Ei; simpl; [reflexivity|].
  destruct (isLoading s) eqn:El; simpl; [reflexivity|].
  destruct (isProcessingRef s) eqn:Ep; simpl; [exact Ep|].
  exfalso. apply Hrej. unfold accepted. rewrite Eg, El, Ep.
  apply String.eqb_neq in Ei. repeat split. exact Ei.
Qed.

(** An accepted submission that is neither a command line nor a duplicate
    makes the transcript longer, on every path. *)
Lemma transcript_grows
      (dispatch : World -> string -> State -> State * option Exn)
      (p : Props) (w : World) (s : State) :
  accepted p s ->
  startsWith "/" (trim (inputValue s)) = false ->
  isDuplicateUserMessage (now w) (messages s) (inputValue s)
                         (option_map id (replyTo s)) (Some (pendingFiles s)) = false ->
  (List.length (messages s)
   < List.length (messages (handleSendMessage_with dispatch p w s)))%nat.
Proof.
  intros Hacc Hcmd Hnew. destruct (gate_open p s Hacc) as [Hg1 Hg2].
  unfold handleSendMessage_with. rewrite Hg1, Hg2, Hcmd, Hnew.
  destruct (gemini p && geminiHealth s).
  - destruct (proxy w) as [err|err|st out].
    + cbn [messages release setProcessing setIsLoading setMessages notify toast stage
                    setPendingFiles setReplyTo setInputValue].
      rewrite mark_length.
      match goal with
      | |- context [addSystemMessage ?u ?c ?t ?l] =>
          pose proof (addSystemMessage_length u c t l) as H
      end.
      rewrite length_app in H. cbn [List.length] in H. lia.
    + cbn [messages release setProcessing setIsLoading setMessages notify toast stage
                    setPendingFiles setReplyTo setInputValue].
      rewrite mark_length.
      match goal with
      | |- context [addSystemMessage ?u ?c ?t ?l] =>
          pose proof (addSystemMessage_length u c t l) as H
      end.
      rewrite length_app in H. cbn [List.length] in H. lia.
    + destruct (negb (status_ok st)).
      * cbn [messages release setProcessing setIsLoading setMessages notify toast stage
                      setPendingFiles setReplyTo setInputValue].
        match goal with
        | |- context [addSystemMessage ?u ?c ?t ?l] =>
            pose proof (addSystemMessage_length u c t l) as H
        end.
        rewrite length_app in H. cbn [List.length] in H. lia.
      * cbn [messages release setProcessing setIsLoading setMessages notify toast stage
                      setPendingFiles setReplyTo setInputValue].
        rewrite mark_length, !length_app. cbn [List.length]. lia.
  - cbn [messages release setProcessing setIsLoading setMessages notify toast stage
                  setPendingFiles setReplyTo setInputValue].
    rewrite mark_length.
    destruct (existsb _ _); rewrite ?length_app; cbn [List.length]; lia.
Qed.

(** On every path of such a submission except a non-OK answer of the proxy,
    the message appended by the call ends as [sent] or [error]. *)
Lemma user_message_settles_elsewhere
      (dispatch : World -> string -> State -> State * option Exn)
      (p : Props) (w : World) (s : State) (m : Message) :
  accepted p s ->
  startsWith "/" (trim (inputValue s)) = false ->
  isDuplicateUserMessage (now w) (messages s) (inputValue s)
                         (option_map id (replyTo s)) (Some (pendingFiles s)) = false ->
  (forall st out, gemini p && geminiHealth s = true ->
                  proxy w = Replies st out -> status_ok st = true) ->
  In m (messages (handleSendMessage_with dispatch p w s)) ->
  id m = genId "u" (uuid_user w) ->
  status m = Some sent \/ status m = Some error.
Proof.
  intros Hacc Hcmd Hnew Hok. destruct (gate_open p s Hacc) as [Hg1 Hg2].
  unfold handleSendMessage_with. rewrite Hg1, Hg2, Hcmd, Hnew.
  destruct (gemini p && geminiHealth s).
  - destruct (proxy w) as [err|err|st out].
    + intros Hin Hid. right. exact (marked_status _ _ _ _ Hin Hid).
    + intros Hin Hid. right. exact (marked_status _ _ _ _ Hin Hid).
    + rewrite (Hok st out eq_refl eq_refl). simpl negb. cbv iota.
      intros Hin Hid. left. exact (marked_status _ _ _ _ Hin Hid).
  - intros Hin Hid. left. exact (marked_status _ _ _ _ Hin Hid).
Qed.

End ChatFacts.

Section ChatClaims.
Import Js Text Chat Measures.

(** C9.  [addSystemMessage] compares the text with the content of every
    pilot-authored message of the transcript, whatever its age: when one of
    them has that content the transcript is left unchanged.  Consequently,
    however many times the same text is announced, the transcript holds at
    most one notice with it (unless it held more to begin with). *)
Theorem system_notice_deduplicated (uuid : string) (clock : Z) (text : string)
        (prev : list Message) :
  (forall m, In m prev -> sender m = pilot -> content m = text ->
             addSystemMessage uuid clock text prev = prev)
  /\ (forall calls,
        (notice_count text (announce calls text prev)
         <= Nat.max 1 (notice_count text prev))%nat).
Proof.
  split.
  - intros m Hin Hs Hc. apply addSystemMessage_present.
    apply existsb_exists. exists m. split; [exact Hin|].
    unfold is_pilot, is_user. rewrite Hs, Hc, String.eqb_refl. reflexivity.
  - intros calls. unfold announce. revert prev.
    induction calls as [|call calls IH]; intros prev; cbn [fold_left].
    + lia.
    + specialize (IH (addSystemMessage (fst call) (snd call) text prev)).
      pose proof (notice_count_add (fst call) (snd call) text prev). lia.
Qed.

Lemma system_notice_deduplicated_witness :
  addSystemMessage "x" 9000 "Ola!" [Sample.hello] = [Sample.hello]
  /\ (notice_count "Erro Gemini: falhou"
                   (announce [("a", 1%Z); ("b", 2%Z); ("c", 3%Z)] "Erro Gemini: falhou"
                             [Sample.hello])
      <= Nat.max 1 (notice_count "Erro Gemini: falhou" [Sample.hello]))%nat.
Proof.
  split.
  - apply (proj1 (system_notice_deduplicated "x" 9000 "Ola!" [Sample.hello])
                 Sample.hello); [left; reflexivity | reflexivity | reflexivity].
  - apply (proj2 (system_notice_deduplicated "x" 0 "Erro Gemini: falhou" [Sample.hello])).
Defined.

(** C3 fails as stated.  ["oi"] is submitted twice more within ten seconds
    of the stored ["oi"]: the first attempt empties the input field, and
    the two attempts together leave one notice, not two. *)
Lemma duplicate_attempts_clear_input_and_share_one_notice :
  let s1 := handleSendMessage Sample.props Sample.at1 Sample.repeated in
  let s2 := handleSendMessage Sample.props Sample.at2 (typeInput "oi" s1) in
  inputValue Sample.repeated = "oi"
  /\ inputValue s1 <> inputValue Sample.repeated
  /\ user_count (messages s2) = user_count (messages Sample.repeated)
  /\ notice_count duplicateNotice (messages Sample.repeated) = 0%nat
  /\ notice_count duplicateNotice (messages s2) = 1%nat
  /\ notice_count duplicateNotice (messages s2) <> 2%nat.
Proof.
  vm_compute. repeat split; discriminate.
Qed.

(** C3, amended.  When an accepted submission matches a stored user
    message in text (for a command line: the redacted text), reply target
    and attachment count (for a command line: none) and that message is less
    than ten seconds old, no user message is appended, the input field is
    emptied, and the duplicate notice is appended through
    [addSystemMessage]: it is added only if no pilot-authored message has
    that text yet, so repeated attempts leave at most one notice. *)
Theorem duplicate_submission_suppressed (p : Props) (w : World) (s : State)
        (m : Message) :
  accepted p s ->
  In m (messages s) ->
  sender m = user ->
  content m = submitted_text s ->
  replyToId m = submitted_reply s ->
  count_attachments (attachments m) = submitted_attachments s ->
  timestamp m > now w - 10000 ->
  messages (handleSendMessage p w s)
  = addSystemMessage (uuid_notice w) (now w) duplicateNotice (messages s)
  /\ filter is_user (messages (handleSendMessage p w s)) = filter is_user (messages s)
  /\ inputValue (handleSendMessage p w s) = ""
  /\ (notice_count duplicateNotice (messages (handleSendMessage p w s))
      <= Nat.max 1 (notice_count duplicateNotice (messages s)))%nat.
Proof.
  intros Hacc Hin Hs Hc Hr Ha Ht.
  destruct (gate_open p s Hacc) as [Hg1 Hg2].
  assert (E : messages (handleSendMessage p w s)
              = addSystemMessage (uuid_notice w) (now w) duplicateNotice (messages s)
              /\ inputValue (handleSendMessage p w s) = "").
  { unfold handleSendMessage, handleSendMessage_with.
    rewrite Hg1, Hg2.
    unfold submitted_text, submitted_reply, submitted_attachments, is_command in *.
    destruct (startsWith "/" (trim (inputValue s))).
    - rewrite (duplicate_found (now w) (messages s) m _ None None Hin Hs Hc Hr Ha Ht).
      split; reflexivity.
    - rewrite (duplicate_found (now w) (messages s) m _ _ (Some (pendingFiles s))
                               Hin Hs Hc Hr Ha Ht).
      split; reflexivity. }
  destruct E as [Em Ei]. rewrite Em.
  split; [reflexivity|]. split; [|split; [exact Ei | apply notice_count_add]].
  destruct (addSystemMessage_appends (uuid_notice w) (now w) duplicateNotice (messages s))
    as (ns & -> & Hns).
  apply users_of_notices. exact Hns.
Qed.

Lemma duplicate_submission_suppressed_witness :
  messages (handleSendMessage Sample.props Sample.at1 Sample.repeated)
  = addSystemMessage (uuid_notice Sample.at1) (now Sample.at1) duplicateNotice
                     (messages Sample.repeated)
  /\ filter is_user (messages (handleSendMessage Sample.props Sample.at1 Sample.repeated))
     = filter is_user (messages Sample.repeated)
  /\ inputValue (handleSendMessage Sample.props Sample.at1 Sample.repeated) = ""
  /\ (notice_count duplicateNotice
                   (messages (handleSendMessage Sample.props Sample.at1 Sample.repeated))
      <= Nat.max 1 (notice_count duplicateNotice (messages Sample.repeated)))%nat.
Proof.
  apply (duplicate_submission_suppressed Sample.props Sample.at1 Sample.repeated
                                         (Sample.earlier "oi")).
  - unfold accepted. repeat split; try reflexivity. vm_compute. discriminate.
  - right. left. reflexivity.
  - reflexivity.
  - reflexivity.
  - reflexivity.
  - reflexivity.
  - vm_compute. reflexivity.
Defined.

(** The command path past the duplicate test, for an arbitrary dispatcher:
    one user message is recorded, with the redacted line as content and a
    final status that follows the two continuations of the awaited call. *)
Lemma command_path_shape
        (dispatch : World -> string -> State -> State * option Exn)
        (p : Props) (w : World) (s : State) :
  appends_notices dispatch ->
  accepted p s ->
  startsWith "/" (trim (inputValue s)) = true ->
  isDuplicateUserMessage (now w) (messages s) (redact (trim (inputValue s))) None None
  = false ->
  let raw := trim (inputValue s) in
  let userMessage := commandMessage w (redact raw) in
  let final :=
    match snd (dispatch w raw (stage userMessage (setProcessing true s))) with
    | None => sent
    | Some _ => error
    end in
  let s' := handleSendMessage_with dispatch p w s in
  filter is_user (messages s')
  = (mark (id userMessage) final (filter is_user (messages s))
     ++ [with_status final userMessage])%list
  /\ user_count (messages s') = S (user_count (messages s))
  /\ content (with_status final userMessage) = redact raw
  /\ status (with_status final userMessage) = Some final
  /\ (forall prefix gap token,
        raw = prefix ++ gap ++ token ->
        (forall p' c, prefix = p' ++ String c "" -> is_space c = false) ->
        gap <> "" ->
        forallb is_space (list_ascii_of_string gap) = true ->
        forallb is_token_char (list_ascii_of_string token) = true ->
        (16 <= String.length token)%nat ->
        content (with_status final userMessage) = prefix ++ " <REDACTED>").
Proof.
  intros Hdisp Hacc Hcmd Hnew raw userMessage final s'.
  destruct (gate_open p s Hacc) as [Hg1 Hg2].
  assert (Husers : filter is_user (messages s')
                   = (mark (id userMessage) final (filter is_user (messages s))
                      ++ [with_status final userMessage])%list).
  { subst s' final. unfold handleSendMessage_with.
    rewrite Hg1, Hg2, Hcmd, Hnew.
    fold raw. fold userMessage.
    destruct (Hdisp w raw (stage userMessage (setProcessing true s)))
      as (ns & Hms & Hns).
    destruct (dispatch w raw (stage userMessage (setProcessing true s)))
      as [s3 thrown].
    simpl fst in Hms. simpl snd.
    assert (Hstage : messages (stage userMessage (setProcessing true s))
                     = (messages s ++ [userMessage])%list) by reflexivity.
    rewrite Hstage in Hms.
    destruct thrown as [err|].
    - change (messages (release (setMessages (mark (id userMessage) error)
                (notify (uuid_notice w) (later w)
                        ("Erro ao executar comando: " ++ describe err) s3))))
        with (mark (id userMessage) error
                (addSystemMessage (uuid_notice w) (later w)
                   ("Erro ao executar comando: " ++ describe err) (messages s3))).
      destruct (addSystemMessage_appends (uuid_notice w) (later w)
                  ("Erro ao executar comando: " ++ describe err) (messages s3))
        as (ns' & -> & Hns').
      rewrite users_of_mark, (users_of_notices _ ns' Hns'), Hms,
        (users_of_notices _ ns Hns), filter_app, mark_app.
      simpl filter. apply f_equal. apply mark_self.
    - change (messages (release (setMessages (mark (id userMessage) sent) s3)))
        with (mark (id userMessage) sent (messages s3)).
      rewrite users_of_mark, Hms, (users_of_notices _ ns Hns), filter_app, mark_app.
      simpl filter. apply f_equal. apply mark_self. }
  split; [exact Husers|].
  split.
  { unfold user_count. rewrite Husers, length_app, mark_length. simpl. lia. }
  split; [reflexivity|]. split; [reflexivity|].
  intros prefix gap token Hraw Hclean Hgap Hsp Htok Hlen.
  change (content (with_status final userMessage)) with (redact raw).
  rewrite Hraw. apply redact_trailing_token; assumption.
Qed.

(** C6 fails as stated, in two ways.  A command line that repeats a stored
    one within ten seconds starts with [/] and is accepted, yet no user
    message is appended for it.  And a command that fails (here the store
    refuses the credentials: the session status is [failed] and the failure
    is reported in a notice) leaves its user message with status [sent], not
    [error]. *)
Lemma command_line_not_always_recorded_nor_marked_error :
  (startsWith "/" (inputValue Sample.repeated_command) = true
   /\ user_count (messages (handleSendMessage Sample.props Sample.at1
                                              Sample.repeated_command))
      = user_count (messages Sample.repeated_command))
  /\ (startsWith "/" (inputValue Sample.secret) = true
      /\ supabaseStatus (handleSendMessage Sample.props Sample.at1 Sample.secret) = failed
      /\ notice_count "Falha ao conectar Supabase: Invalid API key"
                      (messages (handleSendMessage Sample.props Sample.at1 Sample.secret))
         = 1%nat
      /\ map status
             (filter is_user
                     (messages (handleSendMessage Sample.props Sample.at1 Sample.secret)))
         = [Some sent]
      /\ map status
             (filter is_user
                     (messages (handleSendMessage Sample.props Sample.at1 Sample.secret)))
         <> [Some error]).
Proof.
  vm_compute. repeat split; discriminate.
Qed.

(** C6, amended.  For an accepted submission whose trimmed text starts with
    [/]: when the redacted line repeats a user message of the last ten
    seconds, no user message is appended; otherwise exactly one user message
    is appended, whatever the dispatched command does, with the redacted line
    as content (a trailing token of 16 or more characters among letters,
    digits, [-] and [_], separated by white space from what precedes it, is
    replaced by the marker).  Its final status is [sent] when the dispatcher
    returns and [error] when it throws; with the program's own dispatcher,
    which reports the failures of a command in notices and returns, the
    status is [sent] also when the command failed. *)
Theorem command_line_recorded_once
        (dispatch : World -> string -> State -> State * option Exn)
        (p : Props) (w : World) (s : State) :
  appends_notices dispatch ->
  accepted p s ->
  startsWith "/" (trim (inputValue s)) = true ->
  let raw := trim (inputValue s) in
  let userMessage := commandMessage w (redact raw) in
  let duplicate := isDuplicateUserMessage (now w) (messages s) (redact raw) None None in
  let final :=
    match snd (dispatch w raw (stage userMessage (setProcessing true s))) with
    | None => sent
    | Some _ => error
    end in
  (duplicate = true ->
   filter is_user (messages (handleSendMessage_with dispatch p w s))
   = filter is_user (messages s))
  /\ (duplicate = false ->
      filter is_user (messages (handleSendMessage_with dispatch p w s))
      = (mark (id userMessage) final (filter is_user (messages s))
         ++ [with_status final userMessage])%list
      /\ user_count (messages (handleSendMessage_with dispatch p w s))
         = S (user_count (messages s))
      /\ content (with_status final userMessage) = redact raw
      /\ status (with_status final userMessage) = Some final)
  /\ (duplicate = false ->
      filter is_user (messages (handleSendMessage p w s))
      = (mark (id userMessage) sent (filter is_user (messages s))
         ++ [with_status sent userMessage])%list
      /\ user_count (messages (handleSendMessage p w s)) = S (user_count (messages s)))
  /\ (forall prefix gap token,
        raw = prefix ++ gap ++ token ->
        (forall p' c, prefix = p' ++ String c "" -> is_space c = false) ->
        gap <> "" ->
        forallb is_space (list_ascii_of_string gap) = true ->
        forallb is_token_char (list_ascii_of_string token) = true ->
        (16 <= String.length token)%nat ->
        redact raw = prefix ++ " <REDACTED>").
Proof.
  intros Hdisp Hacc Hcmd raw userMessage duplicate final.
  destruct (gate_open p s Hacc) as [Hg1 Hg2].
  split; [|split; [|split]].
  - intros Hdup. unfold handleSendMessage_with.
    rewrite Hg1, Hg2, Hcmd. fold raw. fold duplicate. rewrite Hdup.
    cbn [messages setInputValue notify setMessages setProcessing].
    destruct (addSystemMessage_appends (uuid_notice w) (now w) duplicateNotice (messages s))
      as (ns & -> & Hns).
    apply users_of_notices. exact Hns.
  - intros Hnew.
    destruct (command_path_shape dispatch p w s Hdisp Hacc Hcmd Hnew)
      as (H1 & H2 & H3 & H4 & _).
    repeat split; assumption.
  - intros Hnew.
    destruct (command_path_shape handleCommand p w s handleCommand_appends_notices
                                 Hacc Hcmd Hnew) as (H1 & H2 & _).
    cbv zeta in H1, H2.
    rewrite (handleCommand_returns w (trim (inputValue s))) in H1.
    split; [exact H1 | exact H2].
  - intros prefix gap token Hraw Hclean Hgap Hsp Htok Hlen.
    rewrite Hraw. apply redact_trailing_token; assumption.
Qed.

Lemma command_line_recorded_once_witness :
  (filter is_user (messages (handleSendMessage_with Sample.throwing Sample.props Sample.at1
                                                    Sample.secret))
   = [with_status error
        (commandMessage Sample.at1 "/supabase connect https://x.supabase.co <REDACTED>")]
   /\ filter is_user (messages (handleSendMessage Sample.props Sample.at1 Sample.secret))
      = [with_status sent
           (commandMessage Sample.at1 "/supabase connect https://x.supabase.co <REDACTED>")]
   /\ redact (trim Sample.secret_line)
      = "/supabase connect https://x.supabase.co" ++ " <REDACTED>")
  /\ filter is_user (messages (handleSendMessage Sample.props Sample.at1
                                                 Sample.repeated_command))
     = filter is_user (messages Sample.repeated_command).
Proof.
  assert (Hthrow : appends_notices Sample.throwing).
  { intros w raw st. exists []. split; [symmetry; apply app_nil_r | reflexivity]. }
  split.
  - destruct (command_line_recorded_once Sample.throwing Sample.props Sample.at1
                                         Sample.secret Hthrow)
      as (_ & Hany & Hown & Hredact).
    + unfold accepted. repeat split; try reflexivity. vm_compute. discriminate.
    + vm_compute. reflexivity.
    + destruct (Hany ltac:(vm_compute; reflexivity)) as (Husers & _).
      destruct (Hown ltac:(vm_compute; reflexivity)) as (Husers' & _).
      split; [|split].
      * rewrite Husers. vm_compute. reflexivity.
      * rewrite Husers'. vm_compute. reflexivity.
      * apply (Hredact "/supabase connect https://x.supabase.co" " "
                       "eyJhbGciOiJIUzI1NiIsInR5cCI6").
        -- vm_compute. reflexivity.
        -- intros p' c E. apply last_char in E. vm_compute in E.
           injection E as <-. reflexivity.
        -- discriminate.
        -- reflexivity.
        -- reflexivity.
        -- simpl. lia.
  - destruct (command_line_recorded_once handleCommand Sample.props Sample.at1
                                         Sample.repeated_command
                                         handleCommand_appends_notices)
      as (Hdup & _).
    + unfold accepted. repeat split; try reflexivity. vm_compute. discriminate.
    + vm_compute. reflexivity.
    + apply Hdup. vm_compute. reflexivity.
Defined.

(** The [catch] continuation: when the dispatcher throws, the recorded
    message ends with status [error]. *)
Example command_error_status :
  filter is_user
         (messages (handleSendMessage_with Sample.throwing Sample.props Sample.at1
                                           Sample.secret))
  = [with_status error
       (commandMessage Sample.at1 "/supabase connect https://x.supabase.co <REDACTED>")].
Proof. vm_compute. reflexivity. Qed.

(** C1 fails on the code.  A command line that repeats a stored one within
    ten seconds is accepted, takes the latch and returns through the
    duplicate branch without releasing it: the latch is still set when the
    call has settled, and the next submission is dropped at the entry
    guard. *)
Theorem latch_held_after_duplicate_command :
  let s1 := handleSendMessage Sample.props Sample.at1 Sample.repeated_command in
  isProcessingRef Sample.repeated_command = false
  /\ isProcessingRef s1 = true
  /\ handleSendMessage Sample.props Sample.at2 (typeInput "oi" s1) = typeInput "oi" s1.
Proof. vm_compute. repeat split. Qed.

(** C2 fails on the code.  ["oi"] is accepted and is no duplicate; the proxy
    answers 500.  The transcript grows, but the user message appended by the
    call keeps the status [sending]. *)
Theorem user_message_left_sending_on_proxy_error :
  let s1 := handleSendMessage Sample.props Sample.failing Sample.fresh in
  (List.length (messages Sample.fresh) < List.length (messages s1))%nat
  /\ filter is_user (messages s1)
     = [mkMessage (genId "u" (uuid_user Sample.failing)) "oi" user (now Sample.failing)
                  (Some sending) None None None (Some [])].
Proof. vm_compute. split; [lia | reflexivity]. Qed.

End ChatClaims.

(* ================================================================== *)
(** ** Further properties of the proxies *)

Section ProxyEdges.
Import Js Proxy Measures.

Lemma required_string_none (v : jsval) :
  (forall p, v = Some (JStr p) -> p = "") -> required_string v = None.
Proof.
  intros H. unfold required_string, as_string.
  destruct v as [[| | |p| |]|]; try reflexivity.
  rewrite (H p eq_refl). reflexivity.
Qed.

Lemma required_string_some (p : string) :
  p <> "" -> required_string (Some (JStr p)) = Some p.
Proof.
  intros H. unfold required_string. simpl.
  destruct (String.eqb p "") eqn:E; [apply String.eqb_eq in E; contradiction | reflexivity].
Qed.

Lemma required_string_inv (v : jsval) (p : string) :
  required_string v = Some p -> v = Some (JStr p) /\ p <> "".
Proof.
  unfold required_string, as_string.
  destruct v as [[| | |q| |]|]; try discriminate.
  simpl. destruct (String.eqb q "") eqn:E; simpl; [discriminate|].
  intros H. injection H as <-. apply String.eqb_neq in E. split; [reflexivity | exact E].
Qed.

Lemma missing_false (k : option string) :
  missing k = false -> exists key, k = Some key /\ key <> "".
Proof.
  unfold missing. destruct k as [key|]; [|discriminate].
  intros E. apply String.eqb_neq in E. exists key. split; [reflexivity | exact E].
Qed.

Lemma build_contents_nonempty_always (recent : option (list Row)) (p : string) :
  build_contents recent p <> [].
Proof.
  unfold build_contents. destruct (context_of recent) eqn:E; simpl; discriminate.
Qed.

Lemma context_window_bounded_core (env : Env) (p c : string) :
  (List.length (build_contents (fetch_recent env c) p) <= 12)%nat
  /\ total_chars (build_contents (fetch_recent env c) p) <= 5000.
Proof.
  destruct (add_context_prefix (window env c) 0 []) as (k & Hle & Heq & Hfit & _).
  simpl in Heq. rewrite <- context_of_window in Heq.
  pose proof (window_length env c) as Hwin. unfold MAX_MESSAGES in Hwin.
  unfold MAX_CONTEXT_CHARS in *.
  destruct (context_of (fetch_recent env c)) as [|t ts] eqn:E.
  - rewrite (build_contents_empty _ _ E). simpl.
    pose proof (truncate_bound 1000 p). lia.
  - assert (Hne : context_of (fetch_recent env c) <> []) by (rewrite E; discriminate).
    rewrite (build_contents_nonempty _ _ Hne), E, Heq.
    rewrite length_map, length_firstn, total_chars_turns.
    destruct k as [|k]; [simpl in Heq; discriminate|].
    specialize (Hfit ltac:(lia)). lia.
Qed.

(** What a request that reaches the upstream call looks like. *)
Lemma sent_inv (env : Env) (req : Request) (contents : list Content) :
  sent (serve env req) = Some contents ->
  method req = POST
  /\ missing (GEMINI_API_KEY env) = false
  /\ exists b p c,
       body req = Parses b
       /\ prompt b = Some (JStr p) /\ p <> ""
       /\ chatId b = Some (JStr c) /\ c <> ""
       /\ contents = build_contents (fetch_recent env c) p.
Proof.
  unfold serve.
  destruct (method req); try (simpl; discriminate).
  - destruct (missing (GEMINI_API_KEY env)); simpl; discriminate.
  - destruct (missing (GEMINI_API_KEY env)) eqn:Ek; [simpl; discriminate|].
    destruct (body req) as [msg|b]; [simpl; discriminate|].
    destruct (required_string (prompt b)) as [p|] eqn:Ep; [|simpl; discriminate].
    destruct (required_string (chatId b)) as [c|] eqn:Ec; [|simpl; discriminate].
    apply required_string_inv in Ep. apply required_string_inv in Ec.
    destruct Ep as [Ep1 Ep2]. destruct Ec as [Ec1 Ec2].
    intros H. split; [reflexivity|]. split; [reflexivity|].
    exists b, p, c. repeat split; try assumption.
    destruct (generate env (build_contents (fetch_recent env c) p)) as [m|st m|st out];
      simpl in H; try (injection H as <-; reflexivity).
    destruct (negb (status_ok st)); [destruct out|];
      simpl in H; injection H as <-; reflexivity.
Qed.

(** X1.  A [POST] whose prompt is anything but a non-empty string is
    answered 400 "Prompt is required"; with a proper prompt, a chat id that is
    anything but a non-empty string is answered 400 "Chat ID is required".
    In both cases the generation endpoint is not called and nothing is
    inserted. *)
Theorem invalid_body_rejected (env : Env) (key : string) (b : Body) :
  GEMINI_API_KEY env = Some key -> key <> "" ->
  ((forall p, prompt b = Some (JStr p) -> p = "") ->
   serve env (mkRequest POST (Parses b))
   = mkOutcome (mkResponse 400 (Failure (Some (JStr "Prompt is required")) None)) None [])
  /\ (forall p, prompt b = Some (JStr p) -> p <> "" ->
      (forall c, chatId b = Some (JStr c) -> c = "") ->
      serve env (mkRequest POST (Parses b))
      = mkOutcome (mkResponse 400 (Failure (Some (JStr "Chat ID is required")) None))
                  None []).
Proof.
  intros Hkey Hk.
  assert (Hm : missing (GEMINI_API_KEY env) = false).
  { unfold missing. rewrite Hkey. apply String.eqb_neq. exact Hk. }
  split.
  - intros Hp. unfold serve. simpl. rewrite Hm, (required_string_none _ Hp). reflexivity.
  - intros p Hp Hne Hc. unfold serve. simpl.
    rewrite Hm, Hp, (required_string_some p Hne), (required_string_none _ Hc). reflexivity.
Qed.

Lemma invalid_body_rejected_witness :
  serve (Sample.env_of Sample.three) (mkRequest POST (Parses (mkBody (Some (JNum 7)) None)))
  = mkOutcome (mkResponse 400 (Failure (Some (JStr "Prompt is required")) None)) None []
  /\ serve (Sample.env_of Sample.three)
           (mkRequest POST (Parses (mkBody (Some (JStr "oi")) (Some (JStr "")))))
     = mkOutcome (mkResponse 400 (Failure (Some (JStr "Chat ID is required")) None)) None [].
Proof.
  split.
  - apply (proj1 (invalid_body_rejected (Sample.env_of Sample.three) "k"
                    (mkBody (Some (JNum 7)) None) eq_refl ltac:(discriminate))).
    intros p H. discriminate H.
  - apply (proj2 (invalid_body_rejected (Sample.env_of Sample.three) "k"
                    (mkBody (Some (JStr "oi")) (Some (JStr ""))) eq_refl ltac:(discriminate))
                 "oi" eq_refl ltac:(discriminate)).
    intros c H. injection H as <-. reflexivity.
Defined.

(** X2.  Without the server credential (absent or empty) no request reaches
    the generation endpoint or the store: [GET] is answered 503, [POST] 400,
    [OPTIONS] 200 and any other method 405, whatever the body. *)
Theorem credential_required (env : Env) (req : Request) :
  GEMINI_API_KEY env = None \/ GEMINI_API_KEY env = Some "" ->
  sent (serve env req) = None
  /\ inserts (serve env req) = []
  /\ status (response (serve env req))
     = match method req with
       | OPTIONS => 200
       | GET => 503
       | POST => 400
       | OTHER => 405
       end.
Proof.
  intros H.
  assert (Hm : missing (GEMINI_API_KEY env) = true)
    by (destruct H as [-> | ->]; reflexivity).
  unfold serve. destruct (method req); rewrite ?Hm; repeat split.
Qed.

Lemma credential_required_witness :
  sent (serve Cases.no_key (post "oi" "c1")) = None
  /\ inserts (serve Cases.no_key (post "oi" "c1")) = []
  /\ status (response (serve Cases.no_key (post "oi" "c1"))) = 400.
Proof.
  apply (credential_required Cases.no_key (post "oi" "c1")). left. reflexivity.
Defined.

(** X3.  Whatever the request, the handler issues at most one insert, and it
    issues one only together with a 200 answer: the inserted row has the
    request's chat id, sender [assistant], and as content the very text
    returned to the caller, which is never null, empty or otherwise falsy. *)
Theorem persists_only_what_it_returns (env : Env) (req : Request) :
  inserts (serve env req) = []
  \/ exists b c t raw,
       body req = Parses b
       /\ chatId b = Some (JStr c)
       /\ inserts (serve env req) = [mkInsert c t "assistant"]
       /\ response (serve env req) = mkResponse 200 (Success (Some t) raw)
       /\ truthy (Some t) = true.
Proof.
  unfold serve.
  destruct (method req); try (left; reflexivity).
  - destruct (missing (GEMINI_API_KEY env)); left; reflexivity.
  - destruct (missing (GEMINI_API_KEY env)); [left; reflexivity|].
    destruct (body req) as [msg|b]; [left; reflexivity|].
    destruct (required_string (prompt b)) as [p|] eqn:Ep; [|left; reflexivity].
    destruct (required_string (chatId b)) as [c|] eqn:Ec; [|left; reflexivity].
    apply required_string_inv in Ec. destruct Ec as [Ec _].
    destruct (generate env (build_contents (fetch_recent env c) p)) as [m|st m|st out];
      try (left; reflexivity).
    destruct (negb (status_ok st)); [destruct out; left; reflexivity|].
    destruct (extract_text out) as [t|] eqn:Et; [|left; reflexivity].
    pose proof (extract_text_truthy out t Et) as Ht. rewrite Ht.
    right. exists b, c, t, out.
    repeat split; try reflexivity; assumption.
Qed.

(** X4.  The generation endpoint is called only for a [POST] made with the
    credential present, and the conversation posted is never empty: it has
    between 1 and 12 turns, of at most 5000 characters in total. *)
Theorem posts_a_bounded_nonempty_context (env : Env) (req : Request)
        (contents : list Content) :
  sent (serve env req) = Some contents ->
  method req = POST
  /\ (exists key, GEMINI_API_KEY env = Some key /\ key <> "")
  /\ (1 <= List.length contents <= 12)%nat
  /\ total_chars contents <= 5000.
Proof.
  intros H. destruct (sent_inv env req contents H)
    as (Hm & Hk & b & p & c & Hb & Hp & Hpne & Hc & Hcne & ->).
  destruct (missing_false _ Hk) as (key & Hkey & Hkne).
  destruct (context_window_bounded_core env p c) as (Hlen & Htot).
  split; [exact Hm|]. split; [exists key; split; assumption|].
  split; [|exact Htot]. split; [|exact Hlen].
  pose proof (build_contents_nonempty_always (fetch_recent env c) p) as Hne.
  destruct (build_contents (fetch_recent env c) p); [congruence | simpl; lia].
Qed.

Lemma posts_a_bounded_nonempty_context_witness :
  method (post "oi" "c1") = POST
  /\ (exists key, GEMINI_API_KEY (Sample.env_of Sample.fifteen) = Some key /\ key <> "")
  /\ (1 <= List.length (map turn (firstn 5 (skipn 3 Sample.fifteen))) <= 12)%nat
  /\ total_chars (map turn (firstn 5 (skipn 3 Sample.fifteen))) <= 5000.
Proof.
  apply (posts_a_bounded_nonempty_context (Sample.env_of Sample.fifteen) (post "oi" "c1")).
  vm_compute. reflexivity.
Defined.

Lemma serve_valid (env : Env) (key p c : string) :
  GEMINI_API_KEY env = Some key -> key <> "" -> p <> "" -> c <> "" ->
  serve env (post p c)
  = let contents := build_contents (fetch_recent env c) p in
    match generate env contents with
    | FetchThrows msg =>
        mkOutcome (mkResponse 500 (Failure (Some (JStr msg)) None)) (Some contents) []
    | BodyUnreadable _ msg =>
        mkOutcome (mkResponse 500 (Failure (Some (JStr msg)) None)) (Some contents) []
    | Responds st out =>
        if negb (status_ok st) then
          match out with
          | JNull =>
              mkOutcome
                (mkResponse 500
                   (Failure (Some (JStr "Cannot read properties of null (reading 'error')"))
                            None))
                (Some contents) []
          | _ =>
              mkOutcome
                (mkResponse st
                   (Failure (or_else (get "message" (get "error" (Some out)))
                                     (Some (JStr "Gemini API error")))
                            (Some out)))
                (Some contents) []
          end
        else
          mkOutcome (mkResponse 200 (Success (extract_text out) out)) (Some contents)
                    (if truthy (extract_text out)
                     then match extract_text out with
                          | Some t => [mkInsert c t "assistant"]
                          | None => []
                          end
                     else [])
    end.
Proof.
  intros Hkey Hk Hp Hc. unfold serve, post. cbn [method body prompt chatId].
  assert (Hm : missing (GEMINI_API_KEY env) = false).
  { unfold missing. rewrite Hkey. apply String.eqb_neq. exact Hk. }
  rewrite Hm, (required_string_some p Hp), (required_string_some c Hc). reflexivity.
Qed.

(** X5.  When the generation endpoint answers with a status outside 200-299
    and a body other than [null], the handler answers with that same status,
    hands the upstream body back as [raw], reports a non-empty error (the
    upstream [error.message] when there is one), and inserts nothing. *)
Theorem upstream_failure_forwarded (env : Env) (key p c : string) (st : Z) (out : json) :
  GEMINI_API_KEY env = Some key -> key <> "" -> p <> "" -> c <> "" ->
  generate env (build_contents (fetch_recent env c) p) = Responds st out ->
  ~ (200 <= st <= 299) ->
  out <> JNull ->
  status (response (serve env (post p c))) = st
  /\ inserts (serve env (post p c)) = []
  /\ (exists e, payload (response (serve env (post p c))) = Failure e (Some out)
                /\ truthy e = true
                /\ (forall m, get "message" (get "error" (Some out)) = Some (JStr m) ->
                              m <> "" -> e = Some (JStr m))
                /\ (get "error" (Some out) = None -> e = Some (JStr "Gemini API error"))).
Proof.
  intros Hkey Hk Hp Hc Hgen Hst Hout.
  rewrite (serve_valid env key p c Hkey Hk Hp Hc). cbv zeta. rewrite Hgen.
  assert (Hok : status_ok st = false).
  { unfold status_ok. destruct (200 <=? st) eqn:E1; [|reflexivity].
    destruct (st <=? 299) eqn:E2; [|reflexivity]. lia. }
  rewrite Hok. cbn [negb].
  assert (E : forall o,
             o = mkOutcome
                   (mkResponse st
                      (Failure (or_else (get "message" (get "error" (Some out)))
                                        (Some (JStr "Gemini API error")))
                               (Some out)))
                   (Some (build_contents (fetch_recent env c) p)) [] ->
             status (response o) = st /\ inserts o = []
             /\ (exists e, payload (response o) = Failure e (Some out)
                           /\ truthy e = true
                           /\ (forall m, get "message" (get "error" (Some out)) = Some (JStr m) ->
                                         m <> "" -> e = Some (JStr m))
                           /\ (get "error" (Some out) = None ->
                               e = Some (JStr "Gemini API error")))).
  { intros o ->. split; [reflexivity|]. split; [reflexivity|].
    eexists. split; [reflexivity|]. unfold or_else. split; [|split].
    - destruct (truthy (get "message" (get "error" (Some out)))) eqn:Et;
        [exact Et | reflexivity].
    - intros m Hm Hne. rewrite Hm. simpl.
      destruct (String.eqb m "") eqn:Em; [apply String.eqb_eq in Em; contradiction|].
      reflexivity.
    - intros Hnone. rewrite Hnone. reflexivity. }
  destruct out; try (apply E; reflexivity). congruence.
Qed.

Lemma upstream_failure_forwarded_witness :
  status (response (serve (mkEnv (Some "k") Sample.three false (Cases.refusing 429))
                           (post "oi" "c1"))) = 429
  /\ inserts (serve (mkEnv (Some "k") Sample.three false (Cases.refusing 429))
                    (post "oi" "c1")) = [].
Proof.
  destruct (upstream_failure_forwarded
              (mkEnv (Some "k") Sample.three false (Cases.refusing 429)) "k" "oi" "c1" 429
              (JObj [("error", JObj [("message", JStr "quota exceeded")])]))
    as (H1 & H2 & _); try discriminate; try reflexivity.
  - lia.
  - split; assumption.
Defined.

(** X6.  A non-OK upstream answer whose body is JSON [null] is not
    forwarded: reading [out.error] throws, and the handler answers 500.
    Nothing is inserted. *)
Theorem upstream_failure_with_null_body (env : Env) (key p c : string) (st : Z) :
  GEMINI_API_KEY env = Some key -> key <> "" -> p <> "" -> c <> "" ->
  generate env (build_contents (fetch_recent env c) p) = Responds st JNull ->
  ~ (200 <= st <= 299) ->
  status (response (serve env (post p c))) = 500
  /\ inserts (serve env (post p c)) = [].
Proof.
  intros Hkey Hk Hp Hc Hgen Hst.
  rewrite (serve_valid env key p c Hkey Hk Hp Hc). cbv zeta. rewrite Hgen.
  assert (Hok : status_ok st = false).
  { unfold status_ok. destruct (200 <=? st) eqn:E1; [|reflexivity].
    destruct (st <=? 299) eqn:E2; [|reflexivity]. lia. }
  rewrite Hok. split; reflexivity.
Qed.

Lemma upstream_failure_with_null_body_witness :
  status (response (serve (mkEnv (Some "k") [] false (fun _ => Responds 502 JNull))
                           (post "oi" "c1"))) = 500
  /\ inserts (serve (mkEnv (Some "k") [] false (fun _ => Responds 502 JNull))
                    (post "oi" "c1")) = [].
Proof.
  apply (upstream_failure_with_null_body
           (mkEnv (Some "k") [] false (fun _ => Responds 502 JNull)) "k" "oi" "c1" 502);
    try discriminate; try reflexivity.
  lia.
Defined.

(** X7.  A failing history query does not fail the request: for every
    request the handler behaves exactly as if the conversation had no stored
    turn, so whenever it calls the generation endpoint it posts the single
    [user] turn holding the prompt cut to 1000 characters. *)
Theorem store_failure_is_empty_history
        (key : option string) (table : list Row)
        (gen : list Content -> Upstream) (req : Request) :
  serve (mkEnv key table true gen) req = serve (mkEnv key [] false gen) req
  /\ (forall contents,
        sent (serve (mkEnv key table true gen) req) = Some contents ->
        exists b p,
          body req = Parses b /\ prompt b = Some (JStr p)
          /\ contents = [mkContent user (substring 0 1000 p)]).
Proof.
  split; [reflexivity|].
  intros contents H.
  destruct (sent_inv _ _ _ H) as (_ & _ & b & p & c & Hb & Hp & _ & _ & _ & ->).
  exists b, p. split; [exact Hb|]. split; [exact Hp|].
  rewrite <- truncate_prefix. apply build_contents_empty. reflexivity.
Qed.

Lemma store_failure_is_empty_history_witness :
  exists b p,
    body (post "oi" "c1") = Parses b /\ prompt b = Some (JStr p)
    /\ [mkContent user (truncate 1000 "oi")] = [mkContent user (substring 0 1000 p)].
Proof.
  apply (proj2 (store_failure_is_empty_history (Some "k") Sample.fifteen
                  (Sample.upstream_ok "ola") (post "oi" "c1"))).
  vm_compute. reflexivity.
Defined.

Lemma filter_twice {A : Type} (f : A -> bool) (l : list A) :
  filter f (filter f l) = filter f l.
Proof.
  induction l as [|x l IH]; simpl; [reflexivity|].
  destruct (f x) eqn:E; simpl; rewrite ?E, IH; reflexivity.
Qed.

(** X8.  Rows of other conversations never reach the generation endpoint:
    for every request carrying chat id [c], the handler behaves exactly as on
    the table restricted to the rows of [c]. *)
Theorem other_conversations_ignored
        (key : option string) (table : list Row) (failing : bool)
        (gen : list Content -> Upstream) (p : jsval) (c : string) :
  serve (mkEnv key table failing gen)
        (mkRequest POST (Parses (mkBody p (Some (JStr c)))))
  = serve (mkEnv key
                 (filter (fun r => match chat_id r with
                                   | Some x => String.eqb x c
                                   | None => false
                                   end) table)
                 failing gen)
          (mkRequest POST (Parses (mkBody p (Some (JStr c))))).
Proof.
  unfold serve. cbn [method body prompt chatId GEMINI_API_KEY].
  destruct (missing key); [reflexivity|].
  destruct (required_string p) as [q|]; [|reflexivity].
  destruct (required_string (Some (JStr c))) as [c'|] eqn:Ec; [|reflexivity].
  apply required_string_inv in Ec. destruct Ec as [Ec _]. injection Ec as <-.
  assert (E : fetch_recent (mkEnv key table failing gen) c
              = fetch_recent
                  (mkEnv key
                         (filter (fun r => match chat_id r with
                                           | Some x => String.eqb x c
                                           | None => false
                                           end) table)
                         failing gen) c).
  { unfold fetch_recent, select_recent. cbn [messagesError messages].
    rewrite filter_twice. reflexivity. }
  rewrite E. reflexivity.
Qed.

(** X9.  The single-shot handler posts the prompt itself, cut to its first
    5000 characters: a prompt of at most 5000 characters is posted whole. *)
Theorem single_shot_prompt_bounded (env : Single.Env) (key p : string) :
  Single.GEMINI_API_KEY env = Some key -> key <> "" -> p <> "" ->
  Single.sent (Single.serve env (Single.mkRequest POST (Single.Parses (Some (JStr p)))))
  = Some (substring 0 5000 p)
  /\ strlen (substring 0 5000 p) <= 5000
  /\ (strlen p <= 5000 -> substring 0 5000 p = p).
Proof.
  intros Hkey Hk Hp.
  assert (Hm : missing (Single.GEMINI_API_KEY env) = false).
  { unfold missing. rewrite Hkey. apply String.eqb_neq. exact Hk. }
  split; [|split].
  - unfold Single.serve. cbn [Single.method Single.body].
    rewrite Hm, (required_string_some p Hp), <- truncate_prefix.
    destruct (Single.generate env (truncate 5000 p)) as [m|st m|st out]; try reflexivity.
    destruct (negb (status_ok st)); [destruct out|]; reflexivity.
  - rewrite <- truncate_prefix. apply (truncate_bound 5000).
  - intros Hlen. rewrite <- truncate_prefix. unfold truncate.
    destruct (strlen p >? Z.of_nat 5000) eqn:E; [|reflexivity].
    change (Z.of_nat 5000) with 5000 in E. lia.
Qed.

Lemma single_shot_prompt_bounded_witness :
  Single.sent (Single.serve Cases.single_env
                 (Single.mkRequest POST (Single.Parses (Some (JStr "oi")))))
  = Some (substring 0 5000 "oi")
  /\ strlen (substring 0 5000 "oi") <= 5000
  /\ (strlen "oi" <= 5000 -> substring 0 5000 "oi" = "oi").
Proof.
  apply (single_shot_prompt_bounded Cases.single_env "k" "oi");
    [reflexivity | discriminate | discriminate].
Defined.

End ProxyEdges.

(* ================================================================== *)
(** ** Further properties of the badge and of the health effect *)

Section HealthEdges.
Import Js Chat Ui.

(** X10.  Both clients of the proxy's [GET] agree with the server
    configuration: the badge shows [ok] and the chat records the proxy as
    healthy exactly when the credential is present; without it the badge
    shows [error] (never [warn]) and the chat records the proxy as unhealthy. *)
Theorem health_clients_reflect_credential (env : Proxy.Env) (s : State) :
  badge_of env = (if Proxy.missing (Proxy.GEMINI_API_KEY env) then Badge.error else Badge.ok)
  /\ geminiHealth (health_of env s) = negb (Proxy.missing (Proxy.GEMINI_API_KEY env)).
Proof.
  unfold badge_of, health_of, Proxy.serve. cbn [Proxy.method].
  destruct (Proxy.missing (Proxy.GEMINI_API_KEY env)); split; reflexivity.
Qed.

(** X11.  The health effect of the chat records the proxy as healthy only
    for a status of exactly 200: any other answer, and a failed fetch, record
    it as unhealthy.  In particular a 2xx answer other than 200 makes the
    badge show [ok] while the chat treats the proxy as unhealthy.  The effect
    changes nothing else, and nothing at all once unmounted. *)
Theorem health_requires_200 (f : Probe) (s : State) :
  (geminiHealth (healthEffect true f s) = true <-> f = ProbeAnswers 200)
  /\ (forall st, 200 < st <= 299 ->
                 Badge.runCheck (Badge.Resolves st) = Badge.ok
                 /\ geminiHealth (healthEffect true (ProbeAnswers st) s) = false)
  /\ healthEffect true f s = setGeminiHealth (geminiHealth (healthEffect true f s)) s
  /\ healthEffect false f s = s.
Proof.
  split; [|split; [|split]].
  - unfold healthEffect. cbn [negb]. destruct f as [|st].
    + cbn. split; discriminate.
    + destruct (status_ok st) eqn:Eok; cbn.
      * split.
        -- intros H. apply Z.eqb_eq in H. subst st. reflexivity.
        -- intros H. injection H as ->. reflexivity.
      * split; [discriminate|]. intros H. injection H as ->. discriminate Eok.
  - intros st Hst. unfold Badge.runCheck, healthEffect, status_ok. cbn [negb].
    destruct (200 <=? st) eqn:E1; [|lia].
    destruct (st <=? 299) eqn:E2; [|lia].
    cbn. split; [reflexivity|]. apply Z.eqb_neq. lia.
  - unfold healthEffect. cbn [negb]. destruct f as [|st]; [reflexivity|].
    destruct (status_ok st); reflexivity.
  - reflexivity.
Qed.

Lemma health_requires_200_witness :
  Badge.runCheck (Badge.Resolves 204) = Badge.ok
  /\ geminiHealth (healthEffect true (ProbeAnswers 204) Sample.fresh) = false.
Proof.
  apply (proj1 (proj2 (health_requires_200 ProbeFails Sample.fresh)) 204). lia.
Defined.

End HealthEdges.

(* ================================================================== *)
(** ** Further properties of the redaction *)

Section RedactionEdges.
Import Text.

Lemma drop_space_suffix (l : list ascii) :
  exists pre, l = (pre ++ drop_space l)%list /\ forallb is_space pre = true.
Proof.
  induction l as [|c l IH]; simpl.
  - exists []. split; reflexivity.
  - destruct (is_space c) eqn:E.
    + destruct IH as (pre & Hl & Hpre). exists (c :: pre). simpl.
      rewrite E, Hpre. split; [f_equal; exact Hl | reflexivity].
    + exists []. split; reflexivity.
Qed.

Lemma redact_match_inv (l : list ascii) :
  redact_match l = true ->
  (exists c r, l = c :: r /\ is_space c = true)
  /\ (17 <= List.length l)%nat
  /\ forallb is_token_char (drop_space l) = true
  /\ drop_space l <> [].
Proof.
  unfold redact_match. intros H.
  apply andb_prop in H. destruct H as [H Htok].
  apply andb_prop in H. destruct H as [Hlt Hlen].
  apply Nat.ltb_lt in Hlt. apply Nat.leb_le in Hlen.
  split; [|split; [lia|split; [exact Htok|]]].
  - destruct l as [|c r]; [simpl in Hlt; lia|].
    exists c, r. split; [reflexivity|].
    destruct (is_space c) eqn:E; [reflexivity|].
    simpl in Hlt. rewrite E in Hlt. simpl in Hlt. lia.
  - intros E. rewrite E in Hlen. simpl in Hlen. lia.
Qed.

Lemma no_match_before_closing (a : list ascii) (x : ascii) :
  is_token_char x = false -> redact_match (a ++ [x]) = false.
Proof.
  intros Hx. destruct (redact_match (a ++ [x])) eqn:E; [|reflexivity].
  destruct (redact_match_inv _ E) as (_ & _ & Htok & Hne).
  destruct (drop_space_suffix (a ++ [x])) as (pre & Hl & _).
  destruct (exists_last Hne) as (r & y & Hr).
  rewrite Hr in Hl, Htok. rewrite app_assoc in Hl.
  apply app_inj_tail in Hl. destruct Hl as [_ <-].
  rewrite forallb_app in Htok. simpl in Htok. rewrite Hx in Htok.
  rewrite andb_false_r in Htok. discriminate.
Qed.

Lemma redact_chars_cons (c : ascii) (l : list ascii) :
  redact_chars (c :: l)
  = if redact_match (c :: l) then list_ascii_of_string " <REDACTED>"
    else c :: redact_chars l.
Proof. reflexivity. Qed.

Lemma redact_chars_closed (a : list ascii) (x : ascii) :
  is_token_char x = false -> redact_chars (a ++ [x]) = (a ++ [x])%list.
Proof.
  intros Hx. induction a as [|c a IH].
  - pose proof (no_match_before_closing [] x Hx) as H. cbn [app] in *.
    rewrite redact_chars_cons, H. reflexivity.
  - pose proof (no_match_before_closing (c :: a) x Hx) as H. cbn [app] in *.
    rewrite redact_chars_cons, H, IH. reflexivity.
Qed.

Lemma redact_chars_shape (l : list ascii) :
  redact_chars l = l
  \/ exists q rest,
       l = (q ++ rest)%list
       /\ redact_chars l = (q ++ list_ascii_of_string " <REDACTED>")%list
       /\ redact_match rest = true.
Proof.
  induction l as [|c l IH]; [left; reflexivity|].
  rewrite redact_chars_cons. destruct (redact_match (c :: l)) eqn:E.
  - right. exists [], (c :: l). repeat split. exact E.
  - destruct IH as [IH | (q & rest & Hl & Hr & Hm)].
    + left. rewrite IH. reflexivity.
    + right. exists (c :: q), rest. rewrite Hr.
      split; [rewrite Hl; reflexivity|]. split; [reflexivity | exact Hm].
Qed.

(** X12.  Redaction is idempotent: the text recorded for a command line has
    no trailing token left to redact. *)
Theorem redact_idempotent (raw : string) : redact (redact raw) = redact raw.
Proof.
  unfold redact. rewrite list_ascii_of_string_of_list_ascii. f_equal.
  destruct (redact_chars_shape (list_ascii_of_string raw))
    as [E | (q & rest & _ & E & _)]; rewrite E.
  - exact E.
  - change (list_ascii_of_string " <REDACTED>")
      with (list_ascii_of_string " <REDACTED" ++ [">"%char])%list.
    rewrite app_assoc. apply redact_chars_closed. reflexivity.
Qed.

(** X13.  Redaction either leaves the line as it is or replaces a tail of it
    by the marker; the replaced tail begins with a white-space character and
    has at least 17 characters, and everything before it is kept.  So a line
    without white space, or shorter than 17 characters, is never changed. *)
Theorem redact_replaces_only_a_tail (raw : string) :
  redact raw = raw
  \/ exists kept c rest,
       raw = kept ++ String c rest
       /\ redact raw = kept ++ " <REDACTED>"
       /\ is_space c = true
       /\ (16 <= String.length rest)%nat.
Proof.
  unfold redact.
  destruct (redact_chars_shape (list_ascii_of_string raw))
    as [E | (q & tail & Hl & E & Hm)]; rewrite E.
  - left. apply string_of_list_ascii_of_string.
  - right. destruct (redact_match_inv _ Hm) as ((c & r & -> & Hc) & Hlen & _).
    exists (string_of_list_ascii q), c, (string_of_list_ascii r).
    repeat split.
    + rewrite <- (string_of_list_ascii_of_string raw), Hl.
      rewrite string_of_list_ascii_app. reflexivity.
    + rewrite string_of_list_ascii_app. reflexivity.
    + exact Hc.
    + rewrite <- (list_ascii_of_string_of_list_ascii r) in Hlen.
      simpl in Hlen. rewrite length_list_ascii_of_string in Hlen. lia.
Qed.

End RedactionEdges.

(* ================================================================== *)
(** ** Further properties of the chat component *)

Section ChatEdges.
Import Js Text Chat Measures Ui.

Ltac split_command :=
  repeat match goal with
         | |- context [if ?b then _ else _] => destruct b
         | |- context [match ?x with _ => _ end] => destruct x
         end.

Lemma mark_is_restamp (uid : string) (v : Status) (l : list Message) :
  mark uid v l = map (restamp uid (Some v)) l.
Proof. reflexivity. Qed.

Lemma restamp_none (uid : string) (l : list Message) :
  map (restamp uid None) l = l.
Proof. induction l as [|m l IH]; simpl; [reflexivity|]. rewrite IH. reflexivity. Qed.

Lemma unstamped_restamp (uid : string) (st : option Status) (m : Message) :
  unstamped (restamp uid st m) = unstamped m.
Proof.
  unfold restamp. destruct st as [v|]; [|reflexivity].
  destruct (String.eqb (id m) uid); reflexivity.
Qed.

Lemma restamp_other (uid : string) (st : option Status) (m : Message) :
  id m <> uid -> restamp uid st m = m.
Proof.
  intros H. unfold restamp. destruct st as [v|]; [|reflexivity].
  destruct (String.eqb (id m) uid) eqn:E; [|reflexivity].
  apply String.eqb_eq in E. contradiction.
Qed.

Lemma is_user_restamp (uid : string) (st : option Status) (m : Message) :
  is_user (restamp uid st m) = is_user m.
Proof.
  unfold restamp. destruct st as [v|]; [|reflexivity].
  destruct (String.eqb (id m) uid); reflexivity.
Qed.

(** [handleCommand] reads and writes the transcript and the store session
    only, adds at most one notice, and returns normally. *)
Lemma handleCommand_frame (w : World) (raw : string) (s : State) :
  let r := fst (handleCommand w raw s) in
  inputValue r = inputValue s
  /\ isLoading r = isLoading s
  /\ isProcessingRef r = isProcessingRef s
  /\ geminiHealth r = geminiHealth s
  /\ replyTo r = replyTo s
  /\ pendingFiles r = pendingFiles s
  /\ toasts r = toasts s.
Proof.
  unfold handleCommand. split_command; repeat split.
Qed.

(** The transcript after one call, in terms of the transcript before it. *)
Lemma submission_shape
      (dispatch : World -> string -> State -> State * option Exn)
      (p : Props) (w : World) (s : State) :
  appends_notices dispatch ->
  exists (st : option Status) (users pilots : list Message),
    messages (handleSendMessage_with dispatch p w s)
    = map (restamp (genId "u" (uuid_user w)) st) (messages s ++ users ++ pilots)
    /\ (users = []
        \/ exists um, users = [um] /\ is_user um = true
                      /\ id um = genId "u" (uuid_user w) /\ accepted p s)
    /\ forallb is_pilot pilots = true.
Proof.
  intros Hdisp. unfold handleSendMessage_with.
  destruct (negb (gemini p)) eqn:Eg.
  { destruct (addSystemMessage_appends (uuid_notice w) (now w)
                "Atenção: Gemini/IA desativado no momento. Ative para enviar mensagens."
                (messages s)) as (ns & E & Hns).
    exists None, [], ns. rewrite restamp_none. cbn [notify setMessages messages app].
    rewrite E. repeat split; [left; reflexivity | exact Hns]. }
  destruct (String.eqb (trim (inputValue s)) "" || isLoading s || isProcessingRef s) eqn:Egate.
  { exists None, [], []. rewrite restamp_none, !app_nil_r.
    repeat split. left. reflexivity. }
  assert (Hacc : accepted p s).
  { apply negb_false_iff in Eg.
    apply orb_false_elim in Egate. destruct Egate as [Egate Hp].
    apply orb_false_elim in Egate. destruct Egate as [Hi Hl].
    apply String.eqb_neq in Hi. repeat split; assumption. }
  destruct (startsWith "/" (trim (inputValue s))).
  - destruct (isDuplicateUserMessage (now w) (messages s) _ None None).
    + destruct (addSystemMessage_appends (uuid_notice w) (now w) duplicateNotice (messages s))
        as (ns & E & Hns).
      exists None, [], ns. rewrite restamp_none.
      cbn [notify setMessages setInputValue setProcessing messages app].
      rewrite E. repeat split; [left; reflexivity | exact Hns].
    + set (um := commandMessage w (redact (trim (inputValue s)))).
      assert (Hum : [um] = [] \/ exists um0, [um] = [um0] /\ is_user um0 = true
                                  /\ id um0 = genId "u" (uuid_user w) /\ accepted p s).
      { right. exists um. split; [reflexivity|]. split; [reflexivity|].
        split; [reflexivity | exact Hacc]. }
      destruct (Hdisp w (trim (inputValue s)) (stage um (setProcessing true s)))
        as (ns & Hms & Hns).
      destruct (dispatch w (trim (inputValue s)) (stage um (setProcessing true s)))
        as [s3 thrown].
      cbn [fst] in Hms.
      change (messages (stage um (setProcessing true s)))
        with (messages s ++ [um])%list in Hms.
      destruct thrown as [err|].
      * destruct (addSystemMessage_appends (uuid_notice w) (later w)
                    ("Erro ao executar comando: " ++ describe err) (messages s3))
          as (ns' & E & Hns').
        exists (Some error), [um], (ns ++ ns')%list.
        cbn [release notify setMessages setIsLoading setProcessing messages].
        rewrite E, Hms, mark_is_restamp, <- !app_assoc.
        split; [reflexivity|]. split; [exact Hum|].
        rewrite forallb_app, Hns, Hns'. reflexivity.
      * exists (Some sent), [um], ns.
        cbn [release notify setMessages setIsLoading setProcessing messages].
        rewrite Hms, mark_is_restamp, <- !app_assoc.
        split; [reflexivity|]. split; [exact Hum | exact Hns].
  - destruct (isDuplicateUserMessage (now w) (messages s) _ _ _).
    + destruct (addSystemMessage_appends (uuid_notice w) (now w) duplicateNotice (messages s))
        as (ns & E & Hns).
      exists None, [], ns. rewrite restamp_none.
      cbn [notify setMessages setInputValue setProcessing messages app].
      rewrite E. repeat split; [left; reflexivity | exact Hns].
    + set (um := mkMessage (genId "u" (uuid_user w)) (inputValue s) user (now w)
                           (Some sending) None None (option_map id (replyTo s))
                           (Some (pendingFiles s))).
      assert (Hum : [um] = [] \/ exists um0, [um] = [um0] /\ is_user um0 = true
                                  /\ id um0 = genId "u" (uuid_user w) /\ accepted p s).
      { right. exists um. split; [reflexivity|]. split; [reflexivity|].
        split; [reflexivity | exact Hacc]. }
      destruct (gemini p && geminiHealth s).
      * destruct (proxy w) as [err|err|stt out].
        -- match goal with
           | |- context [notify ?u ?c ?t _] =>
               destruct (addSystemMessage_appends u c t (messages s ++ [um])%list)
                 as (ns & E & Hns)
           end.
           exists (Some error), [um], ns.
           cbn [release notify toast stage setMessages setIsLoading setProcessing
                        setPendingFiles setReplyTo setInputValue messages].
           rewrite E, mark_is_restamp, <- !app_assoc.
           split; [reflexivity|]. split; assumption.
        -- match goal with
           | |- context [notify ?u ?c ?t _] =>
               destruct (addSystemMessage_appends u c t (messages s ++ [um])%list)
                 as (ns & E & Hns)
           end.
           exists (Some error), [um], ns.
           cbn [release notify toast stage setMessages setIsLoading setProcessing
                        setPendingFiles setReplyTo setInputValue messages].
           rewrite E, mark_is_restamp, <- !app_assoc.
           split; [reflexivity|]. split; assumption.
        -- destruct (negb (status_ok stt)).
           ++ match goal with
              | |- context [notify ?u ?c ?t _] =>
                  destruct (addSystemMessage_appends u c t (messages s ++ [um])%list)
                    as (ns & E & Hns)
              end.
              exists None, [um], ns. rewrite restamp_none.
              cbn [release notify toast stage setMessages setIsLoading setProcessing
                           setPendingFiles setReplyTo setInputValue messages].
              rewrite E, <- !app_assoc.
              split; [reflexivity|]. split; assumption.
           ++ eexists (Some sent), [um], [_].
              cbn [release notify toast stage setMessages setIsLoading setProcessing
                           setPendingFiles setReplyTo setInputValue messages].
              rewrite mark_is_restamp, <- !app_assoc.
              split; [reflexivity|]. split; [assumption | reflexivity].
      * cbn [release notify toast stage setMessages setIsLoading setProcessing
                     setPendingFiles setReplyTo setInputValue messages].
        destruct (existsb _ (messages s ++ [um])).
        -- exists (Some sent), [um], []. rewrite mark_is_restamp, app_nil_r.
           split; [reflexivity|]. split; [assumption | reflexivity].
        -- eexists (Some sent), [um], [_]. rewrite mark_is_restamp, <- !app_assoc.
           split; [reflexivity|]. split; [assumption | reflexivity].
Qed.

Lemma user_count_restamp (uid : string) (st : option Status) (l : list Message) :
  user_count (map (restamp uid st) l) = user_count l.
Proof.
  unfold user_count. induction l as [|m l IH]; simpl; [reflexivity|].
  rewrite is_user_restamp. destruct (is_user m); simpl; rewrite IH; reflexivity.
Qed.

Lemma user_count_app (a b : list Message) :
  user_count (a ++ b) = (user_count a + user_count b)%nat.
Proof. unfold user_count. rewrite filter_app, length_app. reflexivity. Qed.

Lemma user_count_pilots (l : list Message) :
  forallb is_pilot l = true -> user_count l = 0%nat.
Proof.
  intros H. unfold user_count.
  pose proof (users_of_notices [] l H) as E. simpl in E. rewrite E. reflexivity.
Qed.

(** X14.  One call of [handleSendMessage] never removes, reorders or
    rewrites what the transcript already holds: the transcript does not get
    shorter, and every message stays at its position with everything but its
    status unchanged; the status too is unchanged unless the message carries
    the identifier generated for this call's user message. *)
Theorem transcript_is_append_only (p : Props) (w : World) (s : State) :
  (List.length (messages s) <= List.length (messages (handleSendMessage p w s)))%nat
  /\ (forall i m,
        nth_error (messages s) i = Some m ->
        exists m',
          nth_error (messages (handleSendMessage p w s)) i = Some m'
          /\ unstamped m' = unstamped m
          /\ (id m <> genId "u" (uuid_user w) -> m' = m)).
Proof.
  destruct (submission_shape handleCommand p w s handleCommand_appends_notices)
    as (st & users & pilots & E & _ & _).
  unfold handleSendMessage. rewrite E. split.
  - rewrite length_map, length_app. lia.
  - intros i m Hi.
    exists (restamp (genId "u" (uuid_user w)) st m).
    split; [|split].
    + rewrite nth_error_map, nth_error_app1; [rewrite Hi; reflexivity|].
      apply nth_error_Some. rewrite Hi. discriminate.
    + apply unstamped_restamp.
    + apply restamp_other.
Qed.

Lemma transcript_is_append_only_witness :
  exists m',
    nth_error (messages (handleSendMessage Sample.props Sample.failing Sample.fresh)) 0
    = Some m'
    /\ unstamped m' = unstamped Sample.hello
    /\ (id Sample.hello <> genId "u" (uuid_user Sample.failing) -> m' = Sample.hello).
Proof.
  apply (proj2 (transcript_is_append_only Sample.props Sample.failing Sample.fresh)
               0%nat Sample.hello).
  reflexivity.
Defined.

(** X15.  One call appends at most one user message, and none at all when
    the entry guards reject the call (feature flag off, blank input, or a
    submission already in flight). *)
Theorem at_most_one_user_message (p : Props) (w : World) (s : State) :
  (user_count (messages (handleSendMessage p w s)) <= S (user_count (messages s)))%nat
  /\ (~ accepted p s ->
      user_count (messages (handleSendMessage p w s)) = user_count (messages s)).
Proof.
  destruct (submission_shape handleCommand p w s handleCommand_appends_notices)
    as (st & users & pilots & E & Hu & Hp).
  unfold handleSendMessage. rewrite E, user_count_restamp, !user_count_app.
  rewrite (user_count_pilots pilots Hp).
  destruct Hu as [-> | (um & -> & Hum & _ & Hacc)].
  - split; [simpl; lia | intros _; simpl; lia].
  - split.
    + unfold user_count at 2. simpl. rewrite Hum. simpl. lia.
    + intros Hrej. contradiction.
Qed.

Lemma at_most_one_user_message_witness :
  user_count (messages (handleSendMessage Sample.props Sample.at1 (Sample.typed [Sample.hello] "  ")))
  = user_count (messages (Sample.typed [Sample.hello] "  ")).
Proof.
  apply (proj2 (at_most_one_user_message Sample.props Sample.at1
                  (Sample.typed [Sample.hello] "  "))).
  intros (_ & H & _). apply H. vm_compute. reflexivity.
Defined.

(** X16.  A call rejected by the entry guards leaves the form as it is:
    input text, reply target, staged files, busy flag and latch are
    untouched; with the feature flag on the whole state is untouched, and
    with it off the only change is the notice that the assistant is
    disabled. *)
Theorem rejected_submission_keeps_form (p : Props) (w : World) (s : State) :
  ~ accepted p s ->
  inputValue (handleSendMessage p w s) = inputValue s
  /\ replyTo (handleSendMessage p w s) = replyTo s
  /\ pendingFiles (handleSendMessage p w s) = pendingFiles s
  /\ isLoading (handleSendMessage p w s) = isLoading s
  /\ isProcessingRef (handleSendMessage p w s) = isProcessingRef s
  /\ (gemini p = true -> handleSendMessage p w s = s)
  /\ (gemini p = false ->
      messages (handleSendMessage p w s)
      = addSystemMessage (uuid_notice w) (now w)
          "Atenção: Gemini/IA desativado no momento. Ative para enviar mensagens."
          (messages s)).
Proof.
  intros Hrej. unfold handleSendMessage, handleSendMessage_with.
  destruct (gemini p) eqn:Eg; cbn [negb].
  - destruct (String.eqb (trim (inputValue s)) "" || isLoading s || isProcessingRef s)
      eqn:Egate.
    + repeat split. intros H. discriminate H.
    + exfalso. apply Hrej.
      apply orb_false_elim in Egate. destruct Egate as [Egate Hp].
      apply orb_false_elim in Egate. destruct Egate as [Hi Hl].
      apply String.eqb_neq in Hi. repeat split; assumption.
  - repeat split. intros H. discriminate H.
Qed.

Lemma rejected_submission_keeps_form_witness :
  inputValue (handleSendMessage (mkProps "p1" "Demo" false false) Sample.at1 Sample.fresh)
  = "oi"
  /\ user_count (messages (handleSendMessage (mkProps "p1" "Demo" false false)
                                             Sample.at1 Sample.fresh)) = 0%nat.
Proof.
  destruct (rejected_submission_keeps_form (mkProps "p1" "Demo" false false)
              Sample.at1 Sample.fresh) as (H & _).
  - intros (H & _). discriminate H.
  - split; [exact H | vm_compute; reflexivity].
Defined.

(** X17.  Every accepted submission, whatever its path, leaves the input
    field empty and the busy flag cleared. *)
Theorem accepted_submission_resets_form (p : Props) (w : World) (s : State) :
  accepted p s ->
  inputValue (handleSendMessage p w s) = ""
  /\ isLoading (handleSendMessage p w s) = false.
Proof.
  intros Hacc. destruct (gate_open p s Hacc) as [Hg1 Hg2].
  destruct Hacc as (_ & _ & Hl & _).
  unfold handleSendMessage, handleSendMessage_with. rewrite Hg1, Hg2.
  destruct (startsWith "/" (trim (inputValue s))).
  - destruct (isDuplicateUserMessage _ _ _ None None).
    + split; [reflexivity | exact Hl].
    + match goal with
      | |- context [handleCommand ?w0 ?r ?st] =>
          pose proof (handleCommand_frame w0 r st) as Hf;
          destruct (handleCommand w0 r st) as [s3 thrown]
      end.
      cbn [fst] in Hf. destruct Hf as (Hi & _).
      destruct thrown; split; try reflexivity; exact Hi.
  - destruct (isDuplicateUserMessage _ _ _ _ _).
    + split; [reflexivity | exact Hl].
    + destruct (gemini p && geminiHealth s); [|split; reflexivity].
      destruct (proxy w) as [err|err|st out]; try (split; reflexivity).
      destruct (negb (status_ok st)); split; reflexivity.
Qed.

Lemma accepted_submission_resets_form_witness :
  inputValue (handleSendMessage Sample.props Sample.at1 Sample.repeated_command) = ""
  /\ isLoading (handleSendMessage Sample.props Sample.at1 Sample.repeated_command) = false.
Proof.
  apply (accepted_submission_resets_form Sample.props Sample.at1 Sample.repeated_command).
  unfold accepted. repeat split; try reflexivity. vm_compute. discriminate.
Defined.

(** X18.  The proxy is not consulted when the feature flag is off, when the
    health effect has recorded it as unhealthy, or for a command line: in
    these cases the outcome of the call is the same whatever the proxy would
    have answered. *)
Theorem proxy_consulted_only_when_needed (p : Props) (w : World) (s : State)
        (r : ProxyReply) :
  gemini p = false \/ geminiHealth s = false \/ is_command s = true ->
  handleSendMessage p (with_proxy r w) s = handleSendMessage p w s.
Proof.
  intros H. unfold handleSendMessage, handleSendMessage_with.
  destruct (negb (gemini p)) eqn:Eg; [reflexivity|].
  destruct (String.eqb (trim (inputValue s)) "" || isLoading s || isProcessingRef s);
    [reflexivity|].
  unfold is_command in H.
  destruct (startsWith "/" (trim (inputValue s))).
  - reflexivity.
  - apply negb_false_iff in Eg.
    destruct H as [H | [H | H]]; [congruence | | discriminate H].
    rewrite H, andb_false_r. reflexivity.
Qed.

Lemma proxy_consulted_only_when_needed_witness :
  handleSendMessage Sample.props (with_proxy (Replies 500 Sample.boom) Sample.at1)
                    Cases.offline
  = handleSendMessage Sample.props Sample.at1 Cases.offline.
Proof.
  apply (proxy_consulted_only_when_needed Sample.props Sample.at1 Cases.offline).
  right. left. reflexivity.
Defined.

Lemma in_mark (st : Status) (m : Message) (l : list Message) :
  In m l -> In (with_status st m) (mark (id m) st l).
Proof.
  intros H. unfold mark. apply in_map_iff. exists m. split; [|exact H].
  rewrite String.eqb_refl. reflexivity.
Qed.

Lemma in_added (uuid : string) (clock : Z) (text : string) (m : Message)
      (l : list Message) :
  In m l -> In m (addSystemMessage uuid clock text l).
Proof.
  intros H. destruct (addSystemMessage_appends uuid clock text l) as (ns & -> & _).
  apply in_or_app. left. exact H.
Qed.

Lemma in_last (m : Message) (l : list Message) : In m (l ++ [m]).
Proof. apply in_or_app. right. left. reflexivity. Qed.

(** X19.  An accepted submission that is neither a command line nor a
    duplicate records the text exactly as typed (not trimmed) together with
    the pending reply target and the staged files, and empties the input
    field, the reply target and the staging area: staged items go to that one
    message. *)
Theorem staged_items_go_to_one_message (p : Props) (w : World) (s : State) :
  accepted p s ->
  startsWith "/" (trim (inputValue s)) = false ->
  isDuplicateUserMessage (now w) (messages s) (inputValue s)
                         (option_map id (replyTo s)) (Some (pendingFiles s)) = false ->
  (exists st,
      In (mkMessage (genId "u" (uuid_user w)) (inputValue s) user (now w) (Some st)
                    None None (option_map id (replyTo s)) (Some (pendingFiles s)))
         (messages (handleSendMessage p w s)))
  /\ inputValue (handleSendMessage p w s) = ""
  /\ replyTo (handleSendMessage p w s) = None
  /\ pendingFiles (handleSendMessage p w s) = [].
Proof.
  intros Hacc Hcmd Hnew. destruct (gate_open p s Hacc) as [Hg1 Hg2].
  unfold handleSendMessage, handleSendMessage_with. rewrite Hg1, Hg2, Hcmd, Hnew.
  set (um := mkMessage (genId "u" (uuid_user w)) (inputValue s) user (now w)
                       (Some sending) None None (option_map id (replyTo s))
                       (Some (pendingFiles s))).
  destruct (gemini p && geminiHealth s).
  - destruct (proxy w) as [err|err|st out].
    + split; [|repeat split]. exists error.
      apply (in_mark error um). apply in_added. apply in_last.
    + split; [|repeat split]. exists error.
      apply (in_mark error um). apply in_added. apply in_last.
    + destruct (negb (status_ok st)).
      * split; [|repeat split]. exists sending.
        cbn [messages release setProcessing setIsLoading setMessages notify].
        apply in_added. apply in_last.
      * split; [|repeat split]. exists sent.
        apply (in_mark sent um).
        cbn [messages setMessages stage setIsLoading setPendingFiles setReplyTo
                      setInputValue setProcessing].
        apply in_or_app. left. apply in_last.
  - split; [|repeat split]. exists sent.
    apply (in_mark sent um).
    cbn [messages setMessages stage setIsLoading setPendingFiles setReplyTo
                  setInputValue setProcessing].
    destruct (existsb _ _); [apply in_last | apply in_or_app; left; apply in_last].
Qed.

Lemma staged_items_go_to_one_message_witness :
  (exists st,
      In (mkMessage (genId "u" (uuid_user Sample.at1)) "oi" user (now Sample.at1) (Some st)
                    None None (Some "hello") (Some (map attachment_of Cases.picked)))
         (messages (handleSendMessage Sample.props Sample.at1 Cases.replying)))
  /\ inputValue (handleSendMessage Sample.props Sample.at1 Cases.replying) = ""
  /\ replyTo (handleSendMessage Sample.props Sample.at1 Cases.replying) = None
  /\ pendingFiles (handleSendMessage Sample.props Sample.at1 Cases.replying) = [].
Proof.
  apply (staged_items_go_to_one_message Sample.props Sample.at1 Cases.replying).
  - unfold accepted. repeat split; try reflexivity. vm_compute. discriminate.
  - vm_compute. reflexivity.
  - vm_compute. reflexivity.
Defined.

(** X20.  With the program's own dispatcher, the message recorded for an
    accepted, non-duplicate command line always ends as [sent], also when the
    command itself failed (its failure is a notice); it carries neither reply
    target nor attachments, and the pending reply target and the staged files
    are discarded.  The latch is released. *)
Theorem command_message_always_sent (p : Props) (w : World) (s : State) :
  accepted p s ->
  startsWith "/" (trim (inputValue s)) = true ->
  isDuplicateUserMessage (now w) (messages s) (redact (trim (inputValue s))) None None
  = false ->
  In (mkMessage (genId "u" (uuid_user w)) (redact (trim (inputValue s))) user (now w)
                (Some sent) None None None None)
     (messages (handleSendMessage p w s))
  /\ replyTo (handleSendMessage p w s) = None
  /\ pendingFiles (handleSendMessage p w s) = []
  /\ isProcessingRef (handleSendMessage p w s) = false.
Proof.
  intros Hacc Hcmd Hnew. destruct (gate_open p s Hacc) as [Hg1 Hg2].
  unfold handleSendMessage, handleSendMessage_with. rewrite Hg1, Hg2, Hcmd, Hnew.
  set (um := commandMessage w (redact (trim (inputValue s)))).
  set (s2 := stage um (setProcessing true s)).
  pose proof (handleCommand_frame w (trim (inputValue s)) s2) as Hf.
  pose proof (handleCommand_returns w (trim (inputValue s)) s2) as Hr.
  destruct (handleCommand_appends_notices w (trim (inputValue s)) s2) as (ns & Hms & _).
  destruct (handleCommand w (trim (inputValue s)) s2) as [s3 thrown].
  cbn [fst snd] in *. subst thrown.
  destruct Hf as (_ & _ & _ & _ & Hrep & Hpend & _).
  split; [|repeat split; assumption].
  apply (in_mark sent um).
  cbn [messages release setProcessing setIsLoading setMessages].
  rewrite Hms. apply in_or_app. left. apply in_last.
Qed.

Lemma command_message_always_sent_witness :
  In (mkMessage (genId "u" (uuid_user Sample.at1)) "/migrar-mock" user (now Sample.at1)
                (Some sent) None None None None)
     (messages (handleSendMessage Sample.props Sample.at1 Cases.command_with_files))
  /\ replyTo (handleSendMessage Sample.props Sample.at1 Cases.command_with_files) = None
  /\ pendingFiles (handleSendMessage Sample.props Sample.at1 Cases.command_with_files) = []
  /\ isProcessingRef (handleSendMessage Sample.props Sample.at1 Cases.command_with_files)
     = false.
Proof.
  apply (command_message_always_sent Sample.props Sample.at1 Cases.command_with_files).
  - unfold accepted. repeat split; try reflexivity. vm_compute. discriminate.
  - vm_compute. reflexivity.
  - vm_compute. reflexivity.
Defined.


Lemma concat_starts_nonempty (sep j : string) (rest : list string) :
  j <> "" -> String.concat sep (j :: rest) <> "".
Proof.
  intros Hj. destruct j as [|c j]; [congruence|].
  destruct rest; simpl; discriminate.
Qed.

Lemma absent_some (t : string) : t <> "" -> absent (Some t) = false.
Proof. intros H. unfold absent. apply String.eqb_neq. exact H. Qed.

(** X22.  Without a store session, [/listar], [/inserir], [/atualizar] and
    [/deletar] given their arguments answer with the notice that the store is
    not connected and do nothing else: the store is not called and the JSON
    argument is not even parsed, so the result is the same whatever the store
    would have done. *)
Theorem store_commands_need_session (w : World) (raw : string) (s : State)
        (b : Backend) :
  supabaseRef s = None ->
  store_command (split (trim raw)) ->
  handleCommand (with_backend b w) raw s
  = (notify (uuid_command w) (now w) "Supabase não conectado." s, None).
Proof.
  intros Href Hparts. unfold handleCommand.
  destruct Hparts as [(t & rest & -> & Ht)
                     |[(t & j & rest & -> & Ht & Hj)
                      |[(t & i & j & rest & -> & Ht & Hi & Hj)
                       |(t & i & rest & -> & Ht & Hi)]]].
  - cbn [part_is nth_error]. cbn -[absent notify].
    rewrite (absent_some t Ht), Href. reflexivity.
  - cbn [part_is nth_error skipn]. cbn -[String.concat absent notify].
    rewrite (absent_some t Ht). unfold join.
    pose proof (concat_starts_nonempty " " j rest Hj) as Hne.
    apply String.eqb_neq in Hne. rewrite Hne. cbn [orb]. rewrite Href. reflexivity.
  - cbn [part_is nth_error skipn]. cbn -[String.concat absent notify].
    rewrite (absent_some t Ht), (absent_some i Hi). unfold join.
    pose proof (concat_starts_nonempty " " j rest Hj) as Hne.
    apply String.eqb_neq in Hne. rewrite Hne. cbn [orb]. rewrite Href. reflexivity.
  - cbn [part_is nth_error]. cbn -[absent notify].
    rewrite (absent_some t Ht), (absent_some i Hi). cbn [orb]. rewrite Href. reflexivity.
Qed.

Lemma store_commands_need_session_witness :
  handleCommand (with_backend Cases.open_backend Sample.at1)
                ("/atualizar t1 abc " ++ Cases.json_arg) Sample.fresh
  = (notify (uuid_command Sample.at1) (now Sample.at1) "Supabase não conectado."
            Sample.fresh, None).
Proof.
  apply (store_commands_need_session Sample.at1 ("/atualizar t1 abc " ++ Cases.json_arg)
                                     Sample.fresh Cases.open_backend).
  - reflexivity.
  - right. right. left. exists "t1", "abc", Cases.json_arg, [].
    repeat split; discriminate.
Defined.

Lemma connect_accepted (w : World) (raw : string) (s : State)
      (u k : string) (rest : list string) :
  split (trim raw) = "/supabase" :: "connect" :: u :: k :: rest ->
  u <> "" -> k <> "" ->
  probe (backend w) (mkClient u k) = None ->
  supabaseRef (fst (handleCommand w raw s)) = Some (mkClient u k)
  /\ supabaseStatus (fst (handleCommand w raw s)) = connected.
Proof.
  intros Hparts Hu Hk Hp. unfold handleCommand. rewrite Hparts.
  cbn [part_is nth_error]. cbn -[absent notify probe].
  rewrite (absent_some u Hu), (absent_some k Hk). cbn [orb].
  rewrite Hp. split; reflexivity.
Qed.

(** X23.  [/supabase connect <url> <key>] keeps the session in memory only
    when the store accepts the credentials: on success the session holds
    exactly the given url and key and the status is [connected]; when the
    probe fails the previous session (if any) is kept, the status is [failed]
    and the failure is reported.  With the url or the key missing, the store
    is not contacted and only the usage notice is added. *)
Theorem connect_opens_session (w : World) (raw : string) (s : State) :
  (forall u k rest,
      split (trim raw) = "/supabase" :: "connect" :: u :: k :: rest ->
      u <> "" -> k <> "" ->
      (probe (backend w) (mkClient u k) = None ->
       supabaseRef (fst (handleCommand w raw s)) = Some (mkClient u k)
       /\ supabaseStatus (fst (handleCommand w raw s)) = connected)
      /\ (forall err,
            probe (backend w) (mkClient u k) = Some err ->
            supabaseRef (fst (handleCommand w raw s)) = supabaseRef s
            /\ supabaseStatus (fst (handleCommand w raw s)) = failed
            /\ messages (fst (handleCommand w raw s))
               = addSystemMessage (uuid_command w) (later w)
                   ("Falha ao conectar Supabase: " ++ describe err) (messages s)))
  /\ ((split (trim raw) = ["/supabase"; "connect"]
       \/ exists u, split (trim raw) = ["/supabase"; "connect"; u]) ->
      forall b,
        handleCommand (with_backend b w) raw s
        = (notify (uuid_command w) (now w) "Uso: /supabase connect <url> <key>" s, None)).
Proof.
  split.
  - intros u k rest Hparts Hu Hk. unfold handleCommand. rewrite Hparts.
    cbn [part_is nth_error]. cbn -[absent notify probe].
    rewrite (absent_some u Hu), (absent_some k Hk). cbn [orb].
    split.
    + intros Hp. rewrite Hp. split; reflexivity.
    + intros err Hp. rewrite Hp. repeat split.
  - intros [Hparts | (u & Hparts)] b; unfold handleCommand; rewrite Hparts.
    + reflexivity.
    + cbn [part_is nth_error]. cbn -[notify]. rewrite orb_true_r. reflexivity.
Qed.

Lemma connect_opens_session_witness :
  supabaseRef (fst (handleCommand Cases.open_world "/supabase connect https://x.co chave"
                                  Sample.fresh))
  = Some (mkClient "https://x.co" "chave")
  /\ supabaseStatus (fst (handleCommand Cases.open_world
                                        "/supabase connect https://x.co chave" Sample.fresh))
     = connected.
Proof.
  apply (proj1 (connect_opens_session Cases.open_world
                  "/supabase connect https://x.co chave" Sample.fresh)
               "https://x.co" "chave" []);
    try discriminate; reflexivity.
Defined.

(** X24.  The session opened by a successful [/supabase connect] is the one
    used afterwards: a following [/listar <table>] queries the store with the
    url and key given to [connect], and reports the rows or the error of that
    query. *)
Theorem connect_then_list (w1 w2 : World) (raw1 raw2 : string) (s : State)
        (u k t : string) (rest1 rest2 : list string) :
  split (trim raw1) = "/supabase" :: "connect" :: u :: k :: rest1 ->
  u <> "" -> k <> "" ->
  probe (backend w1) (mkClient u k) = None ->
  split (trim raw2) = "/listar" :: t :: rest2 ->
  t <> "" ->
  messages (fst (handleCommand w2 raw2 (fst (handleCommand w1 raw1 s))))
  = addSystemMessage (uuid_command w2) (later w2)
      (match list_rows (backend w2) (mkClient u k) t with
       | Returns data =>
           "Resultados (" ++ length_of data ++ "):" ++ nl ++ nl ++ JSON_pretty w2 data
       | Errors err => "Erro ao listar: " ++ describe err
       end)
      (messages (fst (handleCommand w1 raw1 s))).
Proof.
  intros H1 Hu Hk Hp H2 Ht.
  destruct (connect_accepted w1 raw1 s u k rest1 H1 Hu Hk Hp) as [Href _].
  set (s1 := fst (handleCommand w1 raw1 s)) in *.
  unfold handleCommand at 1. rewrite H2.
  cbn [part_is nth_error]. cbn -[absent notify list_rows length_of].
  rewrite (absent_some t Ht), Href.
  destruct (list_rows (backend w2) (mkClient u k) t); reflexivity.
Qed.

Lemma connect_then_list_witness :
  messages (fst (handleCommand Cases.open_world "/listar projects"
                   (fst (handleCommand Cases.open_world
                           "/supabase connect https://x.co chave" Sample.fresh))))
  = addSystemMessage (uuid_command Cases.open_world) (later Cases.open_world)
      (match list_rows (backend Cases.open_world) (mkClient "https://x.co" "chave")
                       "projects" with
       | Returns data =>
           "Resultados (" ++ length_of data ++ "):" ++ nl ++ nl
           ++ JSON_pretty Cases.open_world data
       | Errors err => "Erro ao listar: " ++ describe err
       end)
      (messages (fst (handleCommand Cases.open_world
                        "/supabase connect https://x.co chave" Sample.fresh))).
Proof.
  apply (connect_then_list Cases.open_world Cases.open_world
           "/supabase connect https://x.co chave" "/listar projects" Sample.fresh
           "https://x.co" "chave" "projects" [] []);
    try discriminate; reflexivity.
Defined.

(** X25.  On a non-empty transcript the arrow keys keep the selection
    cursor on a message: starting from no selection or from a valid index,
    ArrowUp and ArrowDown yield an index between 0 and the last one, and
    change nothing but the cursor. *)
Theorem arrows_keep_selection_in_range (p : Props) (w : World) (e : KeyEvent) (v : View) :
  messages (state v) <> [] ->
  key e = "ArrowUp" \/ key e = "ArrowDown" ->
  (forall i, selectedIdx v = Some i ->
             0 <= i < Z.of_nat (List.length (messages (state v)))) ->
  state (handleKeyDown p w e v) = state v
  /\ exists i m,
       selectedIdx (handleKeyDown p w e v) = Some i
       /\ 0 <= i < Z.of_nat (List.length (messages (state v)))
       /\ at_index (messages (state v)) i = Some m.
Proof.
  intros Hne Hkey Hsel.
  assert (Hlen : 0 < Z.of_nat (List.length (messages (state v)))).
  { destruct (messages (state v)); [congruence | simpl; lia]. }
  assert (Hat : forall i, 0 <= i < Z.of_nat (List.length (messages (state v))) ->
                          exists m, at_index (messages (state v)) i = Some m).
  { intros i Hi. unfold at_index.
    destruct (i <? 0) eqn:E; [lia|].
    destruct (nth_error (messages (state v)) (Z.to_nat i)) as [m|] eqn:En.
    - exists m. reflexivity.
    - apply nth_error_None in En. lia. }
  unfold handleKeyDown.
  destruct Hkey as [-> | ->]; cbn -[Z.of_nat Z.max Z.min Z.sub Z.add].
  - split; [reflexivity|].
    destruct (selectedIdx v) as [i|] eqn:Es.
    + specialize (Hsel i eq_refl).
      destruct (Hat (Z.max 0 (i - 1)) ltac:(lia)) as (m & Hm).
      exists (Z.max 0 (i - 1)), m. repeat split; try lia. exact Hm.
    + destruct (Hat (Z.of_nat (List.length (messages (state v))) - 1) ltac:(lia))
        as (m & Hm).
      eexists _, m. repeat split; try lia. exact Hm.
  - split; [reflexivity|].
    destruct (selectedIdx v) as [i|] eqn:Es.
    + specialize (Hsel i eq_refl).
      destruct (Hat (Z.min (Z.of_nat (List.length (messages (state v))) - 1) (i + 1))
                    ltac:(lia)) as (m & Hm).
      eexists _, m. repeat split; try lia. exact Hm.
    + destruct (Hat 0 ltac:(lia)) as (m & Hm).
      exists 0, m. repeat split; try lia. exact Hm.
Qed.

Lemma arrows_keep_selection_in_range_witness :
  state (handleKeyDown Sample.props Sample.at1 (mkKey "ArrowUp" false "pilot-input")
                       (mkView Sample.repeated None))
  = Sample.repeated
  /\ exists i m,
       selectedIdx (handleKeyDown Sample.props Sample.at1
                                  (mkKey "ArrowUp" false "pilot-input")
                                  (mkView Sample.repeated None)) = Some i
       /\ 0 <= i < Z.of_nat (List.length (messages Sample.repeated))
       /\ at_index (messages Sample.repeated) i = Some m.
Proof.
  apply (arrows_keep_selection_in_range Sample.props Sample.at1
           (mkKey "ArrowUp" false "pilot-input") (mkView Sample.repeated None)).
  - discriminate.
  - left. reflexivity.
  - intros i H. discriminate H.
Defined.

(** X26.  Only an unshifted Enter pressed in the input field while nothing
    is in flight submits.  Any other key event leaves the transcript, the
    input text, the staged files, the busy flag and the latch as they are;
    Escape clears the pending reply target. *)
Theorem keys_do_not_edit_transcript (p : Props) (w : World) (e : KeyEvent) (v : View) :
  key e <> "Enter" \/ shiftKey e = true \/ target e <> "pilot-input"
  \/ isLoading (state v) = true \/ isProcessingRef (state v) = true ->
  messages (state (handleKeyDown p w e v)) = messages (state v)
  /\ inputValue (state (handleKeyDown p w e v)) = inputValue (state v)
  /\ pendingFiles (state (handleKeyDown p w e v)) = pendingFiles (state v)
  /\ isLoading (state (handleKeyDown p w e v)) = isLoading (state v)
  /\ isProcessingRef (state (handleKeyDown p w e v)) = isProcessingRef (state v)
  /\ (key e = "Escape" -> replyTo (state (handleKeyDown p w e v)) = None).
Proof.
  intros H. unfold handleKeyDown.
  assert (E : (if String.eqb (key e) "Enter" && negb (shiftKey e)
                  && String.eqb (target e) "pilot-input"
               then if negb (isLoading (state v)) && negb (isProcessingRef (state v))
                    then mkView (handleSendMessage p w (state v)) (selectedIdx v)
                    else v
               else v) = v).
  { destruct (String.eqb (key e) "Enter") eqn:Ek; [|reflexivity].
    destruct (shiftKey e) eqn:Es; [reflexivity|].
    destruct (String.eqb (target e) "pilot-input") eqn:Et; [|reflexivity].
    destruct (isLoading (state v)) eqn:El; [reflexivity|].
    destruct (isProcessingRef (state v)) eqn:Ep; [reflexivity|].
    apply String.eqb_eq in Ek. apply String.eqb_eq in Et.
    destruct H as [H | [H | [H | [H | H]]]]; congruence. }
  rewrite E. clear E H.
  destruct (String.eqb (key e) "Escape") eqn:Eesc.
  - apply String.eqb_eq in Eesc. rewrite Eesc. cbn. repeat split.
  - destruct (is_r (key e)); destruct (selectedIdx v);
      destruct (String.eqb (key e) "ArrowUp"); destruct (String.eqb (key e) "ArrowDown");
      cbn; repeat split; intros Hk; rewrite Hk in Eesc; discriminate Eesc.
Qed.

Lemma keys_do_not_edit_transcript_witness :
  messages (state (handleKeyDown Sample.props Sample.at1 (mkKey "Escape" false "pilot-input")
                                 (mkView Cases.replying None)))
  = messages Cases.replying
  /\ replyTo (state (handleKeyDown Sample.props Sample.at1
                                   (mkKey "Escape" false "pilot-input")
                                   (mkView Cases.replying None))) = None.
Proof.
  destruct (keys_do_not_edit_transcript Sample.props Sample.at1
              (mkKey "Escape" false "pilot-input") (mkView Cases.replying None))
    as (H1 & _ & _ & _ & _ & H2).
  - left. discriminate.
  - split; [exact H1 | apply H2; reflexivity].
Defined.

Lemma find_restamp (rid uid : string) (st : option Status) (l : list Message) :
  find (fun mm => String.eqb (id mm) rid) (map (restamp uid st) l)
  = option_map (restamp uid st) (find (fun mm => String.eqb (id mm) rid) l).
Proof.
  induction l as [|m l IH]; simpl; [reflexivity|].
  assert (E : id (restamp uid st m) = id m).
  { unfold restamp. destruct st as [v|]; [|reflexivity].
    destruct (String.eqb (id m) uid); reflexivity. }
  rewrite E. destruct (String.eqb (id m) rid); [reflexivity | exact IH].
Qed.

Lemma find_app_some {A : Type} (f : A -> bool) (l l' : list A) (x : A) :
  find f l = Some x -> find f (l ++ l') = Some x.
Proof.
  induction l as [|y l IH]; simpl; [discriminate|].
  destruct (f y); [trivial | exact IH].
Qed.

(** X27.  A reply reference that resolves keeps resolving to the same text
    after any call of [handleSendMessage]: if the first message carrying the
    identifier is [r], the preview shown for a message replying to it is the
    first 120 characters of [r], before and after the call.  This holds in
    particular for the message that the call itself appends with [r] as its
    reply target. *)
Theorem reply_target_keeps_resolving (p : Props) (w : World) (s : State)
        (r m' : Message) :
  find (fun mm => String.eqb (id mm) (id r)) (messages s) = Some r ->
  id r <> "" ->
  replyToId m' = Some (id r) ->
  replyPreview (messages s) m' = Some (substring 0 120 (content r))
  /\ replyPreview (messages (handleSendMessage p w s)) m'
     = Some (substring 0 120 (content r)).
Proof.
  intros Hfind Hid Hreply. unfold replyPreview. rewrite Hreply.
  apply String.eqb_neq in Hid. rewrite Hid, Hfind.
  split; [reflexivity|].
  destruct (submission_shape handleCommand p w s handleCommand_appends_notices)
    as (st & users & pilots & E & _ & _).
  unfold handleSendMessage. rewrite E, find_restamp.
  rewrite (find_app_some _ _ (users ++ pilots) r Hfind). simpl.
  unfold restamp. destruct st as [v|]; [|reflexivity].
  destruct (String.eqb (id r) (genId "u" (uuid_user w))); reflexivity.
Qed.

Lemma reply_target_keeps_resolving_witness :
  replyPreview (messages Cases.replying)
    (mkMessage (genId "u" (uuid_user Sample.at1)) "oi" user (now Sample.at1) (Some sent)
               None None (Some "hello") (Some (map attachment_of Cases.picked)))
  = Some (substring 0 120 (content Sample.hello))
  /\ replyPreview (messages (handleSendMessage Sample.props Sample.at1 Cases.replying))
       (mkMessage (genId "u" (uuid_user Sample.at1)) "oi" user (now Sample.at1) (Some sent)
                  None None (Some "hello") (Some (map attachment_of Cases.picked)))
     = Some (substring 0 120 (content Sample.hello)).
Proof.
  apply (reply_target_keeps_resolving Sample.props Sample.at1 Cases.replying Sample.hello);
    [reflexivity | discriminate | reflexivity].
Defined.

Lemma filter_keeps_all {A : Type} (f : A -> bool) (l : list A) :
  (forall a, In a l -> f a = true) -> filter f l = l.
Proof.
  intros H. induction l as [|x l IH]; simpl; [reflexivity|].
  rewrite (H x (or_introl eq_refl)). f_equal. apply IH.
  intros a Ha. apply H. right. exact Ha.
Qed.

(** X28.  Picking files stages one attachment per file, in order and after
    the files already staged, each under the name of its file, and touches
    nothing else; picking nothing changes nothing.  Removing a staged file by
    its identifier undoes the pick when no other staged file carries that
    identifier. *)
Theorem picked_files_are_staged (s : State) (fs : list Picked) (f : Picked) :
  handleFilePick None s = s
  /\ map att_name (pendingFiles (handleFilePick (Some fs) s))
     = (map att_name (pendingFiles s) ++ map file_name fs)%list
  /\ messages (handleFilePick (Some fs) s) = messages s
  /\ inputValue (handleFilePick (Some fs) s) = inputValue s
  /\ ((forall a, In a (pendingFiles s) -> att_id a <> file_name f ++ "-" ++ file_uuid f) ->
      removePendingFile (file_name f ++ "-" ++ file_uuid f) (handleFilePick (Some [f]) s)
      = s).
Proof.
  split; [reflexivity|]. split; [|split; [reflexivity|split; [reflexivity|]]].
  - cbn [handleFilePick setPendingFiles pendingFiles].
    rewrite map_app, map_map. reflexivity.
  - intros Hfresh. unfold removePendingFile, handleFilePick.
    cbn [setPendingFiles pendingFiles map].
    rewrite filter_app. cbn [filter attachment_of att_id].
    rewrite String.eqb_refl. cbn [negb]. rewrite app_nil_r.
    rewrite filter_keeps_all.
    + destruct s; reflexivity.
    + intros a Ha. apply negb_true_iff. apply String.eqb_neq. apply Hfresh. exact Ha.
Qed.

Lemma picked_files_are_staged_witness :
  removePendingFile "c.txt-f3"
    (handleFilePick (Some [mkPicked "c.txt" "text/plain" "f3" "blob:3"]) Cases.replying)
  = Cases.replying.
Proof.
  apply (proj2 (proj2 (proj2 (proj2
           (picked_files_are_staged Cases.replying []
              (mkPicked "c.txt" "text/plain" "f3" "blob:3")))))).
  intros a [<- | [<- | []]]; discriminate.
Defined.

(** X29.  The chat posts [{ prompt }] without a chat id, which the
    context-aware handler never accepts: whatever the server configuration,
    it answers 400 without calling the generation endpoint, and the chat
    reports the error in a notice, leaves the user message in [sending] and
    releases the latch. *)
Theorem chat_request_rejected_by_context_aware_proxy
        (env : Proxy.Env) (p : Props) (w : World) (s : State) :
  accepted p s ->
  startsWith "/" (trim (inputValue s)) = false ->
  isDuplicateUserMessage (now w) (messages s) (inputValue s)
                         (option_map id (replyTo s)) (Some (pendingFiles s)) = false ->
  geminiHealth s = true ->
  proxy w = observed (Proxy.response (Proxy.serve env (chat_request (inputValue s)))) ->
  Proxy.status (Proxy.response (Proxy.serve env (chat_request (inputValue s)))) = 400
  /\ Proxy.sent (Proxy.serve env (chat_request (inputValue s))) = None
  /\ (exists reason,
         (reason = "GEMINI_API_KEY missing" \/ reason = "Chat ID is required")
         /\ messages (handleSendMessage p w s)
            = addSystemMessage (uuid_notice w) (later w) ("Erro Gemini: " ++ reason)
                (messages s
                 ++ [mkMessage (genId "u" (uuid_user w)) (inputValue s) user (now w)
                               (Some sending) None None (option_map id (replyTo s))
                               (Some (pendingFiles s))]))
  /\ isProcessingRef (handleSendMessage p w s) = false.
Proof.
  intros Hacc Hcmd Hnew Hh Hproxy.
  destruct (gate_open p s Hacc) as [Hg1 Hg2].
  assert (Hgem : gemini p = true) by (destruct Hacc as (H & _); exact H).
  assert (Hin : inputValue s <> "").
  { destruct Hacc as (_ & H & _). intros E. apply H. rewrite E. reflexivity. }
  assert (Hserve :
            exists reason,
              (reason = "GEMINI_API_KEY missing" \/ reason = "Chat ID is required")
              /\ Proxy.serve env (chat_request (inputValue s))
                 = Proxy.mkOutcome
                     (Proxy.mkResponse 400 (Proxy.Failure (Some (JStr reason)) None))
                     None []).
  { unfold Proxy.serve, chat_request. cbn [Proxy.method Proxy.body Proxy.prompt Proxy.chatId].
    destruct (Proxy.missing (Proxy.GEMINI_API_KEY env)).
    - exists "GEMINI_API_KEY missing". split; [left; reflexivity | reflexivity].
    - rewrite (required_string_some _ Hin). cbn.
      exists "Chat ID is required". split; [right; reflexivity | reflexivity]. }
  destruct Hserve as (reason & Hreason & Hserve).
  rewrite Hserve in *. cbn [Proxy.response Proxy.status Proxy.sent] in *.
  split; [reflexivity|]. split; [reflexivity|].
  unfold observed in Hproxy. cbn in Hproxy.
  unfold handleSendMessage, handleSendMessage_with.
  rewrite Hg1, Hg2, Hcmd, Hnew, Hgem, Hh, Hproxy. cbn [andb].
  change (status_ok 400) with false. cbn [negb].
  split; [|reflexivity].
  exists reason. split; [exact Hreason|].
  destruct Hreason as [-> | ->]; reflexivity.
Qed.

Lemma chat_request_rejected_by_context_aware_proxy_witness :
  Proxy.status (Proxy.response
                  (Proxy.serve (Sample.env_of Sample.three)
                               (chat_request (inputValue Sample.fresh)))) = 400
  /\ isProcessingRef
       (handleSendMessage Sample.props
          (with_proxy (observed (Proxy.response
                                   (Proxy.serve (Sample.env_of Sample.three)
                                                (chat_request (inputValue Sample.fresh)))))
                      Sample.at1)
          Sample.fresh) = false.
Proof.
  destruct (chat_request_rejected_by_context_aware_proxy
              (Sample.env_of Sample.three) Sample.props
              (with_proxy (observed (Proxy.response
                                       (Proxy.serve (Sample.env_of Sample.three)
                                                    (chat_request (inputValue Sample.fresh)))))
                          Sample.at1)
              Sample.fresh) as (H1 & _ & _ & H2).
  - unfold accepted. repeat split; try reflexivity. vm_compute. discriminate.
  - vm_compute. reflexivity.
  - vm_compute. reflexivity.
  - reflexivity.
  - reflexivity.
  - split; assumption.
Defined.

(** X30.  Against the single-shot handler the exchange completes: when the
    generation endpoint answers OK with a non-empty text in one of the two
    known shapes, the chat appends one pilot reply whose content is exactly
    the text that the handler extracted, and marks the user message [sent]. *)
Theorem chat_and_single_shot_round_trip
        (env : Single.Env) (key : string) (p : Props) (w : World) (s : State)
        (st : Z) (out : json) (t : string) :
  accepted p s ->
  startsWith "/" (trim (inputValue s)) = false ->
  isDuplicateUserMessage (now w) (messages s) (inputValue s)
                         (option_map id (replyTo s)) (Some (pendingFiles s)) = false ->
  geminiHealth s = true ->
  Single.GEMINI_API_KEY env = Some key -> key <> "" ->
  Single.generate env (truncate 5000 (inputValue s)) = Proxy.Responds st out ->
  200 <= st <= 299 ->
  Proxy.extract_text out = Some (JStr t) ->
  proxy w = observed (Single.response (Single.serve env (chat_request_single (inputValue s)))) ->
  messages (handleSendMessage p w s)
  = mark (genId "u" (uuid_user w)) sent
      (messages s
       ++ [mkMessage (genId "u" (uuid_user w)) (inputValue s) user (now w)
                     (Some sending) None None (option_map id (replyTo s))
                     (Some (pendingFiles s));
           mkMessage (genId "p" (uuid_reply w)) t pilot (later w) (Some sent)
                     (Some (firstn 5 (fst (queryAccessible (projectId p)))))
                     (Some (buildChecklist (projectId p))) None None]).
Proof.
  intros Hacc Hcmd Hnew Hh Hkey Hk Hgen Hst Htext Hproxy.
  destruct (gate_open p s Hacc) as [Hg1 Hg2].
  assert (Hgem : gemini p = true) by (destruct Hacc as (H & _); exact H).
  assert (Hin : inputValue s <> "").
  { destruct Hacc as (_ & H & _). intros E. apply H. rewrite E. reflexivity. }
  assert (Hm : Proxy.missing (Single.GEMINI_API_KEY env) = false).
  { unfold Proxy.missing. rewrite Hkey. apply String.eqb_neq. exact Hk. }
  assert (Hok : status_ok st = true).
  { unfold status_ok. apply andb_true_intro. split; apply Z.leb_le; lia. }
  pose proof (extract_text_truthy out (JStr t) Htext) as Htruthy.
  assert (Hserve : Single.response (Single.serve env (chat_request_single (inputValue s)))
                   = Proxy.mkResponse 200 (Proxy.Success (Some (JStr t)) out)).
  { unfold Single.serve, chat_request_single. cbn [Single.method Single.body].
    rewrite Hm, (required_string_some _ Hin), Hgen, Hok, Htext. reflexivity. }
  rewrite Hserve in Hproxy. unfold observed in Hproxy. cbn in Hproxy.
  unfold handleSendMessage, handleSendMessage_with.
  rewrite Hg1, Hg2, Hcmd, Hnew, Hgem, Hh, Hproxy. cbn [andb].
  change (status_ok 200) with true. cbn [negb].
  assert (Hreply : replyText w (JObj [("ok", JBool true); ("text", JStr t); ("raw", out)]) = t).
  { assert (Ht : String.eqb t "" = false)
      by (simpl in Htruthy; apply negb_true_iff in Htruthy; exact Htruthy).
    unfold replyText, or_else.
    change (get "text" (Some (JObj [("ok", JBool true); ("text", JStr t); ("raw", out)])))
      with (Some (JStr t)).
    change (truthy (Some (JStr t))) with (negb (String.eqb t "")).
    rewrite Ht. cbn [negb truthy]. rewrite Ht. reflexivity. }
  rewrite Hreply.
  cbn [messages release setProcessing setIsLoading setMessages stage setPendingFiles
                setReplyTo setInputValue id].
  rewrite <- app_assoc. reflexivity.
Qed.

Lemma chat_and_single_shot_round_trip_witness :
  messages (handleSendMessage Sample.props
              (with_proxy (observed (Single.response
                                       (Single.serve Cases.single_env
                                                     (chat_request_single "oi"))))
                          Sample.at1)
              Sample.fresh)
  = mark (genId "u" (uuid_user Sample.at1)) sent
      (messages Sample.fresh
       ++ [mkMessage (genId "u" (uuid_user Sample.at1)) "oi" user (now Sample.at1)
                     (Some sending) None None None (Some []);
           mkMessage (genId "p" (uuid_reply Sample.at1)) "ola" pilot (later Sample.at1)
                     (Some sent)
                     (Some (firstn 5 (fst (queryAccessible (projectId Sample.props)))))
                     (Some (buildChecklist (projectId Sample.props))) None None]).
Proof.
  apply (chat_and_single_shot_round_trip Cases.single_env "k" Sample.props
           (with_proxy (observed (Single.response
                                    (Single.serve Cases.single_env
                                                  (chat_request_single "oi"))))
                       Sample.at1)
           Sample.fresh 200 (Sample.answer "ola") "ola");
    try reflexivity; try discriminate.
  - unfold accepted. repeat split; try reflexivity. vm_compute. discriminate.
  - lia.
Defined.

End ChatEdges.
